(** * gomuks: the crypto command handlers of [ui/crypto-commands.go]

    The handlers are short workflows over four collaborators (crypto
    engine, directory client, trust store, user prompt / reply).  They are
    embedded here as programs of a state-and-panic monad: the state holds
    what the handlers mutate themselves (device records behind pointers,
    the cached cross-signing key set, the SAS timeout) together with the
    ordered record of every call made to a collaborator; the answers of
    the collaborators are supplied by an environment. *)

From Stdlib Require Import String Ascii List DecimalString.
From stdpp Require Import gmap strings list fin_maps.
Open Scope string_scope.

(** ** Identifiers and library data *)

Definition UserID := string.
Definition DeviceID := string.
Definition RoomID := string.
Definition Ed25519 := string.
Definition AuthType := string.
Definition ptr := nat.

(** Modelled from the spec: the trust state attached to a device
    ([crypto.TrustState] of the mautrix library, which is not under src/). *)
Inductive TrustState :=
| TrustStateUnset
| TrustStateVerified
| TrustStateBlacklisted
| TrustStateCrossSigningVerified.

Definition TrustState_eqb (a b : TrustState) : bool :=
  match a, b with
  | TrustStateUnset, TrustStateUnset
  | TrustStateVerified, TrustStateVerified
  | TrustStateBlacklisted, TrustStateBlacklisted
  | TrustStateCrossSigningVerified, TrustStateCrossSigningVerified => true
  | _, _ => false
  end.

(** [crypto.DeviceIdentity]; the handlers hold it behind a pointer. *)
Record DeviceIdentity := mkDevice {
  dev_UserID : UserID;
  dev_DeviceID : DeviceID;
  dev_IdentityKey : string;
  dev_SigningKey : Ed25519;
  dev_Trust : TrustState;
  dev_Deleted : bool;
  dev_Name : string
}.

Definition set_Trust (t : TrustState) (d : DeviceIdentity) : DeviceIdentity :=
  mkDevice (dev_UserID d) (dev_DeviceID d) (dev_IdentityKey d)
           (dev_SigningKey d) t (dev_Deleted d) (dev_Name d).

(** Go error values, as far as the handlers look at them: the text [%v]
    prints and the sentinels [errors.Is] finds in the chain. *)
Inductive sentinel :=
| ErrNoDefaultKeyAccountDataEvent
| MNotFound
| ErrIncorrectSSSSKey
| ErrInvalidRecoveryKey.

Definition sentinel_eqb (a b : sentinel) : bool :=
  match a, b with
  | ErrNoDefaultKeyAccountDataEvent, ErrNoDefaultKeyAccountDataEvent
  | MNotFound, MNotFound
  | ErrIncorrectSSSSKey, ErrIncorrectSSSSKey
  | ErrInvalidRecoveryKey, ErrInvalidRecoveryKey => true
  | _, _ => false
  end.

Record error := mkError {
  Error : string;
  err_chain : list sentinel
}.

Definition errors_Is (err : option error) (target : sentinel) : bool :=
  match err with
  | Some e => existsb (sentinel_eqb target) (err_chain e)
  | None => false
  end.

(** [ssss.KeyMetadata] and [ssss.Key]. *)
Record PassphraseMetadata := mkPassphrase {
  pass_Algorithm : string;
  pass_Iterations : nat;
  pass_Bits : nat
}.

Record KeyMetadata := mkKeyMetadata {
  km_Algorithm : string;
  km_Passphrase : option PassphraseMetadata
}.

Record Key := mkKey {
  key_ID : string;
  key_Metadata : option KeyMetadata;
  key_RecoveryKey : string
}.

Definition AlgorithmAESHMACSHA2 : string := "m.secret_storage.v1.aes-hmac-sha2".
Definition PassphraseAlgorithmPBKDF2 : string := "m.pbkdf2".
Definition AuthTypePassword : AuthType := "m.login.password".

(** [mautrix.CrossSigningKeys]: the published keys of one role, in the
    order a [range] over the [Keys] map visits them. *)
Record CrossSigningKeys := mkCSK {
  csk_Keys : list (string * Ed25519)
}.

(** Modelled from the spec: the public part of a published key
    ([CrossSigningKeys.FirstKey] of the mautrix library): the first key the
    map yields, the empty string when there is none. *)
Definition FirstKey (k : CrossSigningKeys) : Ed25519 :=
  match csk_Keys k with
  | (_, key) :: _ => key
  | [] => ""
  end.

Record RespQueryKeys := mkRespQueryKeys {
  MasterKeys : gmap UserID CrossSigningKeys;
  SelfSigningKeys : gmap UserID CrossSigningKeys;
  UserSigningKeys : gmap UserID CrossSigningKeys
}.

(** [crypto.CrossSigningKeysCache]: the public parts are what the
    handlers print. *)
Record CrossSigningKeysCache := mkCache {
  cache_MasterKey : Ed25519;
  cache_SelfSigningKey : Ed25519;
  cache_UserSigningKey : Ed25519
}.

Record UIAFlow := mkFlow { Stages : list AuthType }.

Record RespUserInteractive := mkUIA {
  Flows : list UIAFlow;
  Session : string
}.

(** What the authentication callback hands back ([interface{}] in the
    source): a [*mautrix.BaseAuthData] or a [*mautrix.ReqUIAuthLogin];
    [nil] is [None]. *)
Inductive AuthData :=
| BaseAuthData (type : AuthType) (session : string)
| ReqUIAuthLogin (type : AuthType) (session : string) (user : string) (password : string).

Record Command := mkCommand {
  cmd_Command : string;
  cmd_OrigCommand : string;
  cmd_Args : list string;
  cmd_RawArgs : string;
  cmd_RoomID : RoomID
}.

(** ** Calls to collaborators *)

Inductive Event :=
| EvReply (msg : string)
| EvGetOrFetchDevice (u : UserID) (d : DeviceID)
| EvPutDevice (u : UserID) (dev : DeviceIdentity)
| EvOnDevicesChanged (u : UserID)
| EvShowModal (device : ptr) (timeout : nat)
| EvNewSimpleSASVerificationWith (device : ptr)
| EvAbs (path : string)
| EvReadFile (path : string)
| EvWriteFile (path : string) (data : string) (perm : nat)
| EvAskPassword (title thing placeholder : string) (isConfirm : bool)
| EvImportKeys (passphrase : string) (data : string)
| EvExportKeys (passphrase : string) (sessions : list string)
| EvGetAllGroupSessions
| EvGetGroupSessionsForRoom (room : RoomID)
| EvGetDefaultKeyData
| EvGetKeyData (keyID : string)
| EvNewKey (passphrase : string)
| EvSetKeyData (keyID : string) (meta : option KeyMetadata)
| EvSetDefaultKeyID (keyID : string)
| EvQueryKeys (u : UserID) (d : DeviceID)
| EvGenerateCrossSigningKeys
| EvPublishCrossSigningKeys (keys : option CrossSigningKeysCache)
| EvUIAFallback (stage : AuthType) (session : string)
| EvVerifyPassphrase (passphrase : string)
| EvVerifyRecoveryKey (recoveryKey : string)
| EvFetchCrossSigningKeysFromSSSS (key : Key)
| EvUploadCrossSigningKeysToSSSS (key : Key) (keys : CrossSigningKeysCache).

Definition is_reply (e : Event) : bool :=
  match e with EvReply _ => true | _ => false end.

Definition is_store_write (e : Event) : bool :=
  match e with EvPutDevice _ _ => true | _ => false end.

Definition is_notification (e : Event) : bool :=
  match e with EvOnDevicesChanged _ => true | _ => false end.

Definition is_file_write (e : Event) : bool :=
  match e with EvWriteFile _ _ _ => true | _ => false end.

Definition is_generate_or_publish (e : Event) : bool :=
  match e with
  | EvGenerateCrossSigningKeys | EvPublishCrossSigningKeys _ => true
  | _ => false
  end.

(** ** The state the handlers run in *)

Record World := mkWorld {
  log : list Event;
  heap : gmap ptr DeviceIdentity;
  CrossSigningKeys_cached : option CrossSigningKeysCache;
  DefaultSASTimeout : nat
}.

Inductive Res (A : Type) :=
| Done (a : A) (w : World)
| Panic (w : World).
Arguments Done {A} a w.
Arguments Panic {A} w.

Definition M (A : Type) : Type := World -> Res A.

Definition ret {A} (a : A) : M A := fun w => Done a w.

Definition bind {A B} (m : M A) (k : A -> M B) : M B :=
  fun w => match m w with
           | Done a w' => k a w'
           | Panic w' => Panic w'
           end.

Definition panic {A} : M A := fun w => Panic w.

Notation "x <- c ;; k" := (bind c (fun x => k))
  (at level 100, c at next level, right associativity).
Notation "c ;;; k" := (bind c (fun _ => k))
  (at level 100, right associativity).

Definition world_of {A} (r : Res A) : World :=
  match r with Done _ w => w | Panic w => w end.

Definition panicked {A} (r : Res A) : bool :=
  match r with Done _ _ => false | Panic _ => true end.

(** The calls a run added to the record. *)
Definition events_since {A} (w : World) (r : Res A) : list Event :=
  drop (length (log w)) (log (world_of r)).

Definition record (ev : Event) (w : World) : World :=
  mkWorld (log w ++ [ev]) (heap w) (CrossSigningKeys_cached w) (DefaultSASTimeout w).

Definition records (evs : list Event) (w : World) : World :=
  fold_left (fun w ev => record ev w) evs w.

(** A call to a collaborator: it is recorded, and its answer may depend
    on everything that happened before it. *)
Definition call {X} (ev : Event) (answer : list Event -> X) : M X :=
  fun w => Done (answer (log w)) (record ev w).

(** Dereferencing: a nil or dangling pointer panics. *)
Definition deref {A} (p : option A) : M A :=
  match p with
  | Some a => ret a
  | None => panic
  end.

Definition load (p : ptr) : M DeviceIdentity :=
  fun w => match heap w !! p with
           | Some d => Done d w
           | None => Panic w
           end.

Definition store_Trust (p : ptr) (t : TrustState) : M unit :=
  fun w => match heap w !! p with
           | Some d => Done tt (mkWorld (log w) (<[p := set_Trust t d]> (heap w))
                                        (CrossSigningKeys_cached w) (DefaultSASTimeout w))
           | None => Panic w
           end.

Definition set_DefaultSASTimeout (t : nat) : M unit :=
  fun w => Done tt (mkWorld (log w) (heap w) (CrossSigningKeys_cached w) t).

Definition get_CrossSigningKeys : M (option CrossSigningKeysCache) :=
  fun w => Done (CrossSigningKeys_cached w) w.

Definition set_CrossSigningKeys (k : option CrossSigningKeysCache) : M unit :=
  fun w => Done tt (mkWorld (log w) (heap w) k (DefaultSASTimeout w)).

(** [a[i]]: out of range panics. *)
Definition index (a : list string) (i : nat) : M string :=
  deref (a !! i).

Definition itoa (n : nat) : string :=
  NilEmpty.string_of_uint (Nat.to_uint n).

Definition nl : string := String (ascii_of_nat 10) EmptyString.

(** Modelled from the spec: whether the challenge offers a flow that
    consists of the given stage alone ([RespUserInteractive.HasSingleStageFlow]
    of the mautrix library). *)
Definition HasSingleStageFlow (uia : RespUserInteractive) (stageName : AuthType) : bool :=
  existsb (fun f => match Stages f with
                    | [s] => String.eqb s stageName
                    | _ => false
                    end) (Flows uia).

(** [for _, x := range l { body }] where the body may return from the
    enclosing function: [Some v] is [return v], [None] goes on with the
    next element; [None] at the end means the loop fell through. *)
Fixpoint for_range {A R} (l : list A) (body : A -> M (option R)) : M (option R) :=
  match l with
  | [] => ret None
  | x :: rest =>
      r <- body x ;;
      match r with
      | Some v => ret (Some v)
      | None => for_range rest body
      end
  end.

(** Modelled from the spec: publishing is gated by an interactive
    authentication protocol driven by the library, which is not under src/.
    The server may demand re-authentication any finite number of times; each
    demand invokes the callback once with the challenge, and what the library
    does next depends on the credential it got back. *)
Inductive UIAScript :=
| UIAReturn (err : option error)
| UIAChallenge (uia : RespUserInteractive) (next : option AuthData -> UIAScript).

Fixpoint run_UIAScript (s : UIAScript)
    (uiaCallback : RespUserInteractive -> M (option AuthData)) : M (option error) :=
  match s with
  | UIAReturn err => ret err
  | UIAChallenge uia next =>
      auth <- uiaCallback uia ;;
      run_UIAScript (next auth) uiaCallback
  end.

(** The answers of the collaborators. *)
Record Env := mkEnv {
  client_UserID : UserID;
  client_DeviceID : DeviceID;
  GetOrFetchDevice : list Event -> UserID -> DeviceID -> option ptr * option error;
  PutDevice : list Event -> UserID -> DeviceIdentity -> option error;
  NewSimpleSASVerificationWith : list Event -> ptr -> option error;
  filepath_Abs : list Event -> string -> string * option error;
  ReadFile : list Event -> string -> string * option error;
  WriteFile : list Event -> string -> string -> nat -> option error;
  AskPassword : list Event -> string -> string -> string -> bool -> string * bool;
  ImportKeys : list Event -> string -> string -> nat * nat * option error;
  ExportKeys : list Event -> string -> list string -> string * option error;
  GetAllGroupSessions : list Event -> list string * option error;
  GetGroupSessionsForRoom : list Event -> RoomID -> list string * option error;
  GetDefaultKeyData : list Event -> string * option KeyMetadata * option error;
  GetKeyData : list Event -> string -> option KeyMetadata * option error;
  NewKey : list Event -> string -> option Key * option error;
  SetKeyData : list Event -> string -> option KeyMetadata -> option error;
  SetDefaultKeyID : list Event -> string -> option error;
  QueryKeys : list Event -> UserID -> DeviceID -> option RespQueryKeys * option error;
  GenerateCrossSigningKeys : list Event -> option CrossSigningKeysCache * option error;
  PublishCrossSigningKeys : list Event -> option CrossSigningKeysCache -> UIAScript;
  UIAFallback : list Event -> AuthType -> string -> option error;
  VerifyPassphrase : list Event -> KeyMetadata -> string -> option Key * option error;
  VerifyRecoveryKey : list Event -> KeyMetadata -> string -> option Key * option error;
  FetchCrossSigningKeysFromSSSS :
    list Event -> Key -> option CrossSigningKeysCache * option error;
  UploadCrossSigningKeysToSSSS : list Event -> Key -> CrossSigningKeysCache -> option error
}.

(** ** The handlers *)

Section Handlers.

Variable env : Env.

Definition Reply (msg : string) : M unit :=
  call (EvReply msg) (fun _ => tt).

Definition getDevice (cmd : Command) : M (option ptr) :=
  if (length (cmd_Args cmd) <? 2)%nat then
    Reply ("Usage: /" +:+ cmd_Command cmd +:+ " <user id> <device id> [fingerprint]") ;;;
    ret None
  else
    a0 <- index (cmd_Args cmd) 0 ;;
    a1 <- index (cmd_Args cmd) 1 ;;
    r <- call (EvGetOrFetchDevice a0 a1) (fun h => GetOrFetchDevice env h a0 a1) ;;
    let '(device, err) := r in
    match err with
    | Some e =>
        Reply ("Failed to get device: " +:+ Error e) ;;;
        ret None
    | None => ret device
    end.

Definition putDevice (cmd : Command) (device : ptr) (action : string) : M unit :=
  d <- load device ;;
  err <- call (EvPutDevice (dev_UserID d) d) (fun h => PutDevice env h (dev_UserID d) d) ;;
  match err with
  | Some e => Reply ("Failed to save device: " +:+ Error e)
  | None =>
      Reply ("Successfully " +:+ action +:+ " " +:+ dev_UserID d +:+ "/" +:+ dev_DeviceID d
             +:+ " (" +:+ dev_Name d +:+ ")")
  end ;;;
  call (EvOnDevicesChanged (dev_UserID d)) (fun _ => tt).

Definition cmdVerify (cmd : Command) : M unit :=
  device <- getDevice cmd ;;
  match device with
  | None => ret tt
  | Some device =>
      d <- load device ;;
      if TrustState_eqb (dev_Trust d) TrustStateVerified then
        Reply "That device is already verified"
      else if (length (cmd_Args cmd) =? 2)%nat then
        set_DefaultSASTimeout 120 ;;;
        call (EvShowModal device 120) (fun _ => tt) ;;;
        err <- call (EvNewSimpleSASVerificationWith device)
                    (fun h => NewSimpleSASVerificationWith env h device) ;;
        match err with
        | Some e => Reply ("Failed to start interactive verification: " +:+ Error e)
        | None => ret tt
        end
      else
        let fingerprint := String.concat "" (drop 2 (cmd_Args cmd)) in
        if negb (String.eqb (dev_SigningKey d) fingerprint) then
          Reply "Mismatching fingerprint"
        else
          let action :=
            if TrustState_eqb (dev_Trust d) TrustStateBlacklisted
            then "unblacklisted and verified" else "verified" in
          store_Trust device TrustStateVerified ;;;
          putDevice cmd device action
  end.

Definition cmdUnverify (cmd : Command) : M unit :=
  device <- getDevice cmd ;;
  match device with
  | None => ret tt
  | Some device =>
      d <- load device ;;
      if TrustState_eqb (dev_Trust d) TrustStateUnset then
        Reply "That device is already not verified"
      else
        let action :=
          if TrustState_eqb (dev_Trust d) TrustStateBlacklisted
          then "unblacklisted" else "unverified" in
        store_Trust device TrustStateUnset ;;;
        putDevice cmd device action
  end.

Definition cmdBlacklist (cmd : Command) : M unit :=
  device <- getDevice cmd ;;
  match device with
  | None => ret tt
  | Some device =>
      d <- load device ;;
      if TrustState_eqb (dev_Trust d) TrustStateBlacklisted then
        Reply "That device is already blacklisted"
      else
        let action :=
          if TrustState_eqb (dev_Trust d) TrustStateVerified
          then "unverified and blacklisted" else "blacklisted" in
        store_Trust device TrustStateBlacklisted ;;;
        putDevice cmd device action
  end.

Definition askPassword (title thing placeholder : string) (isConfirm : bool) : M (string * bool) :=
  call (EvAskPassword title thing placeholder isConfirm)
       (fun h => AskPassword env h title thing placeholder isConfirm).

Definition cmdImportKeys (cmd : Command) : M unit :=
  r <- call (EvAbs (cmd_RawArgs cmd)) (fun h => filepath_Abs env h (cmd_RawArgs cmd)) ;;
  let '(path, err) := r in
  match err with
  | Some e => Reply ("Failed to get absolute path: " +:+ Error e)
  | None =>
      r <- call (EvReadFile path) (fun h => ReadFile env h path) ;;
      let '(data, err) := r in
      match err with
      | Some e => Reply ("Failed to read " +:+ path +:+ ": " +:+ Error e)
      | None =>
          r <- askPassword "Key import" "passphrase" "" false ;;
          let '(passphrase, ok) := r in
          if negb ok then
            Reply "Passphrase entry cancelled"
          else
            r <- call (EvImportKeys passphrase data) (fun h => ImportKeys env h passphrase data) ;;
            let '(imported, total, err) := r in
            match err with
            | Some e => Reply ("Failed to import sessions: " +:+ Error e)
            | None =>
                Reply ("Successfully imported " +:+ itoa imported +:+ "/" +:+ itoa total
                       +:+ " sessions")
            end
      end
  end.

(** The file mode [0400] of the source is octal. *)
Definition perm_0400 : nat := 256.

Definition exportKeys (cmd : Command) (sessions : list string) : M unit :=
  r <- call (EvAbs (cmd_RawArgs cmd)) (fun h => filepath_Abs env h (cmd_RawArgs cmd)) ;;
  let '(path, err) := r in
  match err with
  | Some e => Reply ("Failed to get absolute path: " +:+ Error e)
  | None =>
      r <- askPassword "Key export" "passphrase" "" true ;;
      let '(passphrase, ok) := r in
      if negb ok then
        Reply "Passphrase entry cancelled"
      else
        r <- call (EvExportKeys passphrase sessions) (fun h => ExportKeys env h passphrase sessions) ;;
        let '(export, err) := r in
        match err with
        | Some e => Reply ("Failed to export sessions: " +:+ Error e)
        | None => ret tt
        end ;;;
        err <- call (EvWriteFile path export perm_0400)
                    (fun h => WriteFile env h path export perm_0400) ;;
        match err with
        | Some e => Reply ("Failed to write sessions to " +:+ path +:+ ": " +:+ Error e)
        | None =>
            Reply ("Successfully exported " +:+ itoa (length sessions) +:+ " sessions to " +:+ path)
        end
  end.

Definition cmdExportKeys (cmd : Command) : M unit :=
  r <- call EvGetAllGroupSessions (fun h => GetAllGroupSessions env h) ;;
  let '(sessions, err) := r in
  match err with
  | Some e => Reply ("Failed to get sessions to export: " +:+ Error e)
  | None => exportKeys cmd sessions
  end.

Definition cmdExportRoomKeys (cmd : Command) : M unit :=
  r <- call (EvGetGroupSessionsForRoom (cmd_RoomID cmd))
            (fun h => GetGroupSessionsForRoom env h (cmd_RoomID cmd)) ;;
  let '(sessions, err) := r in
  match err with
  | Some e => Reply ("Failed to get sessions to export: " +:+ Error e)
  | None => exportKeys cmd sessions
  end.

Definition cmdS4Status (cmd : Command) (keyID : string) : M unit :=
  r <- (if (String.length keyID =? 0)%nat then
          call EvGetDefaultKeyData (fun h => GetDefaultKeyData env h)
        else
          r <- call (EvGetKeyData keyID) (fun h => GetKeyData env h keyID) ;;
          let '(keyData, err) := r in
          ret (keyID, keyData, err)) ;;
  let '(keyID, keyData, err) := r in
  let rest : M unit :=
    kd <- deref keyData ;;
    let hasPassphrase :=
      match km_Passphrase kd with
      | Some p =>
          "yes (alg=" +:+ pass_Algorithm p +:+ ",bits=" +:+ itoa (pass_Bits p)
          +:+ ",iter=" +:+ itoa (pass_Iterations p) +:+ ")"
      | None => "no"
      end in
    let algorithm :=
      if negb (String.eqb (km_Algorithm kd) AlgorithmAESHMACSHA2)
      then km_Algorithm kd +:+ " (not supported!)"
      else km_Algorithm kd in
    Reply ("Default key is set." +:+ nl +:+ "  Key ID: " +:+ keyID +:+ nl
           +:+ "  Has passphrase: " +:+ hasPassphrase +:+ nl
           +:+ "  Algorithm: " +:+ algorithm) in
  if errors_Is err ErrNoDefaultKeyAccountDataEvent then
    Reply "SSSS is not set up: no default key set" ;;;
    rest
  else
    match err with
    | Some e => Reply ("Failed to get key data: " +:+ Error e)
    | None => rest
    end.

Definition cmdS4Generate (cmd : Command) (setDefault : bool) : M unit :=
  r <- askPassword "Passphrase" "" "" false ;;
  let '(passphrase, ok) := r in
  if negb ok then
    ret tt
  else
    r <- call (EvNewKey passphrase) (fun h => NewKey env h passphrase) ;;
    let '(key, err) := r in
    match err with
    | Some e => Reply ("Failed to generate new key: " +:+ Error e)
    | None =>
        k <- deref key ;;
        err <- call (EvSetKeyData (key_ID k) (key_Metadata k))
                    (fun h => SetKeyData env h (key_ID k) (key_Metadata k)) ;;
        match err with
        | Some e => Reply ("Failed to upload key metadata: " +:+ Error e)
        | None =>
            Reply ("Successfully generated key " +:+ key_ID k +:+ nl
                   +:+ "Recovery key: " +:+ key_RecoveryKey k) ;;;
            if setDefault then
              err <- call (EvSetDefaultKeyID (key_ID k)) (fun h => SetDefaultKeyID env h (key_ID k)) ;;
              match err with
              | Some e => Reply ("Failed to set key as default: " +:+ Error e)
              | None => ret tt
              end
            else
              Reply ("You can use `/" +:+ cmd_OrigCommand cmd +:+ " set-default " +:+ key_ID k
                     +:+ "` to set it as the default")
        end
    end.

(** The argument is the response behind the pointer the source receives;
    callers dereference it first, as [keys.MasterKeys] does. *)
Definition parseKeyResp (keys : RespQueryKeys) (userID : UserID)
  : Ed25519 * Ed25519 * Ed25519 * bool :=
  match MasterKeys keys !! userID with
  | None => ("", "", "", false)
  | Some masterKeys =>
      match SelfSigningKeys keys !! userID with
      | None => ("", "", "", false)
      | Some selfSigningKeys =>
          match UserSigningKeys keys !! userID with
          | None => (FirstKey masterKeys, FirstKey selfSigningKeys, "", true)
          | Some userSigningKeys =>
              (FirstKey masterKeys, FirstKey userSigningKeys, FirstKey selfSigningKeys, true)
          end
      end
  end.

Definition queryOwnKeys : M (option RespQueryKeys * option error) :=
  call (EvQueryKeys (client_UserID env) (client_DeviceID env))
       (fun h => QueryKeys env h (client_UserID env) (client_DeviceID env)).

Definition cmdCrossSigningStatus (cmd : Command) : M unit :=
  cached <- get_CrossSigningKeys ;;
  match cached with
  | Some c =>
      Reply "Cross-signing is set up and private keys are cached" ;;;
      Reply ("Master key: " +:+ cache_MasterKey c) ;;;
      Reply ("User signing key: " +:+ cache_UserSigningKey c) ;;;
      Reply ("Self-signing key: " +:+ cache_SelfSigningKey c)
  | None =>
      r <- queryOwnKeys ;;
      let '(keys, err) := r in
      match err with
      | Some e => Reply ("Failed to query own keys: " +:+ Error e)
      | None =>
          k <- deref keys ;;
          let '(masterKey, selfSigningKey, userSigningKey, ok) :=
            parseKeyResp k (client_UserID env) in
          if negb ok then
            Reply "Didn't find published cross-signing keys"
          else
            Reply "Cross-signing is set up, but private keys are not cached" ;;;
            Reply ("Master key: " +:+ masterKey) ;;;
            Reply ("User signing key: " +:+ userSigningKey) ;;;
            Reply ("Self-signing key: " +:+ selfSigningKey)
      end
  end.

(** The callback [cmdCrossSigningGenerate] passes to
    [PublishCrossSigningKeys]. *)
Definition uiaCallback (cmd : Command) (uia : RespUserInteractive) : M (option AuthData) :=
  if negb (HasSingleStageFlow uia AuthTypePassword) then
    r <- for_range (Flows uia) (fun flow =>
           if negb (length (Stages flow) =? 1)%nat then
             ret (Some None)
           else
             Reply "Opening browser for authentication" ;;;
             stage0 <- index (Stages flow) 0 ;;
             err <- call (EvUIAFallback stage0 (Session uia))
                         (fun h => UIAFallback env h stage0 (Session uia)) ;;
             match err with
             | Some e =>
                 Reply ("Authentication failed: " +:+ Error e) ;;;
                 ret (Some None)
             | None => ret (Some (Some (BaseAuthData stage0 (Session uia))))
             end) ;;
    match r with
    | Some returned => ret returned
    | None =>
        Reply "No supported authentication mechanisms found" ;;;
        ret None
    end
  else
    r <- askPassword "Account password" "" "correct horse battery staple" false ;;
    let '(password, ok) := r in
    if negb ok then
      ret None
    else
      ret (Some (ReqUIAuthLogin AuthTypePassword (Session uia) (client_UserID env) password)).

Definition cmdCrossSigningGenerate (cmd : Command) (force : bool) : M unit :=
  let rest : M unit :=
    r <- call EvGenerateCrossSigningKeys (fun h => GenerateCrossSigningKeys env h) ;;
    let '(keys, err) := r in
    match err with
    | Some e => Reply ("Failed to generate cross-signing keys: " +:+ Error e)
    | None =>
        script <- call (EvPublishCrossSigningKeys keys)
                       (fun h => PublishCrossSigningKeys env h keys) ;;
        err <- run_UIAScript script (uiaCallback cmd) ;;
        match err with
        | Some e => Reply ("Failed to publish cross-signing keys: " +:+ Error e)
        | None => set_CrossSigningKeys keys
        end
    end in
  if negb force then
    r <- queryOwnKeys ;;
    let '(keys, err) := r in
    match err with
    | None =>
        k <- deref keys ;;
        let '(_, _, _, ok) := parseKeyResp k (client_UserID env) in
        if ok then
          Reply "Found existing cross-signing keys. Use `--force` if you want to overwrite them."
        else rest
    | Some _ => rest
    end
  else rest.

Definition getSSSS (cmd : Command) : M (option Key) :=
  r <- call EvGetDefaultKeyData (fun h => GetDefaultKeyData env h) ;;
  let '(_, keyData, err) := r in
  match err with
  | Some e =>
      (if errors_Is err MNotFound then
         Reply "SSSS not set up, use `!ssss generate --set-default` first"
       else
         Reply ("Failed to fetch default SSSS key data: " +:+ Error e)) ;;;
      ret None
  | None =>
      kd <- deref keyData ;;
      let backup (key : option Key) (err : option error) : M (option Key) :=
        match err with
        | Some e =>
            Reply ("Failed to get SSSS key: " +:+ Error e) ;;;
            ret None
        | None => ret key
        end in
      if match km_Passphrase kd with
         | Some p => String.eqb (pass_Algorithm p) PassphraseAlgorithmPBKDF2
         | None => false
         end
      then
        r <- askPassword "Passphrase" "" "correct horse battery staple" false ;;
        let '(passphrase, ok) := r in
        if negb ok then
          ret None
        else
          r <- call (EvVerifyPassphrase passphrase) (fun h => VerifyPassphrase env h kd passphrase) ;;
          let '(key, err) := r in
          if errors_Is err ErrIncorrectSSSSKey then
            Reply "Incorrect passphrase" ;;;
            ret None
          else backup key err
      else
        r <- askPassword "Recovery key" ""
                         "tDAK LMRH PiYE bdzi maCe xLX5 wV6P Nmfd c5mC wLef 15Fs VVSc" false ;;
        let '(recoveryKey, ok) := r in
        if negb ok then
          ret None
        else
          r <- call (EvVerifyRecoveryKey recoveryKey)
                    (fun h => VerifyRecoveryKey env h kd recoveryKey) ;;
          let '(key, err) := r in
          if errors_Is err ErrInvalidRecoveryKey then
            Reply "Malformed recovery key" ;;;
            ret None
          else if errors_Is err ErrIncorrectSSSSKey then
            Reply "Incorrect recovery key" ;;;
            ret None
          else backup key err
  end.

Definition cmdCrossSigningFetch (cmd : Command) (saveToDisk : bool) : M unit :=
  key <- getSSSS cmd ;;
  match key with
  | None => ret tt
  | Some key =>
      r <- call (EvFetchCrossSigningKeysFromSSSS key)
                (fun h => FetchCrossSigningKeysFromSSSS env h key) ;;
      let '(fetched, err) := r in
      match err with
      | Some e => Reply ("Error fetching cross-signing keys: " +:+ Error e)
      | None =>
          (* the library installs the decrypted keys as the cached key set *)
          set_CrossSigningKeys fetched ;;;
          (if saveToDisk then Reply "Saving keys to disk is not yet implemented" else ret tt) ;;;
          Reply "Successfully unlocked cross-signing keys"
      end
  end.

Definition cmdCrossSigningUpload (cmd : Command) : M unit :=
  cached <- get_CrossSigningKeys ;;
  match cached with
  | None =>
      Reply ("Cross-signing keys not cached, use `!" +:+ cmd_OrigCommand cmd +:+ " generate` first")
  | Some keys =>
      key <- getSSSS cmd ;;
      match key with
      | None => ret tt
      | Some key =>
          err <- call (EvUploadCrossSigningKeysToSSSS key keys)
                      (fun h => UploadCrossSigningKeysToSSSS env h key keys) ;;
          match err with
          | Some e => Reply ("Failed to upload keys to SSSS: " +:+ Error e)
          | None => Reply "Successfully uploaded cross-signing keys to SSSS"
          end
      end
  end.

End Handlers.

(** ** The three trust operations, side by side *)

Inductive TrustOp := OpVerify | OpUnverify | OpBlacklist.

Definition run_op (env : Env) (op : TrustOp) : Command -> M unit :=
  match op with
  | OpVerify => cmdVerify env
  | OpUnverify => cmdUnverify env
  | OpBlacklist => cmdBlacklist env
  end.

Definition target (op : TrustOp) : TrustState :=
  match op with
  | OpVerify => TrustStateVerified
  | OpUnverify => TrustStateUnset
  | OpBlacklist => TrustStateBlacklisted
  end.

Definition already_reply (op : TrustOp) : string :=
  match op with
  | OpVerify => "That device is already verified"
  | OpUnverify => "That device is already not verified"
  | OpBlacklist => "That device is already blacklisted"
  end.

(** The label the operation hands to [putDevice], by the trust state the
    device had before. *)
Definition action_label (op : TrustOp) (prior : TrustState) : string :=
  match op, prior with
  | OpVerify, TrustStateBlacklisted => "unblacklisted and verified"
  | OpVerify, _ => "verified"
  | OpUnverify, TrustStateBlacklisted => "unblacklisted"
  | OpUnverify, _ => "unverified"
  | OpBlacklist, TrustStateVerified => "unverified and blacklisted"
  | OpBlacklist, _ => "blacklisted"
  end.

(** What [putDevice] replies, by the outcome of the store write. *)
Definition persist_report (outcome : option error) (action : string) (d : DeviceIdentity) : string :=
  match outcome with
  | Some e => "Failed to save device: " +:+ Error e
  | None =>
      "Successfully " +:+ action +:+ " " +:+ dev_UserID d +:+ "/" +:+ dev_DeviceID d
      +:+ " (" +:+ dev_Name d +:+ ")"
  end.

(** The state after [device.Trust = t] on the record behind [p]. *)
Definition with_Trust (p : ptr) (t : TrustState) (d : DeviceIdentity) (w : World) : World :=
  mkWorld (log w) (<[p := set_Trust t d]> (heap w)) (CrossSigningKeys_cached w)
          (DefaultSASTimeout w).

(** ** A concrete session, for running the handlers *)

Definition alice_phone (t : TrustState) : DeviceIdentity :=
  mkDevice "@alice:example.org" "PHONE" "curve25519-of-phone" "ed25519-of-phone" t false
           "Alice's phone".

Definition session_with (d : DeviceIdentity) : World :=
  mkWorld [] {[ 1 := d ]} None 0.

Definition disk_full : error := mkError "disk full" [].
Definition unauthorized : error := mkError "M_UNAUTHORIZED" [].
Definition no_default_key : error :=
  mkError "no default key account data event" [ErrNoDefaultKeyAccountDataEvent].

(** A home server and a user, given by their answers; everything not
    listed succeeds with empty data. *)
Definition scenario
    (put : option error)
    (ask : string * bool)
    (exported : string * option error)
    (defaultKey : string * option KeyMetadata * option error)
    (queried : option RespQueryKeys * option error)
    (publish : UIAScript) : Env :=
  mkEnv "@me:example.org" "LAPTOP"
        (fun _ _ _ => (Some 1, None))
        (fun _ _ _ => put)
        (fun _ _ => None)
        (fun _ raw => ("/home/me/" +:+ raw, None))
        (fun _ _ => ("file contents", None))
        (fun _ _ _ _ => None)
        (fun _ _ _ _ _ => ask)
        (fun _ _ _ => (0, 0, None))
        (fun _ _ _ => exported)
        (fun _ => ([], None))
        (fun _ _ => ([], None))
        (fun _ => defaultKey)
        (fun _ _ => (None, Some (mkError "M_NOT_FOUND" [MNotFound])))
        (fun _ pass => (Some (mkKey "key1" None "EsT1 2345"), None))
        (fun _ _ _ => None)
        (fun _ _ => None)
        (fun _ _ _ => queried)
        (fun _ => (Some (mkCache "new-master" "new-self" "new-user"), None))
        (fun _ _ => publish)
        (fun _ _ _ => None)
        (fun _ _ _ => (None, Some (mkError "incorrect" [ErrIncorrectSSSSKey])))
        (fun _ _ _ => (None, Some (mkError "incorrect" [ErrIncorrectSSSSKey])))
        (fun _ _ => (None, Some (mkError "nothing stored" [])))
        (fun _ _ _ => None).

Definition plain : Env :=
  scenario None ("hunter2", true) ("", None) ("", None, Some no_default_key)
           (None, Some (mkError "offline" [])) (UIAReturn None).

Definition store_broken : Env :=
  scenario (Some disk_full) ("hunter2", true) ("", None) ("", None, Some no_default_key)
           (None, Some (mkError "offline" [])) (UIAReturn None).

Definition device_cmd (name : string) (fingerprint : list string) : Command :=
  mkCommand name name ("@alice:example.org" :: "PHONE" :: fingerprint) "" "!room:example.org".

Definition empty_session : World := mkWorld [] ∅ None 0.

Definition ssss_cmd (args : list string) : Command :=
  mkCommand "ssss" "ssss" args (String.concat " " args) "!room:example.org".

Definition cross_signing_cmd (args : list string) : Command :=
  mkCommand "cross-signing" "cross-signing" args (String.concat " " args) "!room:example.org".

Definition export_cmd : Command :=
  mkCommand "export-keys" "export-keys" ["keys.txt"] "keys.txt" "!room:example.org".

(** A directory answer that publishes all three cross-signing keys of the
    account. *)
Definition published_three : RespQueryKeys :=
  mkRespQueryKeys {[ "@me:example.org" := mkCSK [("ed25519:MASTER", "MASTER")] ]}
                  {[ "@me:example.org" := mkCSK [("ed25519:SELF", "SELF")] ]}
                  {[ "@me:example.org" := mkCSK [("ed25519:USER", "USER")] ]}.

Definition published_two : RespQueryKeys :=
  mkRespQueryKeys {[ "@me:example.org" := mkCSK [("ed25519:MASTER", "MASTER")] ]}
                  {[ "@me:example.org" := mkCSK [("ed25519:SELF", "SELF")] ]}
                  ∅.

Definition directory_with (resp : RespQueryKeys) : Env :=
  scenario None ("hunter2", true) ("", None) ("", None, Some no_default_key)
           (Some resp, None) (UIAReturn None).

Definition export_broken : Env :=
  scenario None ("hunter2", true) ("", Some (mkError "unsupported value" []))
           ("", None, Some no_default_key) (None, Some (mkError "offline" [])) (UIAReturn None).

(** A challenge whose only flow has two stages, neither of them alone. *)
Definition two_stage_challenge : RespUserInteractive :=
  mkUIA [mkFlow ["m.login.sso"; "m.login.email.identity"]] "session-1".

Definition password_challenge : RespUserInteractive :=
  mkUIA [mkFlow ["m.login.password"]] "session-2".

(** The server demands re-authentication once and refuses the upload when
    no credential comes back. *)
Definition challenge_once (uia : RespUserInteractive) : UIAScript :=
  UIAChallenge uia (fun auth =>
    match auth with
    | Some _ => UIAReturn None
    | None => UIAReturn (Some unauthorized)
    end).

Definition server_demands (uia : RespUserInteractive) : Env :=
  scenario None ("hunter2", true) ("", None) ("", None, Some no_default_key)
           (None, Some (mkError "offline" [])) (challenge_once uia).

Definition pbkdf2_key : KeyMetadata :=
  mkKeyMetadata AlgorithmAESHMACSHA2 (Some (mkPassphrase PassphraseAlgorithmPBKDF2 4096 256)).


Definition with_QueryKeys
    (q : list Event -> UserID -> DeviceID -> option RespQueryKeys * option error)
    (env : Env) : Env :=
  mkEnv (client_UserID env) (client_DeviceID env) (GetOrFetchDevice env) (PutDevice env)
        (NewSimpleSASVerificationWith env) (filepath_Abs env) (ReadFile env) (WriteFile env)
        (AskPassword env) (ImportKeys env) (ExportKeys env) (GetAllGroupSessions env)
        (GetGroupSessionsForRoom env) (GetDefaultKeyData env) (GetKeyData env) (NewKey env)
        (SetKeyData env) (SetDefaultKeyID env) q (GenerateCrossSigningKeys env)
        (PublishCrossSigningKeys env) (UIAFallback env) (VerifyPassphrase env)
        (VerifyRecoveryKey env) (FetchCrossSigningKeysFromSSSS env)
        (UploadCrossSigningKeysToSSSS env).

(** Which prompt the unlock protocol shows for a key. *)
Definition uses_passphrase (kd : KeyMetadata) : bool :=
  match km_Passphrase kd with
  | Some p => String.eqb (pass_Algorithm p) PassphraseAlgorithmPBKDF2
  | None => false
  end.

Definition unlock_prompt (kd : KeyMetadata) : Event :=
  if uses_passphrase kd
  then EvAskPassword "Passphrase" "" "correct horse battery staple" false
  else EvAskPassword "Recovery key" ""
         "tDAK LMRH PiYE bdzi maCe xLX5 wV6P Nmfd c5mC wLef 15Fs VVSc" false.

Definition answer_to (env : Env) (h : list Event) (prompt : Event) : string * bool :=
  match prompt with
  | EvAskPassword title thing placeholder isConfirm =>
      AskPassword env h title thing placeholder isConfirm
  | _ => ("", false)
  end.


(** A program only ever adds to the record of calls. *)
Definition appends {A} (m : M A) : Prop :=
  forall w, exists l, log (world_of (m w)) = (log w ++ l)%list.

(** The claim that a failed store write keeps the notification from
    firing, for one run of [putDevice]. *)
Definition no_notification_on_persist_failure
    (env : Env) (cmd : Command) (p : ptr) (action : string) (w : World) : Prop :=
  forall d e,
    heap w !! p = Some d ->
    PutDevice env (log w) (dev_UserID d) d = Some e ->
    existsb is_notification (events_since w (putDevice env cmd p action w)) = false.

(** Changing one answer of an environment. *)
Definition with_GetOrFetchDevice
    (x : list Event -> UserID -> DeviceID -> option ptr * option error)
    (env : Env) : Env :=
  mkEnv (client_UserID env) (client_DeviceID env) x (PutDevice env)
        (NewSimpleSASVerificationWith env) (filepath_Abs env) (ReadFile env) (WriteFile env)
        (AskPassword env) (ImportKeys env) (ExportKeys env) (GetAllGroupSessions env)
        (GetGroupSessionsForRoom env) (GetDefaultKeyData env) (GetKeyData env) (NewKey env)
        (SetKeyData env) (SetDefaultKeyID env) (QueryKeys env) (GenerateCrossSigningKeys env)
        (PublishCrossSigningKeys env) (UIAFallback env) (VerifyPassphrase env)
        (VerifyRecoveryKey env) (FetchCrossSigningKeysFromSSSS env)
        (UploadCrossSigningKeysToSSSS env).

Definition with_filepath_Abs
    (x : list Event -> string -> string * option error)
    (env : Env) : Env :=
  mkEnv (client_UserID env) (client_DeviceID env) (GetOrFetchDevice env) (PutDevice env)
        (NewSimpleSASVerificationWith env) x (ReadFile env) (WriteFile env) (AskPassword env)
        (ImportKeys env) (ExportKeys env) (GetAllGroupSessions env)
        (GetGroupSessionsForRoom env) (GetDefaultKeyData env) (GetKeyData env) (NewKey env)
        (SetKeyData env) (SetDefaultKeyID env) (QueryKeys env) (GenerateCrossSigningKeys env)
        (PublishCrossSigningKeys env) (UIAFallback env) (VerifyPassphrase env)
        (VerifyRecoveryKey env) (FetchCrossSigningKeysFromSSSS env)
        (UploadCrossSigningKeysToSSSS env).

Definition with_ReadFile
    (x : list Event -> string -> string * option error)
    (env : Env) : Env :=
  mkEnv (client_UserID env) (client_DeviceID env) (GetOrFetchDevice env) (PutDevice env)
        (NewSimpleSASVerificationWith env) (filepath_Abs env) x (WriteFile env)
        (AskPassword env) (ImportKeys env) (ExportKeys env) (GetAllGroupSessions env)
        (GetGroupSessionsForRoom env) (GetDefaultKeyData env) (GetKeyData env) (NewKey env)
        (SetKeyData env) (SetDefaultKeyID env) (QueryKeys env) (GenerateCrossSigningKeys env)
        (PublishCrossSigningKeys env) (UIAFallback env) (VerifyPassphrase env)
        (VerifyRecoveryKey env) (FetchCrossSigningKeysFromSSSS env)
        (UploadCrossSigningKeysToSSSS env).

Definition with_ImportKeys
    (x : list Event -> string -> string -> nat * nat * option error)
    (env : Env) : Env :=
  mkEnv (client_UserID env) (client_DeviceID env) (GetOrFetchDevice env) (PutDevice env)
        (NewSimpleSASVerificationWith env) (filepath_Abs env) (ReadFile env) (WriteFile env)
        (AskPassword env) x (ExportKeys env) (GetAllGroupSessions env)
        (GetGroupSessionsForRoom env) (GetDefaultKeyData env) (GetKeyData env) (NewKey env)
        (SetKeyData env) (SetDefaultKeyID env) (QueryKeys env) (GenerateCrossSigningKeys env)
        (PublishCrossSigningKeys env) (UIAFallback env) (VerifyPassphrase env)
        (VerifyRecoveryKey env) (FetchCrossSigningKeysFromSSSS env)
        (UploadCrossSigningKeysToSSSS env).

Definition with_GetGroupSessionsForRoom
    (x : list Event -> RoomID -> list string * option error)
    (env : Env) : Env :=
  mkEnv (client_UserID env) (client_DeviceID env) (GetOrFetchDevice env) (PutDevice env)
        (NewSimpleSASVerificationWith env) (filepath_Abs env) (ReadFile env) (WriteFile env)
        (AskPassword env) (ImportKeys env) (ExportKeys env) (GetAllGroupSessions env) x
        (GetDefaultKeyData env) (GetKeyData env) (NewKey env) (SetKeyData env)
        (SetDefaultKeyID env) (QueryKeys env) (GenerateCrossSigningKeys env)
        (PublishCrossSigningKeys env) (UIAFallback env) (VerifyPassphrase env)
        (VerifyRecoveryKey env) (FetchCrossSigningKeysFromSSSS env)
        (UploadCrossSigningKeysToSSSS env).

Definition with_GetKeyData
    (x : list Event -> string -> option KeyMetadata * option error)
    (env : Env) : Env :=
  mkEnv (client_UserID env) (client_DeviceID env) (GetOrFetchDevice env) (PutDevice env)
        (NewSimpleSASVerificationWith env) (filepath_Abs env) (ReadFile env) (WriteFile env)
        (AskPassword env) (ImportKeys env) (ExportKeys env) (GetAllGroupSessions env)
        (GetGroupSessionsForRoom env) (GetDefaultKeyData env) x (NewKey env) (SetKeyData env)
        (SetDefaultKeyID env) (QueryKeys env) (GenerateCrossSigningKeys env)
        (PublishCrossSigningKeys env) (UIAFallback env) (VerifyPassphrase env)
        (VerifyRecoveryKey env) (FetchCrossSigningKeysFromSSSS env)
        (UploadCrossSigningKeysToSSSS env).

Definition with_SetKeyData
    (x : list Event -> string -> option KeyMetadata -> option error)
    (env : Env) : Env :=
  mkEnv (client_UserID env) (client_DeviceID env) (GetOrFetchDevice env) (PutDevice env)
        (NewSimpleSASVerificationWith env) (filepath_Abs env) (ReadFile env) (WriteFile env)
        (AskPassword env) (ImportKeys env) (ExportKeys env) (GetAllGroupSessions env)
        (GetGroupSessionsForRoom env) (GetDefaultKeyData env) (GetKeyData env) (NewKey env) x
        (SetDefaultKeyID env) (QueryKeys env) (GenerateCrossSigningKeys env)
        (PublishCrossSigningKeys env) (UIAFallback env) (VerifyPassphrase env)
        (VerifyRecoveryKey env) (FetchCrossSigningKeysFromSSSS env)
        (UploadCrossSigningKeysToSSSS env).

Definition with_NewSimpleSASVerificationWith
    (x : list Event -> ptr -> option error)
    (env : Env) : Env :=
  mkEnv (client_UserID env) (client_DeviceID env) (GetOrFetchDevice env) (PutDevice env) x
        (filepath_Abs env) (ReadFile env) (WriteFile env) (AskPassword env) (ImportKeys env)
        (ExportKeys env) (GetAllGroupSessions env) (GetGroupSessionsForRoom env)
        (GetDefaultKeyData env) (GetKeyData env) (NewKey env) (SetKeyData env)
        (SetDefaultKeyID env) (QueryKeys env) (GenerateCrossSigningKeys env)
        (PublishCrossSigningKeys env) (UIAFallback env) (VerifyPassphrase env)
        (VerifyRecoveryKey env) (FetchCrossSigningKeysFromSSSS env)
        (UploadCrossSigningKeysToSSSS env).

Definition with_VerifyPassphrase
    (x : list Event -> KeyMetadata -> string -> option Key * option error)
    (env : Env) : Env :=
  mkEnv (client_UserID env) (client_DeviceID env) (GetOrFetchDevice env) (PutDevice env)
        (NewSimpleSASVerificationWith env) (filepath_Abs env) (ReadFile env) (WriteFile env)
        (AskPassword env) (ImportKeys env) (ExportKeys env) (GetAllGroupSessions env)
        (GetGroupSessionsForRoom env) (GetDefaultKeyData env) (GetKeyData env) (NewKey env)
        (SetKeyData env) (SetDefaultKeyID env) (QueryKeys env) (GenerateCrossSigningKeys env)
        (PublishCrossSigningKeys env) (UIAFallback env) x (VerifyRecoveryKey env)
        (FetchCrossSigningKeysFromSSSS env) (UploadCrossSigningKeysToSSSS env).

Definition with_FetchCrossSigningKeysFromSSSS
    (x : list Event -> Key -> option CrossSigningKeysCache * option error)
    (env : Env) : Env :=
  mkEnv (client_UserID env) (client_DeviceID env) (GetOrFetchDevice env) (PutDevice env)
        (NewSimpleSASVerificationWith env) (filepath_Abs env) (ReadFile env) (WriteFile env)
        (AskPassword env) (ImportKeys env) (ExportKeys env) (GetAllGroupSessions env)
        (GetGroupSessionsForRoom env) (GetDefaultKeyData env) (GetKeyData env) (NewKey env)
        (SetKeyData env) (SetDefaultKeyID env) (QueryKeys env) (GenerateCrossSigningKeys env)
        (PublishCrossSigningKeys env) (UIAFallback env) (VerifyPassphrase env)
        (VerifyRecoveryKey env) x (UploadCrossSigningKeysToSSSS env).

Definition key1 : Key := mkKey "key1" (Some pbkdf2_key) "EsT1 2345".

(** A user who knows the passphrase of the default key. *)
Definition unlocking : Env :=
  with_VerifyPassphrase (fun _ _ _ => (Some key1, None))
    (scenario None ("hunter2", true) ("", None) ("key1", Some pbkdf2_key, None)
              (None, Some (mkError "offline" [])) (UIAReturn None)).

(** ** The remaining handlers *)

Section MoreHandlers.

Variable env : Env.

(** Text functions of the Go and mautrix libraries, taken as given:
    [strings.ToLower], [strings.ToUpper], [DeviceIdentity.Fingerprint] and
    [TrustState.String]. *)
Variable ToLower : string -> string.
Variable ToUpper : string -> string.
Variable Fingerprint : DeviceIdentity -> string.
Variable TrustString : TrustState -> string.

Definition cmdDevice (cmd : Command) : M unit :=
  device <- getDevice env cmd ;;
  match device with
  | None => ret tt
  | Some device =>
      d <- load device ;;
      let deviceType := if dev_Deleted d then "Deleted device" else "Device" in
      Reply (deviceType +:+ " " +:+ dev_DeviceID d +:+ " of " +:+ dev_UserID d +:+ nl
             +:+ "Fingerprint: " +:+ Fingerprint d +:+ nl
             +:+ "Identity key: " +:+ dev_IdentityKey d +:+ nl
             +:+ "Device name: " +:+ dev_Name d +:+ nl
             +:+ "Trust state: " +:+ TrustString (dev_Trust d))
  end.

Definition cmdS4SetDefault (cmd : Command) (keyID : string) : M unit :=
  r <- call (EvGetKeyData keyID) (fun h => GetKeyData env h keyID) ;;
  let '(_, err) := r in
  match err with
  | Some e =>
      if errors_Is err MNotFound then
        Reply "Couldn't find key data on server"
      else
        Reply ("Failed to fetch key data: " +:+ Error e)
  | None =>
      err <- call (EvSetDefaultKeyID keyID) (fun h => SetDefaultKeyID env h keyID) ;;
      match err with
      | Some e => Reply ("Failed to set key as default: " +:+ Error e)
      | None => Reply ("Successfully set key " +:+ keyID +:+ " as default")
      end
  end.

Definition ssssHelp (origCommand : string) : string :=
  String.concat nl
    ["Usage: /" +:+ origCommand +:+ " <subcommand> [...]";
     "";
     "Subcommands:";
     "* status [key ID] - Check the status of your SSSS.";
     "* generate [--set-default] - Generate a SSSS key and optionally set it as the default.";
     "* set-default <key ID> - Set a SSSS key as the default."].

Definition cmdSSSS (cmd : Command) : M unit :=
  if (length (cmd_Args cmd) =? 0)%nat then
    Reply (ssssHelp (cmd_OrigCommand cmd))
  else
    a0 <- index (cmd_Args cmd) 0 ;;
    let subcommand := ToLower a0 in
    if String.eqb subcommand "status" then
      keyID <- (if (1 <? length (cmd_Args cmd))%nat then index (cmd_Args cmd) 1 else ret "") ;;
      cmdS4Status env cmd keyID
    else if String.eqb subcommand "generate" then
      setDefault <- (if (1 <? length (cmd_Args cmd))%nat then
                       a1 <- index (cmd_Args cmd) 1 ;;
                       ret (String.eqb (ToLower a1) "--set-default")
                     else ret false) ;;
      cmdS4Generate env cmd setDefault
    else if String.eqb subcommand "set-default" then
      if (length (cmd_Args cmd) <? 2)%nat then
        Reply ("Usage: /" +:+ cmd_OrigCommand cmd +:+ " set-default <key ID>")
      else
        a1 <- index (cmd_Args cmd) 1 ;;
        cmdS4SetDefault cmd a1
    else
      Reply (ssssHelp (cmd_OrigCommand cmd)).

Definition crossSigningHelp (origCommand : string) : string :=
  String.concat nl
    ["Usage: /" +:+ origCommand +:+ " <subcommand> [...]";
     "";
     "Subcommands:";
     "* status";
     "    Check the status of your own cross-signing keys.";
     "* generate [--force]";
     "    Generate and upload new cross-signing keys.";
     "    This will prompt you to enter your account password.";
     "    If you already have existing keys, --force is required.";
     "* fetch [--save-to-disk]";
     "    Fetch your cross-signing keys from SSSS and decrypt them.";
     "    If --save-to-disk is specified, the keys are saved to disk.";
     "* upload";
     "    Upload your cross-signing keys to SSSS."].

(** [len(cmd.Args) > 1 && strings.ToLower(cmd.Args[1]) == flag] *)
Definition has_flag (cmd : Command) (flag : string) : M bool :=
  if (1 <? length (cmd_Args cmd))%nat then
    a1 <- index (cmd_Args cmd) 1 ;;
    ret (String.eqb (ToLower a1) flag)
  else ret false.

Definition cmdCrossSigning (cmd : Command) : M unit :=
  if (length (cmd_Args cmd) =? 0)%nat then
    Reply (crossSigningHelp (cmd_OrigCommand cmd))
  else
    a0 <- index (cmd_Args cmd) 0 ;;
    let subcommand := ToLower a0 in
    if String.eqb subcommand "status" then
      cmdCrossSigningStatus env cmd
    else if String.eqb subcommand "generate" then
      force <- has_flag cmd "--force" ;;
      cmdCrossSigningGenerate env cmd force
    else if String.eqb subcommand "fetch" then
      saveToDisk <- has_flag cmd "--save-to-disk" ;;
      cmdCrossSigningFetch env cmd saveToDisk
    else if String.eqb subcommand "upload" then
      cmdCrossSigningUpload env cmd
    else
      Reply (crossSigningHelp (cmd_OrigCommand cmd)).

End MoreHandlers.

(** ** Listing the devices of a user *)

(** [cmdDevices] talks to the device store through two calls the other
    handlers do not make; its run is given as the ordered list of the calls
    it makes. *)
Inductive DevicesCall :=
| DcGetDevices (u : UserID)
| DcLoadDevices (u : UserID)
| DcReply (msg : string).

(** The answers of the device store; a Go map of devices is the list of its
    entries in the order a [range] visits them. *)
Record DeviceStore := mkDeviceStore {
  store_GetDevices : UserID -> list DeviceIdentity * option error;
  store_LoadDevices : UserID -> list DeviceIdentity
}.

Section Devices.

Variable store : DeviceStore.
Variable Fingerprint : DeviceIdentity -> string.
Variable TrustString : TrustState -> string.

(** What one pass of the loop writes into the buffer. *)
Definition device_entry (device : DeviceIdentity) : string :=
  dev_DeviceID device +:+ " (" +:+ dev_Name device +:+ ") - " +:+ TrustString (dev_Trust device)
  +:+ nl +:+ "    Fingerprint: " +:+ Fingerprint device +:+ nl.

Definition cmdDevices (cmd : Command) : list DevicesCall :=
  match cmd_Args cmd with
  | [] => [DcReply "Usage: /devices <user id>"]
  | userID :: _ =>
      let '(devices, err) := store_GetDevices store userID in
      let failed :=
        match err with
        | Some e => [DcReply ("Failed to get device list: " +:+ Error e)]
        | None => []
        end in
      let '(devices, fetched) :=
        if (length devices =? 0)%nat
        then (store_LoadDevices store userID,
              [DcReply "Fetching device list from server..."; DcLoadDevices userID])
        else (devices, []) in
      ([DcGetDevices userID] ++ failed ++ fetched ++
       (if (length devices =? 0)%nat then
          [DcReply ("No devices found for " +:+ userID)]
        else
          let resp := fold_left (fun buf device => buf +:+ device_entry device) devices "" in
          [DcReply (String.substring 0 (String.length resp - 1) resp)]))%list
  end.

End Devices.

(** ** Autocompletion of user and device ids *)

(** [CommandAutocomplete], with what the completion reads through
    [cmd.Room] (the ids of the members a text completes to) and through
    [cmd.Matrix] (the known devices of a user, in [range] order). *)
Record CommandAutocomplete := mkAutocomplete {
  ac_Command : string;
  ac_OrigCommand : string;
  ac_Args : list string;
  ac_RawArgs : string;
  ac_AutocompleteUser : string -> list string;
  ac_GetDevices : UserID -> list DeviceIdentity * option error
}.

(** [unicode.IsSpace(rune(b))] for a byte [b]: the Latin-1 space characters. *)
Definition IsSpace (b : ascii) : bool :=
  match nat_of_ascii b with
  | 9 | 10 | 11 | 12 | 13 | 32 | 133 | 160 => true
  | _ => false
  end.

Section Autocomplete.

Variable ToUpper : string -> string.

(** A completion is a list of candidates and the new input text; [None]
    is an index out of range. *)
Definition autocompleteDeviceUserID (cmd : CommandAutocomplete)
  : option (list string * string) :=
  match ac_Args cmd !! 0 with
  | None => None
  | Some a0 =>
      let userCompletions := ac_AutocompleteUser cmd a0 in
      if (length userCompletions =? 1)%nat then
        match userCompletions !! 0 with
        | None => None
        | Some id0 => Some ([], "/" +:+ ac_OrigCommand cmd +:+ " " +:+ id0 +:+ " ")
        end
      else Some (userCompletions, "")
  end.

Definition device_completion (device : DeviceIdentity) : string :=
  dev_DeviceID device +:+ " (" +:+ dev_Name device +:+ ")".

Definition device_matches (existingID : string) (device : DeviceIdentity) : bool :=
  String.prefix existingID (ToUpper (dev_Name device))
  || String.prefix existingID (dev_DeviceID device).

(** The loop over the devices when a second argument is there: [None] is
    the early return at a device whose id is the argument. *)
Fixpoint complete_devices (existingID : string) (devices : list DeviceIdentity)
    (completedDeviceID : DeviceID) (completions : list string)
  : option (DeviceID * list string) :=
  match devices with
  | [] => Some (completedDeviceID, completions)
  | device :: rest =>
      if String.eqb (dev_DeviceID device) existingID then None
      else if device_matches existingID device then
        complete_devices existingID rest (dev_DeviceID device)
                         (completions ++ [device_completion device])
      else complete_devices existingID rest completedDeviceID completions
  end.

Definition autocompleteDeviceDeviceID (cmd : CommandAutocomplete)
  : option (list string * string) :=
  match ac_Args cmd !! 0 with
  | None => None
  | Some a0 =>
      let '(devices, err) := ac_GetDevices cmd a0 in
      if (length devices =? 0)%nat || match err with Some _ => true | None => false end then
        Some ([], "")
      else
        let looped :=
          if (1 <? length (ac_Args cmd))%nat then
            match ac_Args cmd !! 1 with
            | None => None
            | Some a1 => complete_devices (ToUpper a1) devices "" []
            end
          else
            Some (fold_left (fun _ device => dev_DeviceID device) devices "",
                  map device_completion devices) in
        match looped with
        | None => Some ([], "")
        | Some (completedDeviceID, completions) =>
            if (length completions =? 1)%nat then
              Some (completions,
                    "/" +:+ ac_OrigCommand cmd +:+ " " +:+ a0 +:+ " " +:+ completedDeviceID +:+ " ")
            else Some (completions, "")
        end
  end.

Definition autocompleteDevice (cmd : CommandAutocomplete) : option (list string * string) :=
  if (length (ac_Args cmd) =? 0)%nat then
    Some ([], "")
  else
    let oneArg : option bool :=
      if (length (ac_Args cmd) =? 1)%nat then
        match String.get (String.length (ac_RawArgs cmd) - 1) (ac_RawArgs cmd) with
        | None => None
        | Some b => Some (negb (IsSpace b))
        end
      else Some false in
    match oneArg with
    | None => None
    | Some true => autocompleteDeviceUserID cmd
    | Some false =>
        if negb (String.eqb (ac_Command cmd) "devices") then
          autocompleteDeviceDeviceID cmd
        else Some ([], "")
    end.

End Autocomplete.

(** ** What a program may touch *)

(** A program is confined to a kind of call when all it ever does is
    record calls of that kind: the device records, the cached key set and
    the SAS timeout stay as they are. *)
Definition confined (P : Event -> bool) {A} (m : M A) : Prop :=
  forall w, exists l, world_of (m w) = records l w /\ forallb P l = true.

Definition is_lookup (e : Event) : bool :=
  match e with EvGetOrFetchDevice _ _ => true | _ => false end.

Definition is_read_only (e : Event) : bool :=
  match e with
  | EvReply _ | EvGetOrFetchDevice _ _ | EvGetDefaultKeyData | EvGetKeyData _
  | EvQueryKeys _ _ => true
  | _ => false
  end.

Definition is_unlock_call (e : Event) : bool :=
  match e with
  | EvReply _ | EvGetDefaultKeyData | EvAskPassword _ _ _ _
  | EvVerifyPassphrase _ | EvVerifyRecoveryKey _ => true
  | _ => false
  end.

Definition is_auth_call (e : Event) : bool :=
  match e with
  | EvReply _ | EvAskPassword _ _ _ _ | EvUIAFallback _ _ => true
  | _ => false
  end.

Definition auth_session (a : AuthData) : string :=
  match a with
  | BaseAuthData _ session => session
  | ReqUIAuthLogin _ session _ _ => session
  end.

Definition auth_type (a : AuthData) : AuthType :=
  match a with
  | BaseAuthData type _ => type
  | ReqUIAuthLogin type _ _ _ => type
  end.

Fixpoint string_map (f : ascii -> ascii) (s : string) : string :=
  match s with
  | EmptyString => EmptyString
  | String c rest => String (f c) (string_map f rest)
  end.

(** ASCII upper-casing, to run the completion on concrete input. *)
Definition ascii_upper (s : string) : string :=
  string_map (fun c => let n := nat_of_ascii c in
                        if ((97 <=? n) && (n <=? 122))%nat then ascii_of_nat (n - 32) else c) s.

Definition ascii_lower (s : string) : string :=
  string_map (fun c => let n := nat_of_ascii c in
                        if ((65 <=? n) && (n <=? 90))%nat then ascii_of_nat (n + 32) else c) s.

Definition bob_laptop : DeviceIdentity :=
  mkDevice "@alice:example.org" "LAPTOP" "curve25519-of-laptop" "ed25519-of-laptop"
           TrustStateVerified false "Work laptop".

(** The two lines [cmdDevices] prints for a device, without the line
    break that ends them in the buffer. *)
Definition device_lines (Fingerprint : DeviceIdentity -> string)
    (TrustString : TrustState -> string) (device : DeviceIdentity) : string :=
  dev_DeviceID device +:+ " (" +:+ dev_Name device +:+ ") - " +:+ TrustString (dev_Trust device)
  +:+ nl +:+ "    Fingerprint: " +:+ Fingerprint device.

Definition has_id (existingID : string) (device : DeviceIdentity) : bool :=
  String.eqb (dev_DeviceID device) existingID.

(** A room with two members and a store that knows two devices of Alice. *)
Definition typing (command : string) (args : list string) (raw : string)
    (devices : list DeviceIdentity) : CommandAutocomplete :=
  mkAutocomplete command command args raw
    (fun text => List.filter (String.prefix text) ["@alice:example.org"; "@bob:example.org"])
    (fun _ => (devices, None)).

Definition trust_name (t : TrustState) : string :=
  match t with
  | TrustStateUnset => "unverified"
  | TrustStateVerified => "verified"
  | TrustStateBlacklisted => "blacklisted"
  | TrustStateCrossSigningVerified => "verified through cross-signing"
  end.

(** The verification the unlock protocol runs on what the user typed, and
    what it says when that fails. *)
Definition verify_call (kd : KeyMetadata) (secret : string) : Event :=
  if uses_passphrase kd then EvVerifyPassphrase secret else EvVerifyRecoveryKey secret.

Definition verify_answer (env : Env) (h : list Event) (kd : KeyMetadata) (secret : string)
  : option Key * option error :=
  if uses_passphrase kd then VerifyPassphrase env h kd secret
  else VerifyRecoveryKey env h kd secret.

Definition unlock_failure (kd : KeyMetadata) (e : error) : string :=
  if uses_passphrase kd then
    if errors_Is (Some e) ErrIncorrectSSSSKey then "Incorrect passphrase"
    else "Failed to get SSSS key: " +:+ Error e
  else
    if errors_Is (Some e) ErrInvalidRecoveryKey then "Malformed recovery key"
    else if errors_Is (Some e) ErrIncorrectSSSSKey then "Incorrect recovery key"
    else "Failed to get SSSS key: " +:+ Error e.

(** A user who types a wrong passphrase for the default key. *)
Definition wrong_passphrase : Env :=
  scenario None ("hunter2", true) ("", None) ("key1", Some pbkdf2_key, None)
           (None, Some (mkError "offline" [])) (UIAReturn None).

Definition passphrase_summary (kd : KeyMetadata) : string :=
  match km_Passphrase kd with
  | Some p =>
      "yes (alg=" +:+ pass_Algorithm p +:+ ",bits=" +:+ itoa (pass_Bits p)
      +:+ ",iter=" +:+ itoa (pass_Iterations p) +:+ ")"
  | None => "no"
  end.

Definition is_probe (e : Event) : bool :=
  match e with EvQueryKeys _ _ => true | _ => false end.

(** ** Basic facts about runs *)

Lemma bind_Done {A B} (m : M A) (k : A -> M B) w a w' :
  m w = Done a w' -> bind m k w = k a w'.
Proof. intros H. unfold bind. now rewrite H. Qed.

Lemma bind_ret {A B} (a : A) (k : A -> M B) w : bind (ret a) k w = k a w.
Proof. reflexivity. Qed.

Lemma bind_Reply {B} msg (k : unit -> M B) w :
  bind (Reply msg) k w = k tt (record (EvReply msg) w).
Proof. reflexivity. Qed.

Lemma bind_deref_Some {A B} (a : A) (k : A -> M B) w :
  bind (deref (Some a)) k w = k a w.
Proof. reflexivity. Qed.

Lemma bind_get_CrossSigningKeys {B} (k : option CrossSigningKeysCache -> M B) w :
  bind get_CrossSigningKeys k w = k (CrossSigningKeys_cached w) w.
Proof. reflexivity. Qed.

Lemma call_run {X} ev (answer : list Event -> X) w :
  call ev answer w = Done (answer (log w)) (record ev w).
Proof. reflexivity. Qed.

Lemma load_run p d w : heap w !! p = Some d -> load p w = Done d w.
Proof. intros H. unfold load. now rewrite H. Qed.

Lemma store_Trust_run p t d w :
  heap w !! p = Some d -> store_Trust p t w = Done tt (with_Trust p t d w).
Proof. intros H. unfold store_Trust. now rewrite H. Qed.

Lemma events_since_app {A} (w : World) (r : Res A) l :
  log (world_of r) = (log w ++ l)%list -> events_since w r = l.
Proof.
  intros H. unfold events_since. rewrite H. apply drop_app_length.
Qed.

Lemma getDevice_found env cmd w u d rest p :
  cmd_Args cmd = u :: d :: rest ->
  GetOrFetchDevice env (log w) u d = (Some p, None) ->
  getDevice env cmd w = Done (Some p) (record (EvGetOrFetchDevice u d) w).
Proof.
  intros Hargs Hget. unfold getDevice, index, bind. rewrite Hargs. cbn.
  rewrite Hget. reflexivity.
Qed.

Lemma putDevice_run env cmd p action d w :
  heap w !! p = Some d ->
  putDevice env cmd p action w =
  Done tt (record (EvOnDevicesChanged (dev_UserID d))
            (record (EvReply (persist_report (PutDevice env (log w) (dev_UserID d) d) action d))
              (record (EvPutDevice (dev_UserID d) d) w))).
Proof.
  intros H. unfold putDevice. rewrite (bind_Done _ _ _ _ _ (load_run _ _ _ H)).
  rewrite (bind_Done _ _ _ _ _ (call_run _ _ _)).
  destruct (PutDevice env (log w) (dev_UserID d) d) as [e|]; reflexivity.
Qed.

Lemma TrustState_eqb_neq a b : TrustState_eqb a b = false <-> a <> b.
Proof. destruct a, b; cbn; split; congruence. Qed.


(** A trust operation on a device that is not yet in the target state
    (for [verify]: in manual mode, with the right fingerprint) writes the
    target state into the record and hands it to [putDevice]. *)
Lemma run_op_mutates env op cmd w u d rest p dev :
  cmd_Args cmd = u :: d :: rest ->
  GetOrFetchDevice env (log w) u d = (Some p, None) ->
  heap w !! p = Some dev ->
  dev_Trust dev <> target op ->
  (op = OpVerify -> rest <> [] /\ String.concat "" rest = dev_SigningKey dev) ->
  run_op env op cmd w =
  putDevice env cmd p (action_label op (dev_Trust dev))
            (with_Trust p (target op) dev (record (EvGetOrFetchDevice u d) w)).
Proof.
  intros Hargs Hget Hheap Hne Hfp.
  assert (Hheap1 : heap (record (EvGetOrFetchDevice u d) w) !! p = Some dev) by exact Hheap.
  apply TrustState_eqb_neq in Hne.
  destruct op; cbn [run_op target action_label] in *.
  - destruct (Hfp eq_refl) as [Hrest Hcat].
    unfold cmdVerify.
    rewrite (bind_Done _ _ _ _ _ (getDevice_found _ _ _ _ _ _ _ Hargs Hget)).
    rewrite (bind_Done _ _ _ _ _ (load_run _ _ _ Hheap1)).
    rewrite Hne, Hargs.
    destruct rest as [|fp1 fps]; [congruence|].
    cbn [length Nat.eqb drop].
    cbn [drop] in Hcat. rewrite Hcat, String.eqb_refl. cbn [negb].
    rewrite (bind_Done _ _ _ _ _ (store_Trust_run _ _ _ _ Hheap1)).
    destruct (dev_Trust dev); reflexivity.
  - unfold cmdUnverify.
    rewrite (bind_Done _ _ _ _ _ (getDevice_found _ _ _ _ _ _ _ Hargs Hget)).
    rewrite (bind_Done _ _ _ _ _ (load_run _ _ _ Hheap1)).
    rewrite Hne.
    rewrite (bind_Done _ _ _ _ _ (store_Trust_run _ _ _ _ Hheap1)).
    destruct (dev_Trust dev); reflexivity.
  - unfold cmdBlacklist.
    rewrite (bind_Done _ _ _ _ _ (getDevice_found _ _ _ _ _ _ _ Hargs Hget)).
    rewrite (bind_Done _ _ _ _ _ (load_run _ _ _ Hheap1)).
    rewrite Hne.
    rewrite (bind_Done _ _ _ _ _ (store_Trust_run _ _ _ _ Hheap1)).
    destruct (dev_Trust dev); reflexivity.
Qed.

Lemma run_op_at_target env op cmd w u d rest p dev :
  cmd_Args cmd = u :: d :: rest ->
  GetOrFetchDevice env (log w) u d = (Some p, None) ->
  heap w !! p = Some dev ->
  dev_Trust dev = target op ->
  run_op env op cmd w =
  Done tt (record (EvReply (already_reply op)) (record (EvGetOrFetchDevice u d) w)).
Proof.
  intros Hargs Hget Hheap Ht.
  assert (Hheap1 : heap (record (EvGetOrFetchDevice u d) w) !! p = Some dev) by exact Hheap.
  destruct op; cbn [run_op target already_reply] in *.
  - unfold cmdVerify.
    rewrite (bind_Done _ _ _ _ _ (getDevice_found _ _ _ _ _ _ _ Hargs Hget)).
    rewrite (bind_Done _ _ _ _ _ (load_run _ _ _ Hheap1)).
    rewrite Ht. reflexivity.
  - unfold cmdUnverify.
    rewrite (bind_Done _ _ _ _ _ (getDevice_found _ _ _ _ _ _ _ Hargs Hget)).
    rewrite (bind_Done _ _ _ _ _ (load_run _ _ _ Hheap1)).
    rewrite Ht. reflexivity.
  - unfold cmdBlacklist.
    rewrite (bind_Done _ _ _ _ _ (getDevice_found _ _ _ _ _ _ _ Hargs Hget)).
    rewrite (bind_Done _ _ _ _ _ (load_run _ _ _ Hheap1)).
    rewrite Ht. reflexivity.
Qed.

Lemma with_Trust_lookup p t d w :
  heap (with_Trust p t d w) !! p = Some (set_Trust t d).
Proof. cbn. apply lookup_insert_eq. Qed.

(** ** Device trust: verify, unverify, blacklist *)

(** C5.  A device that is already in the target trust state of [verify]
    (Verified), [unverify] (Unset) or [blacklist] (Blacklisted) gets the
    fixed "already ..." reply and nothing else: no store write, and the
    device records are left as they were. *)
Theorem trust_op_idempotent_at_target env op cmd w u d rest p dev :
  cmd_Args cmd = u :: d :: rest ->
  GetOrFetchDevice env (log w) u d = (Some p, None) ->
  heap w !! p = Some dev ->
  dev_Trust dev = target op ->
  run_op env op cmd w =
    Done tt (record (EvReply (already_reply op)) (record (EvGetOrFetchDevice u d) w))
  /\ events_since w (run_op env op cmd w) =
       [EvGetOrFetchDevice u d; EvReply (already_reply op)]
  /\ existsb is_store_write (events_since w (run_op env op cmd w)) = false
  /\ heap (world_of (run_op env op cmd w)) = heap w.
Proof.
  intros Hargs Hget Hheap Ht.
  pose proof (run_op_at_target env op cmd w u d rest p dev Hargs Hget Hheap Ht) as Hrun.
  assert (Hev : events_since w (run_op env op cmd w) =
                [EvGetOrFetchDevice u d; EvReply (already_reply op)]).
  { apply events_since_app. rewrite Hrun. cbn. now rewrite <- app_assoc. }
  split; [exact Hrun|]. split; [exact Hev|]. split.
  - rewrite Hev. reflexivity.
  - rewrite Hrun. reflexivity.
Qed.

Lemma trust_op_idempotent_at_target_witness :
  events_since (session_with (alice_phone TrustStateVerified))
    (cmdVerify plain (device_cmd "verify" ["ed25519-of-phone"])
               (session_with (alice_phone TrustStateVerified)))
  = [EvGetOrFetchDevice "@alice:example.org" "PHONE"; EvReply "That device is already verified"]
  /\ events_since (session_with (alice_phone TrustStateUnset))
    (cmdUnverify plain (device_cmd "unverify" []) (session_with (alice_phone TrustStateUnset)))
  = [EvGetOrFetchDevice "@alice:example.org" "PHONE"; EvReply "That device is already not verified"]
  /\ events_since (session_with (alice_phone TrustStateBlacklisted))
    (cmdBlacklist plain (device_cmd "blacklist" []) (session_with (alice_phone TrustStateBlacklisted)))
  = [EvGetOrFetchDevice "@alice:example.org" "PHONE"; EvReply "That device is already blacklisted"].
Proof.
  split; [|split].
  - exact (proj1 (proj2 (trust_op_idempotent_at_target plain OpVerify
      (device_cmd "verify" ["ed25519-of-phone"]) (session_with (alice_phone TrustStateVerified))
      "@alice:example.org" "PHONE" ["ed25519-of-phone"] 1 (alice_phone TrustStateVerified)
      eq_refl eq_refl eq_refl eq_refl))).
  - exact (proj1 (proj2 (trust_op_idempotent_at_target plain OpUnverify
      (device_cmd "unverify" []) (session_with (alice_phone TrustStateUnset))
      "@alice:example.org" "PHONE" [] 1 (alice_phone TrustStateUnset)
      eq_refl eq_refl eq_refl eq_refl))).
  - exact (proj1 (proj2 (trust_op_idempotent_at_target plain OpBlacklist
      (device_cmd "blacklist" []) (session_with (alice_phone TrustStateBlacklisted))
      "@alice:example.org" "PHONE" [] 1 (alice_phone TrustStateBlacklisted)
      eq_refl eq_refl eq_refl eq_refl))).
Defined.

(** C4.  Manual [verify] on a device that is not Verified: the arguments
    after the device id, concatenated, are compared with the device's
    signing key.  A mismatch replies "Mismatching fingerprint", writes
    nothing to the store and leaves the record alone; a match sets the
    trust state to Verified and goes on to [putDevice] under the label
    "verified", or "unblacklisted and verified" for a device that was
    Blacklisted.  The trust state changes exactly when the two strings are
    equal. *)
Theorem manual_verify_iff_fingerprint env cmd w u d fp1 fps p dev :
  cmd_Args cmd = u :: d :: fp1 :: fps ->
  GetOrFetchDevice env (log w) u d = (Some p, None) ->
  heap w !! p = Some dev ->
  dev_Trust dev <> TrustStateVerified ->
  let fingerprint := String.concat "" (fp1 :: fps) in
  let w1 := record (EvGetOrFetchDevice u d) w in
  let r := cmdVerify env cmd w in
  (fingerprint <> dev_SigningKey dev ->
     r = Done tt (record (EvReply "Mismatching fingerprint") w1)
     /\ heap (world_of r) = heap w
     /\ existsb is_store_write (events_since w r) = false)
  /\ (fingerprint = dev_SigningKey dev ->
     r = putDevice env cmd p
           (if TrustState_eqb (dev_Trust dev) TrustStateBlacklisted
            then "unblacklisted and verified" else "verified")
           (with_Trust p TrustStateVerified dev w1)
     /\ heap (world_of r) !! p = Some (set_Trust TrustStateVerified dev)
     /\ existsb is_store_write (events_since w r) = true)
  /\ (dev_Trust <$> heap (world_of r) !! p <> Some (dev_Trust dev)
      <-> fingerprint = dev_SigningKey dev).
Proof.
  intros Hargs Hget Hheap Hne fingerprint w1 r.
  assert (Hheap1 : heap w1 !! p = Some dev) by exact Hheap.
  assert (Hmis : fingerprint <> dev_SigningKey dev ->
                 r = Done tt (record (EvReply "Mismatching fingerprint") w1)).
  { intros Hfp. subst r. unfold cmdVerify.
    rewrite (bind_Done _ _ _ _ _ (getDevice_found _ _ _ _ _ _ _ Hargs Hget)).
    rewrite (bind_Done _ _ _ _ _ (load_run _ _ _ Hheap1)).
    apply TrustState_eqb_neq in Hne. rewrite Hne, Hargs.
    cbn [length Nat.eqb drop]. fold fingerprint.
    assert (Hb : String.eqb (dev_SigningKey dev) fingerprint = false)
      by (apply String.eqb_neq; congruence).
    rewrite Hb. reflexivity. }
  assert (Hmat : fingerprint = dev_SigningKey dev ->
                 r = Done tt
                   (record (EvOnDevicesChanged (dev_UserID dev))
                     (record (EvReply (persist_report
                        (PutDevice env (log w1) (dev_UserID dev) (set_Trust TrustStateVerified dev))
                        (action_label OpVerify (dev_Trust dev)) (set_Trust TrustStateVerified dev)))
                       (record (EvPutDevice (dev_UserID dev) (set_Trust TrustStateVerified dev))
                          (with_Trust p TrustStateVerified dev w1))))).
  { intros Hfp. subst r.
    change (cmdVerify env cmd w) with (run_op env OpVerify cmd w).
    rewrite (run_op_mutates env OpVerify cmd w u d (fp1 :: fps) p dev Hargs Hget Hheap Hne)
      by (intros _; split; [discriminate | exact Hfp]).
    rewrite (putDevice_run env cmd p _ (set_Trust TrustStateVerified dev) _
               (with_Trust_lookup p TrustStateVerified dev w1)).
    reflexivity. }
  split; [|split].
  - intros Hfp. specialize (Hmis Hfp). split; [exact Hmis|]. split.
    + rewrite Hmis. reflexivity.
    + rewrite (events_since_app w r [EvGetOrFetchDevice u d; EvReply "Mismatching fingerprint"]).
      * reflexivity.
      * rewrite Hmis. cbn. now rewrite <- app_assoc.
  - intros Hfp. split; [|split].
    + subst r. change (cmdVerify env cmd w) with (run_op env OpVerify cmd w).
      rewrite (run_op_mutates env OpVerify cmd w u d (fp1 :: fps) p dev Hargs Hget Hheap Hne)
        by (intros _; split; [discriminate | exact Hfp]).
      cbn [target action_label]. destruct (dev_Trust dev); reflexivity.
    + rewrite (Hmat Hfp). cbn. apply lookup_insert_eq.
    + rewrite (events_since_app w r
        [EvGetOrFetchDevice u d;
         EvPutDevice (dev_UserID dev) (set_Trust TrustStateVerified dev);
         EvReply (persist_report
            (PutDevice env (log w1) (dev_UserID dev) (set_Trust TrustStateVerified dev))
            (action_label OpVerify (dev_Trust dev)) (set_Trust TrustStateVerified dev));
         EvOnDevicesChanged (dev_UserID dev)]).
      * reflexivity.
      * rewrite (Hmat Hfp). cbn. now rewrite <- !app_assoc.
  - split.
    + intros Hchg. destruct (string_dec fingerprint (dev_SigningKey dev)) as [Heq|Hneq]; [exact Heq|].
      exfalso. apply Hchg. rewrite (Hmis Hneq). cbn. now rewrite Hheap.
    + intros Hfp. rewrite (Hmat Hfp). cbn. rewrite lookup_insert_eq. cbn. congruence.
Qed.

Lemma manual_verify_iff_fingerprint_witness :
  heap (world_of (cmdVerify plain (device_cmd "verify" ["ed25519"; "-of-phone"])
                            (session_with (alice_phone TrustStateBlacklisted)))) !! 1
  = Some (set_Trust TrustStateVerified (alice_phone TrustStateBlacklisted))
  /\ cmdVerify plain (device_cmd "verify" ["ed25519-of-phonE"])
               (session_with (alice_phone TrustStateUnset))
     = Done tt (record (EvReply "Mismatching fingerprint")
                  (record (EvGetOrFetchDevice "@alice:example.org" "PHONE")
                     (session_with (alice_phone TrustStateUnset)))).
Proof.
  split.
  - destruct (manual_verify_iff_fingerprint plain
        (device_cmd "verify" ["ed25519"; "-of-phone"])
        (session_with (alice_phone TrustStateBlacklisted))
        "@alice:example.org" "PHONE" "ed25519" ["-of-phone"] 1
        (alice_phone TrustStateBlacklisted) eq_refl eq_refl eq_refl
        ltac:(discriminate)) as [_ [Hmatch _]].
    exact (proj1 (proj2 (Hmatch eq_refl))).
  - destruct (manual_verify_iff_fingerprint plain
        (device_cmd "verify" ["ed25519-of-phonE"])
        (session_with (alice_phone TrustStateUnset))
        "@alice:example.org" "PHONE" "ed25519-of-phonE" [] 1
        (alice_phone TrustStateUnset) eq_refl eq_refl eq_refl
        ltac:(discriminate)) as [Hmismatch _].
    exact (proj1 (Hmismatch ltac:(discriminate))).
Defined.

(** C3, as the claim states it, fails: with a store that refuses the
    write, [blacklist] reports the failure and still fires the
    devices-changed notification. *)
Lemma notification_fires_on_persist_failure :
  ~ no_notification_on_persist_failure store_broken (device_cmd "blacklist" []) 1
      "blacklisted" (session_with (alice_phone TrustStateBlacklisted)).
Proof.
  intros H.
  specialize (H (alice_phone TrustStateBlacklisted) disk_full eq_refl eq_refl).
  vm_compute in H. discriminate H.
Qed.

(** C3, amended.  A trust mutation by [verify], [unverify] or [blacklist]
    makes exactly these calls after the lookup, in this order: the store
    write of the mutated record, the reply that reports its outcome (the
    failure when the write failed, the success with the action label
    otherwise), and the devices-changed notification.  The notification
    comes after the write was attempted, whatever its outcome. *)
Theorem notification_follows_persist_attempt env op cmd w u d rest p dev :
  cmd_Args cmd = u :: d :: rest ->
  GetOrFetchDevice env (log w) u d = (Some p, None) ->
  heap w !! p = Some dev ->
  dev_Trust dev <> target op ->
  (op = OpVerify -> rest <> [] /\ String.concat "" rest = dev_SigningKey dev) ->
  let dev' := set_Trust (target op) dev in
  let outcome :=
    PutDevice env (log w ++ [EvGetOrFetchDevice u d]) (dev_UserID dev) dev' in
  events_since w (run_op env op cmd w) =
    [EvGetOrFetchDevice u d;
     EvPutDevice (dev_UserID dev) dev';
     EvReply (persist_report outcome (action_label op (dev_Trust dev)) dev');
     EvOnDevicesChanged (dev_UserID dev)]
  /\ (forall e, outcome = Some e ->
        persist_report outcome (action_label op (dev_Trust dev)) dev'
        = "Failed to save device: " +:+ Error e)
  /\ heap (world_of (run_op env op cmd w)) !! p = Some dev'.
Proof.
  intros Hargs Hget Hheap Hne Hfp dev' outcome.
  rewrite (run_op_mutates env op cmd w u d rest p dev Hargs Hget Hheap Hne Hfp).
  rewrite (putDevice_run env cmd p _ dev' _
             (with_Trust_lookup p (target op) dev (record (EvGetOrFetchDevice u d) w))).
  split; [|split].
  - apply events_since_app. cbn. now rewrite <- !app_assoc.
  - intros e He. now rewrite He.
  - cbn. apply lookup_insert_eq.
Qed.

Lemma notification_follows_persist_attempt_witness :
  events_since (session_with (alice_phone TrustStateVerified))
    (cmdBlacklist store_broken (device_cmd "blacklist" [])
                  (session_with (alice_phone TrustStateVerified)))
  = [EvGetOrFetchDevice "@alice:example.org" "PHONE";
     EvPutDevice "@alice:example.org" (alice_phone TrustStateBlacklisted);
     EvReply "Failed to save device: disk full";
     EvOnDevicesChanged "@alice:example.org"]
  /\ events_since (session_with (alice_phone TrustStateUnset))
    (cmdVerify plain (device_cmd "verify" ["ed25519-of-phone"])
               (session_with (alice_phone TrustStateUnset)))
  = [EvGetOrFetchDevice "@alice:example.org" "PHONE";
     EvPutDevice "@alice:example.org" (alice_phone TrustStateVerified);
     EvReply "Successfully verified @alice:example.org/PHONE (Alice's phone)";
     EvOnDevicesChanged "@alice:example.org"].
Proof.
  split.
  - exact (proj1 (notification_follows_persist_attempt store_broken OpBlacklist
      (device_cmd "blacklist" []) (session_with (alice_phone TrustStateVerified))
      "@alice:example.org" "PHONE" [] 1 (alice_phone TrustStateVerified)
      eq_refl eq_refl eq_refl ltac:(discriminate) ltac:(discriminate))).
  - exact (proj1 (notification_follows_persist_attempt plain OpVerify
      (device_cmd "verify" ["ed25519-of-phone"]) (session_with (alice_phone TrustStateUnset))
      "@alice:example.org" "PHONE" ["ed25519-of-phone"] 1 (alice_phone TrustStateUnset)
      eq_refl eq_refl eq_refl ltac:(discriminate)
      ltac:(intros _; split; [discriminate | reflexivity]))).
Defined.

(** ** Secret storage status *)

Lemma cmdS4Status_no_default_key env cmd w keyID e :
  GetDefaultKeyData env (log w) = (keyID, None, Some e) ->
  errors_Is (Some e) ErrNoDefaultKeyAccountDataEvent = true ->
  cmdS4Status env cmd "" w =
  Panic (record (EvReply "SSSS is not set up: no default key set")
           (record EvGetDefaultKeyData w)).
Proof.
  intros Hget His. unfold cmdS4Status. cbn [String.length Nat.eqb].
  rewrite (bind_Done _ _ _ _ _ (call_run _ _ _)), Hget, His.
  reflexivity.
Qed.

(** C1.  [ssss status] without a key id, on an account that has no default
    key: the lookup answers with the no-default-key error and no metadata.
    The handler sends "SSSS is not set up: no default key set" and then,
    having not returned, reads the passphrase field of the absent metadata:
    the run ends in a panic. *)
Theorem ssss_status_without_default_key_panics :
  GetDefaultKeyData plain [] = ("", None, Some no_default_key)
  /\ cmdS4Status plain (ssss_cmd ["status"]) "" empty_session =
     Panic (record (EvReply "SSSS is not set up: no default key set")
              (record EvGetDefaultKeyData empty_session))
  /\ panicked (cmdS4Status plain (ssss_cmd ["status"]) "" empty_session) = true.
Proof.
  assert (H : cmdS4Status plain (ssss_cmd ["status"]) "" empty_session =
              Panic (record (EvReply "SSSS is not set up: no default key set")
                       (record EvGetDefaultKeyData empty_session)))
    by (apply (cmdS4Status_no_default_key plain _ empty_session "" no_default_key);
        reflexivity).
  split; [reflexivity|]. split; [exact H|]. now rewrite H.
Qed.

(** ** Cross-signing status *)

Lemma parseKeyResp_three keys userID mk sk uk :
  MasterKeys keys !! userID = Some mk ->
  SelfSigningKeys keys !! userID = Some sk ->
  UserSigningKeys keys !! userID = Some uk ->
  parseKeyResp keys userID = (FirstKey mk, FirstKey uk, FirstKey sk, true).
Proof. intros Hm Hs Hu. unfold parseKeyResp. now rewrite Hm, Hs, Hu. Qed.

Lemma parseKeyResp_two keys userID mk sk :
  MasterKeys keys !! userID = Some mk ->
  SelfSigningKeys keys !! userID = Some sk ->
  UserSigningKeys keys !! userID = None ->
  parseKeyResp keys userID = (FirstKey mk, FirstKey sk, "", true).
Proof. intros Hm Hs Hu. unfold parseKeyResp. now rewrite Hm, Hs, Hu. Qed.

Lemma parseKeyResp_found keys userID :
  snd (parseKeyResp keys userID) = true <->
  is_Some (MasterKeys keys !! userID) /\ is_Some (SelfSigningKeys keys !! userID).
Proof.
  unfold parseKeyResp.
  destruct (MasterKeys keys !! userID) as [mk|];
    destruct (SelfSigningKeys keys !! userID) as [sk|];
    destruct (UserSigningKeys keys !! userID) as [uk|]; cbn;
    split; try discriminate; try (intros [[? ?] [? ?]]; discriminate);
    try (intros _; split; eexists; reflexivity); reflexivity.
Qed.

(** C2.  With no cached keys and a directory that publishes a master key
    MASTER, a self-signing key SELF and a user-signing key USER, the status
    reply prints SELF under "User signing key" and USER under "Self-signing
    key": the three-key return of [parseKeyResp] lists the user-signing key
    second, where its caller and its own two-key return have the
    self-signing key.  With only master and self-signing published the
    labels are right. *)
Theorem cross_signing_status_swaps_roles :
  events_since empty_session
    (cmdCrossSigningStatus (directory_with published_three) (cross_signing_cmd ["status"])
                           empty_session)
  = [EvQueryKeys "@me:example.org" "LAPTOP";
     EvReply "Cross-signing is set up, but private keys are not cached";
     EvReply "Master key: MASTER";
     EvReply "User signing key: SELF";
     EvReply "Self-signing key: USER"]
  /\ events_since empty_session
    (cmdCrossSigningStatus (directory_with published_two) (cross_signing_cmd ["status"])
                           empty_session)
  = [EvQueryKeys "@me:example.org" "LAPTOP";
     EvReply "Cross-signing is set up, but private keys are not cached";
     EvReply "Master key: MASTER";
     EvReply "User signing key: ";
     EvReply "Self-signing key: SELF"].
Proof. split; vm_compute; reflexivity. Qed.

(** ** Key export *)

(** Once the path is resolved and a passphrase entered, the file is
    written whatever the export step answered; a failed export only adds its
    report in front. *)
Lemma exportKeys_run env cmd sessions w path passphrase export err :
  filepath_Abs env (log w) (cmd_RawArgs cmd) = (path, None) ->
  AskPassword env (log (records [EvAbs (cmd_RawArgs cmd)] w)) "Key export" "passphrase" "" true
    = (passphrase, true) ->
  ExportKeys env (log (records [EvAbs (cmd_RawArgs cmd);
                                EvAskPassword "Key export" "passphrase" "" true] w))
             passphrase sessions = (export, err) ->
  let w3 := records [EvAbs (cmd_RawArgs cmd);
                     EvAskPassword "Key export" "passphrase" "" true;
                     EvExportKeys passphrase sessions] w in
  let w4 := match err with
            | Some e => record (EvReply ("Failed to export sessions: " +:+ Error e)) w3
            | None => w3
            end in
  exportKeys env cmd sessions w =
  Done tt (records
    [EvWriteFile path export perm_0400;
     EvReply match WriteFile env (log w4) path export perm_0400 with
             | Some e => "Failed to write sessions to " +:+ path +:+ ": " +:+ Error e
             | None => "Successfully exported " +:+ itoa (length sessions)
                       +:+ " sessions to " +:+ path
             end] w4).
Proof.
  intros Habs Hask Hexp. unfold exportKeys, askPassword.
  rewrite (bind_Done _ _ _ _ _ (call_run _ _ _)), Habs.
  rewrite (bind_Done _ _ _ _ _ (call_run _ _ _)). cbn [records fold_left] in Hask, Hexp.
  rewrite Hask. cbn [negb].
  rewrite (bind_Done _ _ _ _ _ (call_run _ _ _)), Hexp.
  destruct err as [e|]; cbn [records fold_left].
  - rewrite bind_Reply.
    rewrite (bind_Done _ _ _ _ _ (call_run _ _ _)).
    destruct (WriteFile env _ path export perm_0400); reflexivity.
  - rewrite bind_ret.
    rewrite (bind_Done _ _ _ _ _ (call_run _ _ _)).
    destruct (WriteFile env _ path export perm_0400); reflexivity.
Qed.

(** C6.  When serializing and encrypting the sessions fails, [exportKeys]
    reports the failure and, having not returned, still writes the output
    file (with whatever the failed export handed back) and then reports a
    successful export. *)
Theorem export_failure_still_writes_file :
  ExportKeys export_broken
    [EvAbs "keys.txt"; EvAskPassword "Key export" "passphrase" "" true]
    "hunter2" ["session-1"; "session-2"]
  = ("", Some (mkError "unsupported value" []))
  /\ events_since empty_session
       (exportKeys export_broken export_cmd ["session-1"; "session-2"] empty_session)
     = [EvAbs "keys.txt";
        EvAskPassword "Key export" "passphrase" "" true;
        EvExportKeys "hunter2" ["session-1"; "session-2"];
        EvReply "Failed to export sessions: unsupported value";
        EvWriteFile "/home/me/keys.txt" "" perm_0400;
        EvReply "Successfully exported 2 sessions to /home/me/keys.txt"]
  /\ existsb is_file_write
       (events_since empty_session
          (exportKeys export_broken export_cmd ["session-1"; "session-2"] empty_session))
     = true.
Proof. repeat split; vm_compute; reflexivity. Qed.

(** ** Cross-signing generate: the authentication callback *)

(** The loop over the offered flows ends at the first flow: one that does
    not have exactly one stage makes the callback return no credential at
    once, without a word. *)
Lemma uiaCallback_gives_up_at_first_flow env cmd uia flow rest w :
  HasSingleStageFlow uia AuthTypePassword = false ->
  Flows uia = flow :: rest ->
  length (Stages flow) <> 1 ->
  uiaCallback env cmd uia w = Done None w.
Proof.
  intros Hpw Hflows Hlen. unfold uiaCallback. rewrite Hpw, Hflows. cbn [negb for_range].
  apply Nat.eqb_neq in Hlen. rewrite Hlen. reflexivity.
Qed.

(** The reply after the loop is reached when no flow is offered at all. *)
Lemma uiaCallback_no_flows env cmd uia w :
  Flows uia = [] ->
  uiaCallback env cmd uia w =
  Done None (record (EvReply "No supported authentication mechanisms found") w).
Proof.
  intros Hflows. unfold uiaCallback, HasSingleStageFlow. rewrite Hflows. reflexivity.
Qed.

(** C7.  A challenge that offers one flow of two stages has no single
    password stage and no flow of exactly one stage.  The callback returns
    no credential on the first flow it looks at, before it reaches the reply
    "No supported authentication mechanisms found": nothing is said by the
    callback, and the user only sees the publish failure. *)
Theorem unsupported_flows_are_not_reported :
  HasSingleStageFlow two_stage_challenge AuthTypePassword = false
  /\ forallb (fun f => negb (length (Stages f) =? 1)%nat) (Flows two_stage_challenge) = true
  /\ uiaCallback (server_demands two_stage_challenge) (cross_signing_cmd ["generate"; "--force"])
                 two_stage_challenge empty_session
     = Done None empty_session
  /\ events_since empty_session
       (cmdCrossSigningGenerate (server_demands two_stage_challenge)
          (cross_signing_cmd ["generate"; "--force"]) true empty_session)
     = [EvGenerateCrossSigningKeys;
        EvPublishCrossSigningKeys (Some (mkCache "new-master" "new-self" "new-user"));
        EvReply "Failed to publish cross-signing keys: M_UNAUTHORIZED"].
Proof. repeat split; vm_compute; reflexivity. Qed.

(** ** Programs only add to the record *)

Lemma appends_ret {A} (a : A) : appends (ret a).
Proof. intros w. exists []. cbn. now rewrite app_nil_r. Qed.

Lemma appends_panic {A} : appends (@panic A).
Proof. intros w. exists []. cbn. now rewrite app_nil_r. Qed.

Lemma appends_call {X} ev (answer : list Event -> X) : appends (call ev answer).
Proof. intros w. exists [ev]. reflexivity. Qed.

Lemma appends_Reply msg : appends (Reply msg).
Proof. apply appends_call. Qed.

Lemma appends_bind {A B} (m : M A) (k : A -> M B) :
  appends m -> (forall a, appends (k a)) -> appends (bind m k).
Proof.
  intros Hm Hk w. unfold bind. destruct (Hm w) as [l Hl].
  destruct (m w) as [a w'|w']; cbn in Hl.
  - destruct (Hk a w') as [l' Hl']. exists (l ++ l')%list.
    rewrite Hl', Hl. now rewrite app_assoc.
  - exists l. exact Hl.
Qed.

Lemma appends_deref {A} (p : option A) : appends (deref p).
Proof. destruct p; [apply appends_ret | apply appends_panic]. Qed.

Lemma appends_set_CrossSigningKeys k : appends (set_CrossSigningKeys k).
Proof. intros w. exists []. cbn. now rewrite app_nil_r. Qed.

Lemma appends_for_range {A R} (l : list A) (body : A -> M (option R)) :
  (forall x, appends (body x)) -> appends (for_range l body).
Proof.
  intros Hbody. induction l as [|x rest IH]; cbn [for_range].
  - apply appends_ret.
  - apply appends_bind; [apply Hbody|]. intros [v|]; [apply appends_ret | exact IH].
Qed.

Lemma appends_run_UIAScript s cb :
  (forall uia, appends (cb uia)) -> appends (run_UIAScript s cb).
Proof.
  intros Hcb. induction s as [err|uia next IH]; cbn [run_UIAScript].
  - apply appends_ret.
  - apply appends_bind; [apply Hcb|]. intros auth. apply IH.
Qed.

Lemma appends_uiaCallback env cmd uia : appends (uiaCallback env cmd uia).
Proof.
  unfold uiaCallback.
  destruct (negb (HasSingleStageFlow uia AuthTypePassword)).
  - apply appends_bind.
    + apply appends_for_range. intros flow.
      destruct (negb (length (Stages flow) =? 1)%nat); [apply appends_ret|].
      apply appends_bind; [apply appends_Reply|]. intros _.
      apply appends_bind; [apply appends_deref|]. intros stage0.
      apply appends_bind; [apply appends_call|]. intros [e|].
      * apply appends_bind; [apply appends_Reply|]. intros _. apply appends_ret.
      * apply appends_ret.
    + intros [returned|]; [apply appends_ret|].
      apply appends_bind; [apply appends_Reply|]. intros _. apply appends_ret.
  - apply appends_bind; [apply appends_call|]. intros [password ok].
    destruct (negb ok); apply appends_ret.
Qed.

(** ** Cross-signing generate: the probe for published keys *)

(** What a forced generate does: it derives a key set, and publishes it
    when the derivation succeeded. *)
Lemma forced_generate_log env cmd w :
  match GenerateCrossSigningKeys env (log w) with
  | (_, Some e) =>
      log (world_of (cmdCrossSigningGenerate env cmd true w))
      = (log w ++ [EvGenerateCrossSigningKeys;
                   EvReply ("Failed to generate cross-signing keys: " +:+ Error e)])%list
  | (keys, None) =>
      exists tail,
        log (world_of (cmdCrossSigningGenerate env cmd true w))
        = (log w ++ EvGenerateCrossSigningKeys :: EvPublishCrossSigningKeys keys :: tail)%list
  end.
Proof.
  unfold cmdCrossSigningGenerate. cbn [negb].
  rewrite (bind_Done _ _ _ _ _ (call_run _ _ _)).
  destruct (GenerateCrossSigningKeys env (log w)) as [keys [e|]].
  - cbn. now rewrite <- app_assoc.
  - rewrite (bind_Done _ _ _ _ _ (call_run _ _ _)).
    set (w2 := record (EvPublishCrossSigningKeys keys) (record EvGenerateCrossSigningKeys w)).
    set (script := PublishCrossSigningKeys env _ keys).
    assert (Happ : appends (err <- run_UIAScript script (uiaCallback env cmd) ;;
                            match err with
                            | Some e => Reply ("Failed to publish cross-signing keys: " +:+ Error e)
                            | None => set_CrossSigningKeys keys
                            end)).
    { apply appends_bind.
      - apply appends_run_UIAScript. intros uia. apply appends_uiaCallback.
      - intros [e|]; [apply appends_Reply | apply appends_set_CrossSigningKeys]. }
    destruct (Happ w2) as [tail Htail]. exists tail.
    rewrite Htail. subst w2. cbn. now rewrite <- !app_assoc.
Qed.

(** C9.  [generate] without the force flag, when the directory answers
    with both a master and a self-signing key for the account: the only
    calls are the probe and the reply that asks for [--force]; no key set
    is derived, nothing is published, and the cached key set is left
    alone. *)
Theorem generate_without_force_stops_at_existing_keys env cmd w keys mk sk :
  QueryKeys env (log w) (client_UserID env) (client_DeviceID env) = (Some keys, None) ->
  MasterKeys keys !! client_UserID env = Some mk ->
  SelfSigningKeys keys !! client_UserID env = Some sk ->
  let r := cmdCrossSigningGenerate env cmd false w in
  events_since w r =
    [EvQueryKeys (client_UserID env) (client_DeviceID env);
     EvReply "Found existing cross-signing keys. Use `--force` if you want to overwrite them."]
  /\ existsb is_generate_or_publish (events_since w r) = false
  /\ CrossSigningKeys_cached (world_of r) = CrossSigningKeys_cached w
  /\ panicked r = false.
Proof.
  intros Hq Hmk Hsk r.
  assert (Hr : r = Done tt
    (record (EvReply "Found existing cross-signing keys. Use `--force` if you want to overwrite them.")
       (record (EvQueryKeys (client_UserID env) (client_DeviceID env)) w))).
  { subst r. unfold cmdCrossSigningGenerate, queryOwnKeys. cbn [negb].
    rewrite (bind_Done _ _ _ _ _ (call_run _ _ _)), Hq.
    cbn [deref]. rewrite (bind_Done _ _ _ _ _ eq_refl).
    destruct (UserSigningKeys keys !! client_UserID env) as [uk|] eqn:Huk.
    - rewrite (parseKeyResp_three _ _ _ _ _ Hmk Hsk Huk). reflexivity.
    - rewrite (parseKeyResp_two _ _ _ _ Hmk Hsk Huk). reflexivity. }
  assert (Hev : events_since w r =
    [EvQueryKeys (client_UserID env) (client_DeviceID env);
     EvReply "Found existing cross-signing keys. Use `--force` if you want to overwrite them."]).
  { apply events_since_app. rewrite Hr. cbn. now rewrite <- app_assoc. }
  split; [exact Hev|]. split; [now rewrite Hev|]. rewrite Hr. split; reflexivity.
Qed.

Lemma generate_without_force_stops_at_existing_keys_witness :
  events_since empty_session
    (cmdCrossSigningGenerate (directory_with published_two) (cross_signing_cmd ["generate"])
                             false empty_session)
  = [EvQueryKeys "@me:example.org" "LAPTOP";
     EvReply "Found existing cross-signing keys. Use `--force` if you want to overwrite them."].
Proof.
  exact (proj1 (generate_without_force_stops_at_existing_keys (directory_with published_two)
    (cross_signing_cmd ["generate"]) empty_session published_two
    (mkCSK [("ed25519:MASTER", "MASTER")]) (mkCSK [("ed25519:SELF", "SELF")])
    eq_refl eq_refl eq_refl)).
Defined.

(** C10.  [generate] without the force flag, when the probe itself fails:
    nothing is said about the failure, and the run is the run of a forced
    generate from there on: a key set is derived next and, when that
    succeeded, published.  It is also the very run the handler makes when
    the directory answers and has no master or no self-signing key for the
    account. *)
Theorem failed_probe_is_treated_as_absence env cmd w keys e :
  QueryKeys env (log w) (client_UserID env) (client_DeviceID env) = (keys, Some e) ->
  let probe := EvQueryKeys (client_UserID env) (client_DeviceID env) in
  let r := cmdCrossSigningGenerate env cmd false w in
  r = cmdCrossSigningGenerate env cmd true (record probe w)
  /\ match GenerateCrossSigningKeys env (log w ++ [probe]) with
     | (_, Some e') =>
         events_since w r =
           [probe; EvGenerateCrossSigningKeys;
            EvReply ("Failed to generate cross-signing keys: " +:+ Error e')]
     | (fresh, None) =>
         exists tail,
           events_since w r =
             probe :: EvGenerateCrossSigningKeys :: EvPublishCrossSigningKeys fresh :: tail
     end
  /\ (forall absent : RespQueryKeys,
        MasterKeys absent !! client_UserID env = None
        \/ SelfSigningKeys absent !! client_UserID env = None ->
        cmdCrossSigningGenerate (with_QueryKeys (fun _ _ _ => (Some absent, None)) env)
                                cmd false w = r).
Proof.
  intros Hq probe r.
  assert (Hr : r = cmdCrossSigningGenerate env cmd true (record probe w)).
  { subst r probe. unfold cmdCrossSigningGenerate at 1. unfold queryOwnKeys. cbn [negb].
    rewrite (bind_Done _ _ _ _ _ (call_run _ _ _)), Hq. reflexivity. }
  split; [exact Hr|]. split.
  - pose proof (forced_generate_log env cmd (record probe w)) as Hlog.
    change (log (record probe w)) with (log w ++ [probe])%list in Hlog.
    rewrite <- Hr in Hlog.
    destruct (GenerateCrossSigningKeys env (log w ++ [probe])) as [fresh [e'|]].
    + apply events_since_app. rewrite Hlog. now rewrite <- app_assoc.
    + destruct Hlog as [tail Htail]. exists tail.
      apply events_since_app. rewrite Htail. now rewrite <- app_assoc.
  - intros absent Habsent. rewrite Hr.
    unfold cmdCrossSigningGenerate at 1. unfold queryOwnKeys. cbn [negb].
    rewrite (bind_Done _ _ _ _ _ (call_run _ _ _)).
    cbn [with_QueryKeys QueryKeys client_UserID client_DeviceID deref].
    rewrite (bind_Done _ _ _ _ _ eq_refl).
    assert (Hp : parseKeyResp absent (client_UserID env) = ("", "", "", false)).
    { unfold parseKeyResp. destruct Habsent as [Hm|Hs].
      - now rewrite Hm.
      - rewrite Hs. now destruct (MasterKeys absent !! client_UserID env). }
    rewrite Hp. reflexivity.
Qed.

Lemma failed_probe_is_treated_as_absence_witness :
  cmdCrossSigningGenerate plain (cross_signing_cmd ["generate"]) false empty_session
  = cmdCrossSigningGenerate plain (cross_signing_cmd ["generate"]) true
      (record (EvQueryKeys "@me:example.org" "LAPTOP") empty_session).
Proof.
  exact (proj1 (failed_probe_is_treated_as_absence plain (cross_signing_cmd ["generate"])
    empty_session None (mkError "offline" []) eq_refl)).
Defined.

(** ** Dismissed prompts *)





(** ** Programs that only record calls *)

Lemma records_app l l' w : records (l ++ l') w = records l' (records l w).
Proof. unfold records. apply fold_left_app. Qed.

Lemma records_frame l w :
  log (records l w) = (log w ++ l)%list
  /\ heap (records l w) = heap w
  /\ CrossSigningKeys_cached (records l w) = CrossSigningKeys_cached w
  /\ DefaultSASTimeout (records l w) = DefaultSASTimeout w.
Proof.
  revert w. induction l as [|ev l IH]; intros w; cbn.
  - now rewrite app_nil_r.
  - destruct (IH (record ev w)) as (Hlog & Hheap & Hkeys & Htime).
    change (fold_left (fun w0 ev0 => record ev0 w0) l (record ev w))
      with (records l (record ev w)).
    rewrite Hlog, Hheap, Hkeys, Htime. cbn. now rewrite <- app_assoc.
Qed.

Lemma events_since_records {A} (r : Res A) l w :
  world_of r = records l w -> events_since w r = l.
Proof.
  intros H. apply events_since_app. rewrite H. apply records_frame.
Qed.

Lemma confined_ret P {A} (a : A) : confined P (ret a).
Proof. intros w. exists []. split; reflexivity. Qed.

Lemma confined_panic P {A} : confined P (@panic A).
Proof. intros w. exists []. split; reflexivity. Qed.

Lemma confined_call P {X} ev (answer : list Event -> X) :
  P ev = true -> confined P (call ev answer).
Proof. intros HP w. exists [ev]. split; [reflexivity|]. cbn. now rewrite HP. Qed.

Lemma confined_deref P {A} (p : option A) : confined P (deref p).
Proof. destruct p; [apply confined_ret | apply confined_panic]. Qed.

Lemma confined_load P p : confined P (load p).
Proof.
  intros w. exists []. split; [|reflexivity]. unfold load.
  destruct (heap w !! p); reflexivity.
Qed.

Lemma confined_get_CrossSigningKeys P : confined P get_CrossSigningKeys.
Proof. intros w. exists []. split; reflexivity. Qed.

Lemma confined_bind P {A B} (m : M A) (k : A -> M B) :
  confined P m -> (forall a, confined P (k a)) -> confined P (bind m k).
Proof.
  intros Hm Hk w. unfold bind. destruct (Hm w) as (l & Hl & HPl).
  destruct (m w) as [a w'|w']; cbn in Hl; subst w'.
  - destruct (Hk a (records l w)) as (l' & Hl' & HPl').
    exists (l ++ l')%list. split.
    + rewrite Hl'. symmetry. apply records_app.
    + rewrite forallb_app, HPl, HPl'. reflexivity.
  - exists l. split; [reflexivity | exact HPl].
Qed.

Lemma confined_weaken (P Q : Event -> bool) {A} (m : M A) :
  (forall e, P e = true -> Q e = true) -> confined P m -> confined Q m.
Proof.
  intros HPQ Hm w. destruct (Hm w) as (l & Hl & HPl). exists l. split; [exact Hl|].
  apply forallb_forall. intros e He.
  apply HPQ. revert e He. now apply forallb_forall.
Qed.

Lemma confined_for_range P {A R} (l : list A) (body : A -> M (option R)) :
  (forall x, confined P (body x)) -> confined P (for_range l body).
Proof.
  intros Hbody. induction l as [|x rest IH]; cbn [for_range].
  - apply confined_ret.
  - apply confined_bind; [apply Hbody|]. intros [v|]; [apply confined_ret | exact IH].
Qed.

Lemma confined_run_UIAScript P s cb :
  (forall uia, confined P (cb uia)) -> confined P (run_UIAScript s cb).
Proof.
  intros Hcb. induction s as [err|uia next IH]; cbn [run_UIAScript].
  - apply confined_ret.
  - apply confined_bind; [apply Hcb|]. intros auth. apply IH.
Qed.

(** What confinement gives: the state is untouched and every call made is
    of the allowed kind. *)
Lemma confined_frame P {A} (m : M A) w :
  confined P m ->
  heap (world_of (m w)) = heap w
  /\ CrossSigningKeys_cached (world_of (m w)) = CrossSigningKeys_cached w
  /\ DefaultSASTimeout (world_of (m w)) = DefaultSASTimeout w
  /\ forallb P (events_since w (m w)) = true.
Proof.
  intros Hm. destruct (Hm w) as (l & Hl & HPl).
  rewrite (events_since_records _ _ _ Hl), Hl.
  destruct (records_frame l w) as (_ & Hheap & Hkeys & Htime).
  repeat split; assumption.
Qed.

Ltac confine :=
  repeat match goal with
  | |- confined _ (bind _ _) => apply confined_bind; [| intros ?]
  | |- confined _ (ret _) => apply confined_ret
  | |- confined _ panic => apply confined_panic
  | |- confined _ (deref _) => apply confined_deref
  | |- confined _ (index _ _) => apply confined_deref
  | |- confined _ (load _) => apply confined_load
  | |- confined _ get_CrossSigningKeys => apply confined_get_CrossSigningKeys
  | |- confined _ (Reply _) => apply confined_call; reflexivity
  | |- confined _ (call _ _) => apply confined_call; reflexivity
  | |- confined _ (askPassword _ _ _ _ _) => apply confined_call; reflexivity
  | |- confined _ (queryOwnKeys _) => apply confined_call; reflexivity
  | |- confined _ (if ?b then _ else _) => destruct b
  | |- confined _ (match ?x with _ => _ end) => destruct x
  end.

Lemma confined_getDevice env cmd :
  confined (fun e => is_lookup e || is_reply e) (getDevice env cmd).
Proof. unfold getDevice. confine. Qed.

(** ** Device commands when no device can be had *)

(** X1.  With fewer than two arguments, [device], [verify], [unverify]
    and [blacklist] reply with the usage line that names the command and do
    nothing else; when the lookup of the device fails they reply with the
    failure and do nothing else.  No device is looked at, written or
    announced as changed. *)
Theorem device_commands_without_device env Fingerprint TrustString cmd w :
  (length (cmd_Args cmd) < 2 ->
   let usage :=
     Done tt (records [EvReply ("Usage: /" +:+ cmd_Command cmd
                                +:+ " <user id> <device id> [fingerprint]")] w) in
   cmdDevice env Fingerprint TrustString cmd w = usage
   /\ forall op, run_op env op cmd w = usage)
  /\ (forall u d rest device e,
        cmd_Args cmd = u :: d :: rest ->
        GetOrFetchDevice env (log w) u d = (device, Some e) ->
        let failure :=
          Done tt (records [EvGetOrFetchDevice u d;
                            EvReply ("Failed to get device: " +:+ Error e)] w) in
        cmdDevice env Fingerprint TrustString cmd w = failure
        /\ forall op, run_op env op cmd w = failure).
Proof.
  split.
  - intros Hlen usage.
    assert (Hget : getDevice env cmd w = Done None
              (record (EvReply ("Usage: /" +:+ cmd_Command cmd
                                +:+ " <user id> <device id> [fingerprint]")) w)).
    { unfold getDevice. apply Nat.ltb_lt in Hlen. rewrite Hlen. reflexivity. }
    split.
    + unfold cmdDevice. now rewrite (bind_Done _ _ _ _ _ Hget).
    + intros [| |]; cbn [run_op]; unfold cmdVerify, cmdUnverify, cmdBlacklist;
        now rewrite (bind_Done _ _ _ _ _ Hget).
  - intros u d rest device e Hargs Hlookup failure.
    assert (Hget : getDevice env cmd w = Done None
              (record (EvReply ("Failed to get device: " +:+ Error e))
                 (record (EvGetOrFetchDevice u d) w))).
    { unfold getDevice, index, bind. rewrite Hargs. cbn. rewrite Hlookup. reflexivity. }
    split.
    + unfold cmdDevice. now rewrite (bind_Done _ _ _ _ _ Hget).
    + intros [| |]; cbn [run_op]; unfold cmdVerify, cmdUnverify, cmdBlacklist;
        now rewrite (bind_Done _ _ _ _ _ Hget).
Qed.

Lemma device_commands_without_device_witness :
  cmdBlacklist plain (mkCommand "blacklist" "blacklist" ["@alice:example.org"] "" "!r:example.org")
               (session_with (alice_phone TrustStateUnset))
  = Done tt (records [EvReply "Usage: /blacklist <user id> <device id> [fingerprint]"]
                     (session_with (alice_phone TrustStateUnset)))
  /\ cmdVerify (with_GetOrFetchDevice (fun _ _ _ => (None, Some (mkError "no such device" [])))
                  plain)
               (device_cmd "verify" ["ed25519-of-phone"])
               (session_with (alice_phone TrustStateUnset))
  = Done tt (records [EvGetOrFetchDevice "@alice:example.org" "PHONE";
                      EvReply "Failed to get device: no such device"]
                     (session_with (alice_phone TrustStateUnset))).
Proof.
  split.
  - exact (proj2 (proj1 (device_commands_without_device plain (fun _ => "") (fun _ => "")
      (mkCommand "blacklist" "blacklist" ["@alice:example.org"] "" "!r:example.org")
      (session_with (alice_phone TrustStateUnset))) ltac:(cbn; lia)) OpBlacklist).
  - exact (proj2 (proj2 (device_commands_without_device
      (with_GetOrFetchDevice (fun _ _ _ => (None, Some (mkError "no such device" []))) plain)
      (fun _ => "") (fun _ => "")
      (device_cmd "verify" ["ed25519-of-phone"]) (session_with (alice_phone TrustStateUnset)))
      "@alice:example.org" "PHONE" ["ed25519-of-phone"] None (mkError "no such device" [])
      eq_refl eq_refl) OpVerify).
Defined.

(** ** Commands that only look *)

Lemma confined_cmdDevice env Fingerprint TrustString cmd :
  confined is_read_only (cmdDevice env Fingerprint TrustString cmd).
Proof.
  unfold cmdDevice. apply confined_bind.
  - apply (confined_weaken (fun e => is_lookup e || is_reply e)); [|apply confined_getDevice].
    intros [] H; try discriminate H; reflexivity.
  - intros device. confine.
Qed.

Lemma confined_cmdS4Status env cmd keyID : confined is_read_only (cmdS4Status env cmd keyID).
Proof. unfold cmdS4Status. cbv zeta. confine. Qed.

Lemma confined_cmdCrossSigningStatus env cmd :
  confined is_read_only (cmdCrossSigningStatus env cmd).
Proof. unfold cmdCrossSigningStatus, queryOwnKeys. confine. Qed.

(** X2.  [device] (show), [ssss status] and [cross-signing status] only
    look: whatever the collaborators answer, and also when the run panics,
    the device records and the cached cross-signing keys are what they were,
    and every call made is a reply, a device lookup, a key-metadata lookup
    or a directory query. *)
Theorem status_commands_only_look env Fingerprint TrustString cmd keyID w :
  (heap (world_of (cmdDevice env Fingerprint TrustString cmd w)) = heap w
   /\ CrossSigningKeys_cached (world_of (cmdDevice env Fingerprint TrustString cmd w))
      = CrossSigningKeys_cached w
   /\ forallb is_read_only (events_since w (cmdDevice env Fingerprint TrustString cmd w)) = true)
  /\ (heap (world_of (cmdS4Status env cmd keyID w)) = heap w
   /\ CrossSigningKeys_cached (world_of (cmdS4Status env cmd keyID w))
      = CrossSigningKeys_cached w
   /\ forallb is_read_only (events_since w (cmdS4Status env cmd keyID w)) = true)
  /\ (heap (world_of (cmdCrossSigningStatus env cmd w)) = heap w
   /\ CrossSigningKeys_cached (world_of (cmdCrossSigningStatus env cmd w))
      = CrossSigningKeys_cached w
   /\ forallb is_read_only (events_since w (cmdCrossSigningStatus env cmd w)) = true).
Proof.
  pose proof (confined_frame _ _ w (confined_cmdDevice env Fingerprint TrustString cmd))
    as (? & ? & _ & ?).
  pose proof (confined_frame _ _ w (confined_cmdS4Status env cmd keyID)) as (? & ? & _ & ?).
  pose proof (confined_frame _ _ w (confined_cmdCrossSigningStatus env cmd)) as (? & ? & _ & ?).
  repeat split; assumption.
Qed.

(** ** The unlock protocol *)

Lemma confined_getSSSS env cmd : confined is_unlock_call (getSSSS env cmd).
Proof. unfold getSSSS. cbv zeta. confine. Qed.

(** X3.  The unlock protocol hands out a key only when the verification of
    the entered passphrase or recovery key came back with that key and no
    error, and then it has said nothing.  Whatever happens, it leaves the
    device records and the cached cross-signing keys alone. *)
Theorem getSSSS_is_sound env cmd w key w' :
  getSSSS env cmd w = Done (Some key) w' ->
  (exists keyID kd,
     GetDefaultKeyData env (log w) = (keyID, Some kd, None)
     /\ w' = records [EvGetDefaultKeyData; unlock_prompt kd;
                      if uses_passphrase kd
                      then EvVerifyPassphrase
                             (fst (answer_to env (log (records [EvGetDefaultKeyData] w))
                                             (unlock_prompt kd)))
                      else EvVerifyRecoveryKey
                             (fst (answer_to env (log (records [EvGetDefaultKeyData] w))
                                             (unlock_prompt kd)))] w
     /\ snd (answer_to env (log (records [EvGetDefaultKeyData] w)) (unlock_prompt kd)) = true
     /\ (if uses_passphrase kd
         then VerifyPassphrase env (log (records [EvGetDefaultKeyData; unlock_prompt kd] w)) kd
                (fst (answer_to env (log (records [EvGetDefaultKeyData] w)) (unlock_prompt kd)))
         else VerifyRecoveryKey env (log (records [EvGetDefaultKeyData; unlock_prompt kd] w)) kd
                (fst (answer_to env (log (records [EvGetDefaultKeyData] w)) (unlock_prompt kd))))
        = (Some key, None))
  /\ existsb is_reply (events_since w (getSSSS env cmd w)) = false
  /\ heap w' = heap w
  /\ CrossSigningKeys_cached w' = CrossSigningKeys_cached w.
Proof.
  intros Hrun.
  assert (Hmain : exists keyID kd,
     GetDefaultKeyData env (log w) = (keyID, Some kd, None)
     /\ w' = records [EvGetDefaultKeyData; unlock_prompt kd;
                      if uses_passphrase kd
                      then EvVerifyPassphrase
                             (fst (answer_to env (log (records [EvGetDefaultKeyData] w))
                                             (unlock_prompt kd)))
                      else EvVerifyRecoveryKey
                             (fst (answer_to env (log (records [EvGetDefaultKeyData] w))
                                             (unlock_prompt kd)))] w
     /\ snd (answer_to env (log (records [EvGetDefaultKeyData] w)) (unlock_prompt kd)) = true
     /\ (if uses_passphrase kd
         then VerifyPassphrase env (log (records [EvGetDefaultKeyData; unlock_prompt kd] w)) kd
                (fst (answer_to env (log (records [EvGetDefaultKeyData] w)) (unlock_prompt kd)))
         else VerifyRecoveryKey env (log (records [EvGetDefaultKeyData; unlock_prompt kd] w)) kd
                (fst (answer_to env (log (records [EvGetDefaultKeyData] w)) (unlock_prompt kd))))
        = (Some key, None)).
  { revert Hrun. unfold getSSSS.
    rewrite (bind_Done _ _ _ _ _ (call_run _ _ _)).
    destruct (GetDefaultKeyData env (log w)) as [[keyID keyData] [e|]].
    { destruct (errors_Is (Some e) MNotFound); rewrite bind_Reply; discriminate. }
    destruct keyData as [kd|]; [|discriminate].
    rewrite bind_deref_Some. intros Hrun. exists keyID, kd. split; [reflexivity|].
    revert Hrun. unfold unlock_prompt, uses_passphrase, askPassword.
    destruct (match km_Passphrase kd with
              | Some p => String.eqb (pass_Algorithm p) PassphraseAlgorithmPBKDF2
              | None => false
              end); cbn [answer_to records fold_left];
      rewrite (bind_Done _ _ _ _ _ (call_run _ _ _));
      match goal with
      | |- context [AskPassword env ?h ?t ?th ?ph ?c] =>
          destruct (AskPassword env h t th ph c) as [secret ok]
      end;
      (destruct ok; cbn [negb fst snd]; [|discriminate]);
      rewrite (bind_Done _ _ _ _ _ (call_run _ _ _)).
    - destruct (VerifyPassphrase env _ kd secret) as [k [e|]].
      + destruct (errors_Is (Some e) ErrIncorrectSSSSKey);
          rewrite bind_Reply; discriminate.
      + cbn [errors_Is]. intros Hrun. inversion Hrun. repeat split; reflexivity.
    - destruct (VerifyRecoveryKey env _ kd secret) as [k [e|]].
      + destruct (errors_Is (Some e) ErrInvalidRecoveryKey);
          [rewrite bind_Reply; discriminate|].
        destruct (errors_Is (Some e) ErrIncorrectSSSSKey);
          rewrite bind_Reply; discriminate.
      + cbn [errors_Is]. intros Hrun. inversion Hrun. repeat split; reflexivity. }
  split; [exact Hmain|].
  destruct Hmain as (keyID & kd & _ & Hw' & _).
  assert (Hworld : world_of (getSSSS env cmd w) = w') by now rewrite Hrun.
  rewrite Hw' in Hworld.
  rewrite (events_since_records _ _ _ Hworld).
  rewrite Hw'. split; [|split].
  - unfold unlock_prompt. destruct (uses_passphrase kd); reflexivity.
  - apply records_frame.
  - apply records_frame.
Qed.

Lemma getSSSS_is_sound_witness :
  VerifyPassphrase unlocking
    (log (records [EvGetDefaultKeyData;
                   EvAskPassword "Passphrase" "" "correct horse battery staple" false]
                  empty_session))
    pbkdf2_key "hunter2" = (Some key1, None)
  /\ existsb is_reply (events_since empty_session
       (getSSSS unlocking (cross_signing_cmd ["fetch"]) empty_session)) = false.
Proof.
  destruct (getSSSS_is_sound unlocking (cross_signing_cmd ["fetch"]) empty_session key1
              (records [EvGetDefaultKeyData;
                        EvAskPassword "Passphrase" "" "correct horse battery staple" false;
                        EvVerifyPassphrase "hunter2"] empty_session) eq_refl)
    as (_ & Hquiet & _).
  split; [reflexivity | exact Hquiet].
Defined.

(** ** Interactive verification *)

Lemma bind_set_DefaultSASTimeout {B} t (k : unit -> M B) w :
  bind (set_DefaultSASTimeout t) k w =
  k tt (mkWorld (log w) (heap w) (CrossSigningKeys_cached w) t).
Proof. reflexivity. Qed.

(** X4.  [verify] with exactly the user id and the device id, on a device
    that is not Verified, starts an interactive verification: the SAS
    timeout is set to 120 seconds, the modal is shown for that device with
    that timeout, and the SAS exchange is started; a failure to start it is
    reported.  The handler itself neither changes the trust state nor
    writes to the store. *)
Theorem interactive_verify_leaves_trust env cmd w u d p dev :
  cmd_Args cmd = [u; d] ->
  GetOrFetchDevice env (log w) u d = (Some p, None) ->
  heap w !! p = Some dev ->
  dev_Trust dev <> TrustStateVerified ->
  let r := cmdVerify env cmd w in
  events_since w r =
    ([EvGetOrFetchDevice u d; EvShowModal p 120; EvNewSimpleSASVerificationWith p] ++
     match NewSimpleSASVerificationWith env
             (log w ++ [EvGetOrFetchDevice u d; EvShowModal p 120]) p with
     | Some e => [EvReply ("Failed to start interactive verification: " +:+ Error e)]
     | None => []
     end)%list
  /\ heap (world_of r) = heap w
  /\ DefaultSASTimeout (world_of r) = 120
  /\ panicked r = false.
Proof.
  intros Hargs Hget Hheap Hne r.
  assert (Hheap1 : heap (record (EvGetOrFetchDevice u d) w) !! p = Some dev) by exact Hheap.
  apply TrustState_eqb_neq in Hne.
  subst r. unfold cmdVerify.
  rewrite (bind_Done _ _ _ _ _ (getDevice_found _ _ _ _ _ _ _ Hargs Hget)).
  rewrite (bind_Done _ _ _ _ _ (load_run _ _ _ Hheap1)).
  rewrite Hne, Hargs. cbn [length Nat.eqb].
  rewrite bind_set_DefaultSASTimeout.
  rewrite (bind_Done _ _ _ _ _ (call_run _ _ _)).
  rewrite (bind_Done _ _ _ _ _ (call_run _ _ _)).
  cbn [log record set_DefaultSASTimeout].
  rewrite <- app_assoc. cbn [app].
  destruct (NewSimpleSASVerificationWith env _ p) as [e|].
  - repeat split; try reflexivity.
    apply events_since_app. cbn. now rewrite <- !app_assoc.
  - repeat split; try reflexivity.
    apply events_since_app. cbn. now rewrite <- !app_assoc.
Qed.

Lemma interactive_verify_leaves_trust_witness :
  events_since (session_with (alice_phone TrustStateBlacklisted))
    (cmdVerify plain (device_cmd "verify" []) (session_with (alice_phone TrustStateBlacklisted)))
  = [EvGetOrFetchDevice "@alice:example.org" "PHONE"; EvShowModal 1 120;
     EvNewSimpleSASVerificationWith 1]
  /\ heap (world_of (cmdVerify plain (device_cmd "verify" [])
                               (session_with (alice_phone TrustStateBlacklisted))))
     = heap (session_with (alice_phone TrustStateBlacklisted)).
Proof.
  destruct (interactive_verify_leaves_trust plain (device_cmd "verify" [])
              (session_with (alice_phone TrustStateBlacklisted))
              "@alice:example.org" "PHONE" 1 (alice_phone TrustStateBlacklisted)
              eq_refl eq_refl eq_refl ltac:(discriminate)) as (Hev & Hheap & _).
  split; [exact Hev | exact Hheap].
Defined.

(** ** Trust operations, one after the other *)




Lemma set_Trust_back t dev : set_Trust (dev_Trust dev) (set_Trust t dev) = dev.
Proof. destruct dev; reflexivity. Qed.



(** ** Key export and import, end to end *)

(** X7.  [export-keys] and [export-room-keys] stop at a failed session
    listing: the failure is the only reply, no passphrase is asked for and
    no file is written.  When everything succeeds, [export-room-keys] lists
    the sessions of the command's room, asks for the passphrase in
    confirmed-entry mode, encrypts exactly the listed sessions with it,
    writes the result once with mode 0400 to the resolved path and reports
    the number of sessions and that path. *)
Theorem export_commands_end_to_end env cmd w :
  (forall sessions e,
     GetAllGroupSessions env (log w) = (sessions, Some e) ->
     cmdExportKeys env cmd w =
     Done tt (records [EvGetAllGroupSessions;
                       EvReply ("Failed to get sessions to export: " +:+ Error e)] w))
  /\ (forall sessions e,
     GetGroupSessionsForRoom env (log w) (cmd_RoomID cmd) = (sessions, Some e) ->
     cmdExportRoomKeys env cmd w =
     Done tt (records [EvGetGroupSessionsForRoom (cmd_RoomID cmd);
                       EvReply ("Failed to get sessions to export: " +:+ Error e)] w))
  /\ (forall sessions path passphrase export,
     GetGroupSessionsForRoom env (log w) (cmd_RoomID cmd) = (sessions, None) ->
     filepath_Abs env (log (records [EvGetGroupSessionsForRoom (cmd_RoomID cmd)] w))
                  (cmd_RawArgs cmd) = (path, None) ->
     AskPassword env (log (records [EvGetGroupSessionsForRoom (cmd_RoomID cmd);
                                    EvAbs (cmd_RawArgs cmd)] w))
                 "Key export" "passphrase" "" true = (passphrase, true) ->
     ExportKeys env (log (records [EvGetGroupSessionsForRoom (cmd_RoomID cmd);
                                   EvAbs (cmd_RawArgs cmd);
                                   EvAskPassword "Key export" "passphrase" "" true] w))
                passphrase sessions = (export, None) ->
     WriteFile env (log (records [EvGetGroupSessionsForRoom (cmd_RoomID cmd);
                                  EvAbs (cmd_RawArgs cmd);
                                  EvAskPassword "Key export" "passphrase" "" true;
                                  EvExportKeys passphrase sessions] w))
               path export perm_0400 = None ->
     cmdExportRoomKeys env cmd w =
     Done tt (records [EvGetGroupSessionsForRoom (cmd_RoomID cmd);
                       EvAbs (cmd_RawArgs cmd);
                       EvAskPassword "Key export" "passphrase" "" true;
                       EvExportKeys passphrase sessions;
                       EvWriteFile path export perm_0400;
                       EvReply ("Successfully exported " +:+ itoa (length sessions)
                                +:+ " sessions to " +:+ path)] w)).
Proof.
  split; [|split].
  - intros sessions e Hlist. unfold cmdExportKeys.
    rewrite (bind_Done _ _ _ _ _ (call_run _ _ _)), Hlist. reflexivity.
  - intros sessions e Hlist. unfold cmdExportRoomKeys.
    rewrite (bind_Done _ _ _ _ _ (call_run _ _ _)), Hlist. reflexivity.
  - intros sessions path passphrase export Hlist Habs Hask Hexp Hwrite.
    unfold cmdExportRoomKeys.
    rewrite (bind_Done _ _ _ _ _ (call_run _ _ _)), Hlist.
    cbn [records fold_left] in Habs, Hask, Hexp, Hwrite.
    rewrite (exportKeys_run env cmd sessions _ path passphrase export None Habs Hask Hexp).
    cbn [records fold_left]. rewrite Hwrite. reflexivity.
Qed.

Lemma export_commands_end_to_end_witness :
  cmdExportRoomKeys
    (with_GetGroupSessionsForRoom (fun _ _ => (["session-1"; "session-2"], None)) plain)
    export_cmd empty_session
  = Done tt (records [EvGetGroupSessionsForRoom "!room:example.org";
                      EvAbs "keys.txt";
                      EvAskPassword "Key export" "passphrase" "" true;
                      EvExportKeys "hunter2" ["session-1"; "session-2"];
                      EvWriteFile "/home/me/keys.txt" "" perm_0400;
                      EvReply "Successfully exported 2 sessions to /home/me/keys.txt"]
               empty_session)
  /\ cmdExportRoomKeys
       (with_GetGroupSessionsForRoom (fun _ _ => ([], Some (mkError "store closed" []))) plain)
       export_cmd empty_session
     = Done tt (records [EvGetGroupSessionsForRoom "!room:example.org";
                         EvReply "Failed to get sessions to export: store closed"]
                  empty_session).
Proof.
  split.
  - exact (proj2 (proj2 (export_commands_end_to_end
      (with_GetGroupSessionsForRoom (fun _ _ => (["session-1"; "session-2"], None)) plain)
      export_cmd empty_session))
      ["session-1"; "session-2"] "/home/me/keys.txt" "hunter2" ""
      eq_refl eq_refl eq_refl eq_refl eq_refl).
  - exact (proj1 (proj2 (export_commands_end_to_end
      (with_GetGroupSessionsForRoom (fun _ _ => ([], Some (mkError "store closed" []))) plain)
      export_cmd empty_session))
      [] (mkError "store closed" []) eq_refl).
Defined.

(** X8.  [import-keys] asks for the passphrase only once the file has
    been read: a path that cannot be resolved or a file that cannot be read
    ends the command with that failure alone.  With the passphrase entered,
    the decryption gets exactly the bytes read and the passphrase typed, and
    an import that took only some of the sessions is still reported as a
    success, as the ratio imported/total. *)
Theorem import_keys_end_to_end env cmd w :
  (forall path e,
     filepath_Abs env (log w) (cmd_RawArgs cmd) = (path, Some e) ->
     cmdImportKeys env cmd w =
     Done tt (records [EvAbs (cmd_RawArgs cmd);
                       EvReply ("Failed to get absolute path: " +:+ Error e)] w))
  /\ (forall path data e,
     filepath_Abs env (log w) (cmd_RawArgs cmd) = (path, None) ->
     ReadFile env (log (records [EvAbs (cmd_RawArgs cmd)] w)) path = (data, Some e) ->
     cmdImportKeys env cmd w =
     Done tt (records [EvAbs (cmd_RawArgs cmd); EvReadFile path;
                       EvReply ("Failed to read " +:+ path +:+ ": " +:+ Error e)] w))
  /\ (forall path data passphrase imported total,
     filepath_Abs env (log w) (cmd_RawArgs cmd) = (path, None) ->
     ReadFile env (log (records [EvAbs (cmd_RawArgs cmd)] w)) path = (data, None) ->
     AskPassword env (log (records [EvAbs (cmd_RawArgs cmd); EvReadFile path] w))
                 "Key import" "passphrase" "" false = (passphrase, true) ->
     ImportKeys env (log (records [EvAbs (cmd_RawArgs cmd); EvReadFile path;
                                   EvAskPassword "Key import" "passphrase" "" false] w))
                passphrase data = (imported, total, None) ->
     cmdImportKeys env cmd w =
     Done tt (records [EvAbs (cmd_RawArgs cmd); EvReadFile path;
                       EvAskPassword "Key import" "passphrase" "" false;
                       EvImportKeys passphrase data;
                       EvReply ("Successfully imported " +:+ itoa imported +:+ "/"
                                +:+ itoa total +:+ " sessions")] w)).
Proof.
  split; [|split].
  - intros path e Habs. unfold cmdImportKeys.
    rewrite (bind_Done _ _ _ _ _ (call_run _ _ _)), Habs. reflexivity.
  - intros path data e Habs Hread. unfold cmdImportKeys.
    rewrite (bind_Done _ _ _ _ _ (call_run _ _ _)), Habs.
    cbn [records fold_left] in Hread.
    rewrite (bind_Done _ _ _ _ _ (call_run _ _ _)), Hread. reflexivity.
  - intros path data passphrase imported total Habs Hread Hask Himp.
    unfold cmdImportKeys, askPassword.
    cbn [records fold_left] in Hread, Hask, Himp.
    rewrite (bind_Done _ _ _ _ _ (call_run _ _ _)), Habs.
    rewrite (bind_Done _ _ _ _ _ (call_run _ _ _)), Hread.
    rewrite (bind_Done _ _ _ _ _ (call_run _ _ _)), Hask. cbn [negb].
    rewrite (bind_Done _ _ _ _ _ (call_run _ _ _)), Himp. reflexivity.
Qed.

Lemma import_keys_end_to_end_witness :
  cmdImportKeys (with_filepath_Abs (fun _ _ => ("", Some (mkError "no working directory" [])))
                   plain) export_cmd empty_session
  = Done tt (records [EvAbs "keys.txt";
                      EvReply "Failed to get absolute path: no working directory"]
               empty_session)
  /\ cmdImportKeys (with_ReadFile (fun _ _ => ("", Some (mkError "permission denied" [])))
                      plain) export_cmd empty_session
  = Done tt (records [EvAbs "keys.txt"; EvReadFile "/home/me/keys.txt";
                      EvReply "Failed to read /home/me/keys.txt: permission denied"]
               empty_session)
  /\ cmdImportKeys (with_ImportKeys (fun _ _ _ => (3, 5, None)) plain) export_cmd empty_session
  = Done tt (records [EvAbs "keys.txt"; EvReadFile "/home/me/keys.txt";
                      EvAskPassword "Key import" "passphrase" "" false;
                      EvImportKeys "hunter2" "file contents";
                      EvReply "Successfully imported 3/5 sessions"] empty_session).
Proof.
  split; [|split].
  - exact (proj1 (import_keys_end_to_end
      (with_filepath_Abs (fun _ _ => ("", Some (mkError "no working directory" []))) plain)
      export_cmd empty_session) "" (mkError "no working directory" []) eq_refl).
  - exact (proj1 (proj2 (import_keys_end_to_end
      (with_ReadFile (fun _ _ => ("", Some (mkError "permission denied" []))) plain)
      export_cmd empty_session)) "/home/me/keys.txt" "" (mkError "permission denied" [])
      eq_refl eq_refl).
  - exact (proj2 (proj2 (import_keys_end_to_end
      (with_ImportKeys (fun _ _ _ => (3, 5, None)) plain) export_cmd empty_session))
      "/home/me/keys.txt" "file contents" "hunter2" 3 5 eq_refl eq_refl eq_refl eq_refl).
Defined.

(** ** Secret storage: the dispatcher, set-default and generate *)

Lemma index_0 a l : index (a :: l) 0 = ret a.
Proof. reflexivity. Qed.

Lemma index_1 a b l : index (a :: b :: l) 1 = ret b.
Proof. reflexivity. Qed.

(** X9.  [ssss set-default KEY] first looks the key's metadata up.  When
    the lookup fails the default key is not set: the reply is "Couldn't find
    key data on server" when the error is a not-found error and the fetch
    failure otherwise.  Only when the metadata was found is that key id,
    and no other, made the default, and the outcome of that is reported. *)
Theorem ssss_set_default_checks_first env ToLower cmd w a0 keyID rest :
  cmd_Args cmd = a0 :: keyID :: rest ->
  ToLower a0 = "set-default" ->
  (forall kd e,
     GetKeyData env (log w) keyID = (kd, Some e) ->
     cmdSSSS env ToLower cmd w =
     Done tt (records [EvGetKeyData keyID;
                       EvReply (if errors_Is (Some e) MNotFound
                                then "Couldn't find key data on server"
                                else "Failed to fetch key data: " +:+ Error e)] w))
  /\ (forall kd,
     GetKeyData env (log w) keyID = (kd, None) ->
     cmdSSSS env ToLower cmd w =
     Done tt (records [EvGetKeyData keyID;
                       EvSetDefaultKeyID keyID;
                       EvReply match SetDefaultKeyID env (log (records [EvGetKeyData keyID] w))
                                       keyID with
                               | Some e => "Failed to set key as default: " +:+ Error e
                               | None => "Successfully set key " +:+ keyID +:+ " as default"
                               end] w)).
Proof.
  intros Hargs Hsub.
  assert (Hdispatch : cmdSSSS env ToLower cmd w = cmdS4SetDefault env cmd keyID w).
  { unfold cmdSSSS. rewrite Hargs. cbn [length Nat.eqb Nat.ltb Nat.leb].
    rewrite index_0, bind_ret, Hsub.
    destruct (String.eqb_spec "set-default" "status") as [E|_]; [discriminate E|].
    destruct (String.eqb_spec "set-default" "generate") as [E|_]; [discriminate E|].
    rewrite String.eqb_refl, index_1, bind_ret. reflexivity. }
  rewrite Hdispatch. split.
  - intros kd e Hget. unfold cmdS4SetDefault.
    rewrite (bind_Done _ _ _ _ _ (call_run _ _ _)), Hget.
    destruct (errors_Is (Some e) MNotFound); reflexivity.
  - intros kd Hget. unfold cmdS4SetDefault.
    rewrite (bind_Done _ _ _ _ _ (call_run _ _ _)), Hget.
    rewrite (bind_Done _ _ _ _ _ (call_run _ _ _)). cbn [records fold_left].
    destruct (SetDefaultKeyID env _ keyID); reflexivity.
Qed.

Lemma ssss_set_default_checks_first_witness :
  cmdSSSS plain ascii_lower (ssss_cmd ["Set-Default"; "key9"]) empty_session
  = Done tt (records [EvGetKeyData "key9"; EvReply "Couldn't find key data on server"]
               empty_session)
  /\ cmdSSSS (with_GetKeyData (fun _ _ => (Some pbkdf2_key, None)) plain) ascii_lower
             (ssss_cmd ["set-default"; "key1"]) empty_session
  = Done tt (records [EvGetKeyData "key1"; EvSetDefaultKeyID "key1";
                      EvReply "Successfully set key key1 as default"] empty_session).
Proof.
  split.
  - exact (proj1 (ssss_set_default_checks_first plain ascii_lower
      (ssss_cmd ["Set-Default"; "key9"]) empty_session "Set-Default" "key9" []
      eq_refl eq_refl) None (mkError "M_NOT_FOUND" [MNotFound]) eq_refl).
  - exact (proj2 (ssss_set_default_checks_first
      (with_GetKeyData (fun _ _ => (Some pbkdf2_key, None)) plain) ascii_lower
      (ssss_cmd ["set-default"; "key1"]) empty_session "set-default" "key1" []
      eq_refl eq_refl) (Some pbkdf2_key) eq_refl).
Defined.

(** X10.  [ssss generate], once the passphrase is entered: when the key
    cannot be derived, or its metadata cannot be uploaded, the failure is
    the only reply; the recovery key is not shown and no default is set.
    When the upload succeeded the key id and the recovery key are shown in
    one reply, and then either the key is made the default ([--set-default])
    or the user is told the command that does it, never both. *)
Theorem ssss_generate_shows_key_after_upload env cmd setDefault w passphrase :
  AskPassword env (log w) "Passphrase" "" "" false = (passphrase, true) ->
  let prompt := EvAskPassword "Passphrase" "" "" false in
  (forall key e,
     NewKey env (log (records [prompt] w)) passphrase = (key, Some e) ->
     cmdS4Generate env cmd setDefault w =
     Done tt (records [prompt; EvNewKey passphrase;
                       EvReply ("Failed to generate new key: " +:+ Error e)] w))
  /\ (forall k e,
     NewKey env (log (records [prompt] w)) passphrase = (Some k, None) ->
     SetKeyData env (log (records [prompt; EvNewKey passphrase] w)) (key_ID k) (key_Metadata k)
       = Some e ->
     cmdS4Generate env cmd setDefault w =
     Done tt (records [prompt; EvNewKey passphrase;
                       EvSetKeyData (key_ID k) (key_Metadata k);
                       EvReply ("Failed to upload key metadata: " +:+ Error e)] w))
  /\ (forall k,
     NewKey env (log (records [prompt] w)) passphrase = (Some k, None) ->
     SetKeyData env (log (records [prompt; EvNewKey passphrase] w)) (key_ID k) (key_Metadata k)
       = None ->
     let shown :=
       [prompt; EvNewKey passphrase; EvSetKeyData (key_ID k) (key_Metadata k);
        EvReply ("Successfully generated key " +:+ key_ID k +:+ nl
                 +:+ "Recovery key: " +:+ key_RecoveryKey k)] in
     cmdS4Generate env cmd setDefault w =
     Done tt (records
       (shown ++
        if setDefault then
          EvSetDefaultKeyID (key_ID k) ::
          match SetDefaultKeyID env (log (records shown w)) (key_ID k) with
          | Some e => [EvReply ("Failed to set key as default: " +:+ Error e)]
          | None => []
          end
        else
          [EvReply ("You can use `/" +:+ cmd_OrigCommand cmd +:+ " set-default "
                    +:+ key_ID k +:+ "` to set it as the default")]) w)).
Proof.
  intros Hask prompt. subst prompt. split; [|split].
  - intros key e Hnew. unfold cmdS4Generate, askPassword.
    rewrite (bind_Done _ _ _ _ _ (call_run _ _ _)), Hask. cbn [negb].
    cbn [records fold_left] in Hnew.
    rewrite (bind_Done _ _ _ _ _ (call_run _ _ _)), Hnew. reflexivity.
  - intros k e Hnew Hset. unfold cmdS4Generate, askPassword.
    rewrite (bind_Done _ _ _ _ _ (call_run _ _ _)), Hask. cbn [negb].
    cbn [records fold_left] in Hnew, Hset.
    rewrite (bind_Done _ _ _ _ _ (call_run _ _ _)), Hnew.
    rewrite bind_deref_Some.
    rewrite (bind_Done _ _ _ _ _ (call_run _ _ _)), Hset. reflexivity.
  - intros k Hnew Hset shown. unfold cmdS4Generate, askPassword.
    rewrite (bind_Done _ _ _ _ _ (call_run _ _ _)), Hask. cbn [negb].
    cbn [records fold_left] in Hnew, Hset.
    rewrite (bind_Done _ _ _ _ _ (call_run _ _ _)), Hnew.
    rewrite bind_deref_Some.
    rewrite (bind_Done _ _ _ _ _ (call_run _ _ _)), Hset.
    rewrite bind_Reply. subst shown.
    destruct setDefault.
    + rewrite (bind_Done _ _ _ _ _ (call_run _ _ _)). cbn [records fold_left app].
      destruct (SetDefaultKeyID env _ (key_ID k)); reflexivity.
    + reflexivity.
Qed.

Lemma ssss_generate_shows_key_after_upload_witness :
  cmdS4Generate (with_SetKeyData (fun _ _ _ => Some (mkError "offline" [])) plain)
                (ssss_cmd ["generate"]) true empty_session
  = Done tt (records [EvAskPassword "Passphrase" "" "" false; EvNewKey "hunter2";
                      EvSetKeyData "key1" None;
                      EvReply "Failed to upload key metadata: offline"] empty_session)
  /\ events_since empty_session
       (cmdS4Generate plain (ssss_cmd ["generate"]) true empty_session)
     = [EvAskPassword "Passphrase" "" "" false; EvNewKey "hunter2"; EvSetKeyData "key1" None;
        EvReply ("Successfully generated key key1" +:+ nl +:+ "Recovery key: EsT1 2345");
        EvSetDefaultKeyID "key1"].
Proof.
  split.
  - exact (proj1 (proj2 (ssss_generate_shows_key_after_upload
      (with_SetKeyData (fun _ _ _ => Some (mkError "offline" [])) plain)
      (ssss_cmd ["generate"]) true empty_session "hunter2" eq_refl))
      (mkKey "key1" None "EsT1 2345") (mkError "offline" []) eq_refl eq_refl).
  - apply events_since_records.
    rewrite (proj2 (proj2 (ssss_generate_shows_key_after_upload plain
      (ssss_cmd ["generate"]) true empty_session "hunter2" eq_refl))
      (mkKey "key1" None "EsT1 2345") eq_refl eq_refl).
    reflexivity.
Defined.

(** X11.  Both dispatchers answer an empty argument list and a first
    argument that, lower-cased, is none of their subcommands with their
    usage banner and nothing else; [ssss set-default] without a key id
    answers with its usage line and looks nothing up. *)
Theorem dispatchers_print_usage env ToLower cmd w :
  (cmd_Args cmd = [] ->
   cmdSSSS env ToLower cmd w = Done tt (records [EvReply (ssssHelp (cmd_OrigCommand cmd))] w)
   /\ cmdCrossSigning env ToLower cmd w
      = Done tt (records [EvReply (crossSigningHelp (cmd_OrigCommand cmd))] w))
  /\ (forall a0 rest,
      cmd_Args cmd = a0 :: rest ->
      ~ In (ToLower a0) ["status"; "generate"; "set-default"] ->
      cmdSSSS env ToLower cmd w = Done tt (records [EvReply (ssssHelp (cmd_OrigCommand cmd))] w))
  /\ (forall a0 rest,
      cmd_Args cmd = a0 :: rest ->
      ~ In (ToLower a0) ["status"; "generate"; "fetch"; "upload"] ->
      cmdCrossSigning env ToLower cmd w
      = Done tt (records [EvReply (crossSigningHelp (cmd_OrigCommand cmd))] w))
  /\ (forall a0,
      cmd_Args cmd = [a0] ->
      ToLower a0 = "set-default" ->
      cmdSSSS env ToLower cmd w
      = Done tt (records [EvReply ("Usage: /" +:+ cmd_OrigCommand cmd
                                   +:+ " set-default <key ID>")] w)).
Proof.
  split; [|split; [|split]].
  - intros Hargs. unfold cmdSSSS, cmdCrossSigning. rewrite Hargs. split; reflexivity.
  - intros a0 rest Hargs Hnot. unfold cmdSSSS. rewrite Hargs.
    cbn [length Nat.eqb]. rewrite index_0, bind_ret.
    destruct (String.eqb_spec (ToLower a0) "status") as [E|_];
      [exfalso; apply Hnot; rewrite E; cbn; tauto|].
    destruct (String.eqb_spec (ToLower a0) "generate") as [E|_];
      [exfalso; apply Hnot; rewrite E; cbn; tauto|].
    destruct (String.eqb_spec (ToLower a0) "set-default") as [E|_];
      [exfalso; apply Hnot; rewrite E; cbn; tauto|].
    reflexivity.
  - intros a0 rest Hargs Hnot. unfold cmdCrossSigning. rewrite Hargs.
    cbn [length Nat.eqb]. rewrite index_0, bind_ret.
    destruct (String.eqb_spec (ToLower a0) "status") as [E|_];
      [exfalso; apply Hnot; rewrite E; cbn; tauto|].
    destruct (String.eqb_spec (ToLower a0) "generate") as [E|_];
      [exfalso; apply Hnot; rewrite E; cbn; tauto|].
    destruct (String.eqb_spec (ToLower a0) "fetch") as [E|_];
      [exfalso; apply Hnot; rewrite E; cbn; tauto|].
    destruct (String.eqb_spec (ToLower a0) "upload") as [E|_];
      [exfalso; apply Hnot; rewrite E; cbn; tauto|].
    reflexivity.
  - intros a0 Hargs Hsub. unfold cmdSSSS. rewrite Hargs.
    cbn [length Nat.eqb]. rewrite index_0, bind_ret, Hsub.
    destruct (String.eqb_spec "set-default" "status") as [E|_]; [discriminate E|].
    destruct (String.eqb_spec "set-default" "generate") as [E|_]; [discriminate E|].
    rewrite String.eqb_refl. reflexivity.
Qed.

Lemma dispatchers_print_usage_witness :
  cmdSSSS plain ascii_lower (ssss_cmd []) empty_session
  = Done tt (records [EvReply (ssssHelp "ssss")] empty_session)
  /\ cmdCrossSigning plain ascii_lower (cross_signing_cmd ["Reset"]) empty_session
  = Done tt (records [EvReply (crossSigningHelp "cross-signing")] empty_session)
  /\ cmdSSSS plain ascii_lower (ssss_cmd ["SET-DEFAULT"]) empty_session
  = Done tt (records [EvReply "Usage: /ssss set-default <key ID>"] empty_session).
Proof.
  split; [|split].
  - exact (proj1 (proj1 (dispatchers_print_usage plain ascii_lower (ssss_cmd []) empty_session)
             eq_refl)).
  - refine (proj1 (proj2 (proj2 (dispatchers_print_usage plain ascii_lower
             (cross_signing_cmd ["Reset"]) empty_session))) "Reset" [] eq_refl _).
    cbn. intros [H|[H|[H|[H|[]]]]]; discriminate H.
  - exact (proj2 (proj2 (proj2 (dispatchers_print_usage plain ascii_lower
             (ssss_cmd ["SET-DEFAULT"]) empty_session))) "SET-DEFAULT" eq_refl eq_refl).
Defined.

(** ** Cross-signing: upload, fetch, the cached key set *)

(** X12.  [cross-signing upload] needs the cached key set: without it the
    command tells the user to generate first and does not touch secret
    storage, not even to ask for the passphrase.  With it, and once the
    unlock protocol has handed out a key, what is uploaded is exactly the
    cached key set under exactly that key, and the outcome is reported. *)
Theorem upload_sends_the_cached_keys env cmd w :
  (CrossSigningKeys_cached w = None ->
   cmdCrossSigningUpload env cmd w =
   Done tt (records [EvReply ("Cross-signing keys not cached, use `!" +:+ cmd_OrigCommand cmd
                              +:+ " generate` first")] w))
  /\ (forall keys key w',
      CrossSigningKeys_cached w = Some keys ->
      getSSSS env cmd w = Done (Some key) w' ->
      cmdCrossSigningUpload env cmd w =
      Done tt (records [EvUploadCrossSigningKeysToSSSS key keys;
                        EvReply match UploadCrossSigningKeysToSSSS env (log w') key keys with
                                | Some e => "Failed to upload keys to SSSS: " +:+ Error e
                                | None => "Successfully uploaded cross-signing keys to SSSS"
                                end] w')).
Proof.
  split.
  - intros Hnone. unfold cmdCrossSigningUpload.
    rewrite bind_get_CrossSigningKeys, Hnone. reflexivity.
  - intros keys key w' Hsome Hunlock. unfold cmdCrossSigningUpload.
    rewrite bind_get_CrossSigningKeys, Hsome.
    rewrite (bind_Done _ _ _ _ _ Hunlock).
    rewrite (bind_Done _ _ _ _ _ (call_run _ _ _)).
    destruct (UploadCrossSigningKeysToSSSS env (log w') key keys); reflexivity.
Qed.

Lemma upload_sends_the_cached_keys_witness :
  cmdCrossSigningUpload plain (cross_signing_cmd ["upload"]) empty_session
  = Done tt (records [EvReply "Cross-signing keys not cached, use `!cross-signing generate` first"]
               empty_session)
  /\ events_since empty_session
       (cmdCrossSigningUpload unlocking (cross_signing_cmd ["upload"])
          (mkWorld [] ∅ (Some (mkCache "m" "s" "u")) 0))
     = [EvGetDefaultKeyData;
        EvAskPassword "Passphrase" "" "correct horse battery staple" false;
        EvVerifyPassphrase "hunter2";
        EvUploadCrossSigningKeysToSSSS key1 (mkCache "m" "s" "u");
        EvReply "Successfully uploaded cross-signing keys to SSSS"].
Proof.
  split.
  - exact (proj1 (upload_sends_the_cached_keys plain (cross_signing_cmd ["upload"])
             empty_session) eq_refl).
  - apply (events_since_records _ _ (mkWorld [] ∅ (Some (mkCache "m" "s" "u")) 0)).
    rewrite (proj2 (upload_sends_the_cached_keys unlocking (cross_signing_cmd ["upload"])
               (mkWorld [] ∅ (Some (mkCache "m" "s" "u")) 0))
               (mkCache "m" "s" "u") key1 _ eq_refl eq_refl).
    reflexivity.
Defined.

(** X13.  [cross-signing fetch] hands the key of the unlock protocol to
    the decryption and reports a failure of that as the only reply.  On
    success it reports "Successfully unlocked cross-signing keys"; with
    [--save-to-disk] it says before that, that saving is not yet
    implemented, and saves nothing. *)
Theorem fetch_reports_unimplemented_saving env cmd saveToDisk w key w' :
  getSSSS env cmd w = Done (Some key) w' ->
  (forall fetched e,
     FetchCrossSigningKeysFromSSSS env (log w') key = (fetched, Some e) ->
     cmdCrossSigningFetch env cmd saveToDisk w =
     Done tt (records [EvFetchCrossSigningKeysFromSSSS key;
                       EvReply ("Error fetching cross-signing keys: " +:+ Error e)] w'))
  /\ (forall fetched,
     FetchCrossSigningKeysFromSSSS env (log w') key = (fetched, None) ->
     events_since w' (cmdCrossSigningFetch env cmd saveToDisk w) =
       (EvFetchCrossSigningKeysFromSSSS key ::
        (if saveToDisk then [EvReply "Saving keys to disk is not yet implemented"] else []) ++
        [EvReply "Successfully unlocked cross-signing keys"])%list
     /\ panicked (cmdCrossSigningFetch env cmd saveToDisk w) = false).
Proof.
  intros Hunlock. split.
  - intros fetched e Hfetch. unfold cmdCrossSigningFetch.
    rewrite (bind_Done _ _ _ _ _ Hunlock).
    rewrite (bind_Done _ _ _ _ _ (call_run _ _ _)), Hfetch. reflexivity.
  - intros fetched Hfetch. unfold cmdCrossSigningFetch.
    rewrite (bind_Done _ _ _ _ _ Hunlock).
    rewrite (bind_Done _ _ _ _ _ (call_run _ _ _)), Hfetch.
    destruct saveToDisk; split; try reflexivity;
      apply events_since_app; cbn; now rewrite <- ?app_assoc.
Qed.

Lemma fetch_reports_unimplemented_saving_witness :
  events_since
    (records [EvGetDefaultKeyData;
              EvAskPassword "Passphrase" "" "correct horse battery staple" false;
              EvVerifyPassphrase "hunter2"] empty_session)
    (cmdCrossSigningFetch
       (with_FetchCrossSigningKeysFromSSSS (fun _ _ => (Some (mkCache "m" "s" "u"), None))
          unlocking)
       (cross_signing_cmd ["fetch"; "--save-to-disk"]) true empty_session)
  = [EvFetchCrossSigningKeysFromSSSS key1;
     EvReply "Saving keys to disk is not yet implemented";
     EvReply "Successfully unlocked cross-signing keys"].
Proof.
  exact (proj1 (proj2 (fetch_reports_unimplemented_saving
    (with_FetchCrossSigningKeysFromSSSS (fun _ _ => (Some (mkCache "m" "s" "u"), None))
       unlocking)
    (cross_signing_cmd ["fetch"; "--save-to-disk"]) true empty_session key1
    (records [EvGetDefaultKeyData;
              EvAskPassword "Passphrase" "" "correct horse battery staple" false;
              EvVerifyPassphrase "hunter2"] empty_session) eq_refl)
    (Some (mkCache "m" "s" "u")) eq_refl)).
Defined.

Lemma confined_uiaCallback env cmd uia : confined is_auth_call (uiaCallback env cmd uia).
Proof.
  unfold uiaCallback. destruct (negb (HasSingleStageFlow uia AuthTypePassword)).
  - apply confined_bind.
    + apply confined_for_range. intros flow. confine.
    + intros r. confine.
  - confine.
Qed.

(** X14.  A forced [cross-signing generate]: the cached key set is
    replaced by the freshly derived one exactly when publishing came back
    without an error, after however many re-authentication rounds; when the
    derivation or the publishing fails the failure is reported and the
    cached key set stays what it was.  The device records are never
    touched. *)
Theorem generate_caches_only_published_keys env cmd w :
  let r := cmdCrossSigningGenerate env cmd true w in
  heap (world_of r) = heap w
  /\ match GenerateCrossSigningKeys env (log w) with
     | (_, Some e) =>
         r = Done tt (records [EvGenerateCrossSigningKeys;
                               EvReply ("Failed to generate cross-signing keys: " +:+ Error e)] w)
     | (fresh, None) =>
         match run_UIAScript
                 (PublishCrossSigningKeys env (log (records [EvGenerateCrossSigningKeys] w)) fresh)
                 (uiaCallback env cmd)
                 (records [EvGenerateCrossSigningKeys; EvPublishCrossSigningKeys fresh] w) with
         | Done None w3 =>
             CrossSigningKeys_cached (world_of r) = fresh
             /\ events_since w3 r = []
         | Done (Some e) w3 =>
             CrossSigningKeys_cached (world_of r) = CrossSigningKeys_cached w
             /\ events_since w3 r = [EvReply ("Failed to publish cross-signing keys: " +:+ Error e)]
         | Panic w3 =>
             CrossSigningKeys_cached (world_of r) = CrossSigningKeys_cached w
             /\ r = Panic w3
         end
     end.
Proof.
  intros r. subst r. unfold cmdCrossSigningGenerate. cbn [negb].
  rewrite (bind_Done _ _ _ _ _ (call_run _ _ _)).
  destruct (GenerateCrossSigningKeys env (log w)) as [fresh [e|]].
  - split; reflexivity.
  - rewrite (bind_Done _ _ _ _ _ (call_run _ _ _)). cbn [records fold_left].
    set (w2 := record (EvPublishCrossSigningKeys fresh) (record EvGenerateCrossSigningKeys w)).
    set (script := PublishCrossSigningKeys env _ fresh).
    pose proof (confined_frame is_auth_call (run_UIAScript script (uiaCallback env cmd)) w2
                  (confined_run_UIAScript _ _ _ (confined_uiaCallback env cmd)))
      as (Hheap & Hkeys & _ & _).
    unfold bind.
    destruct (run_UIAScript script (uiaCallback env cmd) w2) as [[e|] w3|w3];
      cbn [world_of] in Hheap, Hkeys.
    + split; [exact Hheap|]. split; [exact Hkeys|].
      apply events_since_app. reflexivity.
    + split; [exact Hheap|]. split; [reflexivity|].
      apply events_since_app. cbn. now rewrite app_nil_r.
    + split; [exact Hheap|]. split; [exact Hkeys | reflexivity].
Qed.

(** X15.  Whenever the authentication callback hands back a credential, it
    carries the session of the challenge it answers.  When the challenge
    offers a single-stage password flow the credential is a password login
    for the account with the password just typed, and no browser is
    opened; otherwise it is a fallback credential for the only stage of the
    first offered flow, which then is not the password stage, obtained
    through the browser.  The callback changes no state. *)
Theorem uia_credential_answers_the_challenge env cmd uia w auth w' :
  uiaCallback env cmd uia w = Done (Some auth) w' ->
  auth_session auth = Session uia
  /\ heap w' = heap w
  /\ CrossSigningKeys_cached w' = CrossSigningKeys_cached w
  /\ (if HasSingleStageFlow uia AuthTypePassword then
        exists password,
          AskPassword env (log w) "Account password" "" "correct horse battery staple" false
            = (password, true)
          /\ auth = ReqUIAuthLogin AuthTypePassword (Session uia) (client_UserID env) password
          /\ w' = records [EvAskPassword "Account password" "" "correct horse battery staple"
                                         false] w
      else
        exists stage rest,
          Flows uia = mkFlow [stage] :: rest
          /\ stage <> AuthTypePassword
          /\ auth = BaseAuthData stage (Session uia)
          /\ w' = records [EvReply "Opening browser for authentication";
                           EvUIAFallback stage (Session uia)] w).
Proof.
  intros Hrun.
  pose proof (confined_frame is_auth_call _ w (confined_uiaCallback env cmd uia))
    as (Hheap & Hkeys & _ & _).
  rewrite Hrun in Hheap, Hkeys. cbn [world_of] in Hheap, Hkeys.
  assert (Hcases :
    if HasSingleStageFlow uia AuthTypePassword then
        exists password,
          AskPassword env (log w) "Account password" "" "correct horse battery staple" false
            = (password, true)
          /\ auth = ReqUIAuthLogin AuthTypePassword (Session uia) (client_UserID env) password
          /\ w' = records [EvAskPassword "Account password" "" "correct horse battery staple"
                                         false] w
      else
        exists stage rest,
          Flows uia = mkFlow [stage] :: rest
          /\ stage <> AuthTypePassword
          /\ auth = BaseAuthData stage (Session uia)
          /\ w' = records [EvReply "Opening browser for authentication";
                           EvUIAFallback stage (Session uia)] w).
  { revert Hrun. unfold uiaCallback.
    destruct (HasSingleStageFlow uia AuthTypePassword) eqn:Hpw; cbn [negb].
    - unfold askPassword. rewrite (bind_Done _ _ _ _ _ (call_run _ _ _)).
      destruct (AskPassword env (log w) "Account password" "" "correct horse battery staple"
                            false) as [password ok].
      destruct ok; cbn [negb]; [|discriminate].
      intros Hrun. inversion Hrun. exists password. repeat split.
    - destruct (Flows uia) as [|[stages] rest] eqn:Hflows; cbn [for_range].
      { cbv [bind ret Reply call]. discriminate. }
      cbn [Stages].
      destruct stages as [|stage [|stage2 more]]; cbn [length Nat.eqb negb].
      { cbv [bind ret Reply call]. discriminate. }
      2:{ cbv [bind ret Reply call]. discriminate. }
      rewrite index_0. cbv [bind ret Reply call].
      destruct (UIAFallback env _ stage (Session uia)) as [e|]; [discriminate|].
      intros Hrun. inversion Hrun. exists stage, rest. repeat split.
      intros Hstage. unfold HasSingleStageFlow in Hpw. rewrite Hflows in Hpw.
      cbn [existsb Stages] in Hpw. rewrite Hstage, String.eqb_refl in Hpw. discriminate Hpw. }
  split; [|split; [exact Hheap | split; [exact Hkeys | exact Hcases]]].
  destruct (HasSingleStageFlow uia AuthTypePassword).
  - destruct Hcases as (password & _ & Hauth & _). now rewrite Hauth.
  - destruct Hcases as (stage & rest & _ & _ & Hauth & _). now rewrite Hauth.
Qed.

Lemma uia_credential_answers_the_challenge_witness :
  auth_session (ReqUIAuthLogin AuthTypePassword "session-2" "@me:example.org" "hunter2")
  = Session password_challenge.
Proof.
  exact (proj1 (uia_credential_answers_the_challenge plain (cross_signing_cmd ["generate"])
    password_challenge empty_session
    (ReqUIAuthLogin AuthTypePassword "session-2" "@me:example.org" "hunter2")
    (records [EvAskPassword "Account password" "" "correct horse battery staple" false]
             empty_session) eq_refl)).
Defined.

(** ** Autocompletion *)

Lemma last_byte_of_nonempty s :
  s <> "" -> exists b, String.get (String.length s - 1) s = Some b.
Proof.
  induction s as [|c s IH]; [congruence|]. intros _.
  destruct s as [|c' s'].
  - exists c. reflexivity.
  - destruct IH as [b Hb]; [discriminate|]. exists b.
    replace (String.length (String c (String c' s')) - 1)
      with (S (String.length (String c' s') - 1)) by (cbn [String.length]; lia).
    exact Hb.
Qed.

Lemma last_cons {A} (a : A) l d : List.last (a :: l) d = List.last l a.
Proof.
  revert a d. induction l as [|b l IH]; intros a d; [reflexivity|].
  change (List.last (a :: b :: l) d) with (List.last (b :: l) d).
  now rewrite !IH.
Qed.

Lemma complete_devices_spec ToUpper x devices c0 comps0 :
  complete_devices ToUpper x devices c0 comps0 =
  if existsb (has_id x) devices then None
  else Some (List.last (map dev_DeviceID (List.filter (device_matches ToUpper x) devices)) c0,
             (comps0 ++ map device_completion
                          (List.filter (device_matches ToUpper x) devices))%list).
Proof.
  revert c0 comps0. induction devices as [|device rest IH]; intros c0 comps0.
  - cbn. now rewrite app_nil_r.
  - cbn [complete_devices existsb List.filter]. unfold has_id at 1.
    destruct (String.eqb (dev_DeviceID device) x); [reflexivity|]. cbn [orb].
    destruct (device_matches ToUpper x device).
    + rewrite IH. destruct (existsb (has_id x) rest); [reflexivity|].
      cbn [map]. rewrite <- app_assoc. cbn [app]. now rewrite last_cons.
    + apply IH.
Qed.

(** X16.  The completion indexes out of range in one situation only: one
    argument and an empty raw argument text.  With a non-empty raw text, or
    any other number of arguments, it always answers. *)
Theorem autocomplete_out_of_range_only_on_empty_text ToUpper cmd :
  autocompleteDevice ToUpper cmd = None
  <-> length (ac_Args cmd) = 1 /\ ac_RawArgs cmd = "".
Proof.
  unfold autocompleteDevice.
  assert (Huser : length (ac_Args cmd) = 1 -> autocompleteDeviceUserID cmd <> None).
  { intros Hlen. unfold autocompleteDeviceUserID.
    destruct (ac_Args cmd) as [|a0 [|]]; try discriminate Hlen. cbn [lookup list_lookup].
    destruct (ac_AutocompleteUser cmd a0) as [|id0 [|]]; cbn; discriminate. }
  assert (Hdev : length (ac_Args cmd) <> 0 -> autocompleteDeviceDeviceID ToUpper cmd <> None).
  { intros Hlen. unfold autocompleteDeviceDeviceID.
    destruct (ac_Args cmd) as [|a0 rest]; [exfalso; apply Hlen; reflexivity|].
    cbn [lookup list_lookup].
    destruct (ac_GetDevices cmd a0) as [devices err].
    destruct ((length devices =? 0)%nat || match err with Some _ => true | None => false end);
      [discriminate|].
    destruct rest as [|a1 rest']; cbn [length Nat.ltb Nat.leb lookup list_lookup].
    - destruct (length (map device_completion devices) =? 1)%nat; discriminate.
    - destruct (complete_devices ToUpper (ToUpper a1) devices "" []) as [[c comps]|];
        [|discriminate].
      destruct (length comps =? 1)%nat; discriminate. }
  destruct (Nat.eqb_spec (length (ac_Args cmd)) 0) as [H0|H0].
  { split; [discriminate|]. intros [H1 _]. congruence. }
  destruct (Nat.eqb_spec (length (ac_Args cmd)) 1) as [H1|H1].
  - destruct (string_dec (ac_RawArgs cmd) "") as [Hraw|Hraw].
    + rewrite Hraw. cbn. split; [intros _; split; [exact H1 | reflexivity] | reflexivity].
    + destruct (last_byte_of_nonempty _ Hraw) as [b Hb]. rewrite Hb.
      split; [|intros [_ H]; congruence].
      destruct (negb (IsSpace b)).
      * intros H. exfalso. exact (Huser H1 H).
      * destruct (negb (String.eqb (ac_Command cmd) "devices")); [|discriminate].
        intros H. exfalso. exact (Hdev H0 H).
  - split; [|intros [H _]; congruence].
    destruct (negb (String.eqb (ac_Command cmd) "devices")); [|discriminate].
    intros H. exfalso. exact (Hdev H0 H).
Qed.

(** X17.  Completion of the user id: with no argument nothing is offered.
    With one argument that is not followed by white space, the room's
    members are asked; exactly one match rewrites the input to the command,
    that member's id and a space, and offers no list, while any other number
    of matches offers them all and leaves the input alone.  The [devices]
    command never offers device ids. *)
Theorem autocomplete_user_id ToUpper cmd :
  (ac_Args cmd = [] -> autocompleteDevice ToUpper cmd = Some ([], ""))
  /\ (forall a0 b,
      ac_Args cmd = [a0] ->
      String.get (String.length (ac_RawArgs cmd) - 1) (ac_RawArgs cmd) = Some b ->
      IsSpace b = false ->
      autocompleteDevice ToUpper cmd =
      match ac_AutocompleteUser cmd a0 with
      | [member] => Some ([], "/" +:+ ac_OrigCommand cmd +:+ " " +:+ member +:+ " ")
      | members => Some (members, "")
      end)
  /\ (forall b,
      ac_Command cmd = "devices" ->
      (1 < length (ac_Args cmd)
       \/ String.get (String.length (ac_RawArgs cmd) - 1) (ac_RawArgs cmd) = Some b
          /\ IsSpace b = true) ->
      autocompleteDevice ToUpper cmd = Some ([], "")).
Proof.
  split; [|split].
  - intros Hargs. unfold autocompleteDevice. now rewrite Hargs.
  - intros a0 b Hargs Hget Hspace. unfold autocompleteDevice, autocompleteDeviceUserID.
    rewrite Hargs. cbn [length Nat.eqb lookup list_lookup]. rewrite Hget, Hspace. cbn [negb].
    destruct (ac_AutocompleteUser cmd a0) as [|member [|]]; reflexivity.
  - intros b Hcmd Hcase. unfold autocompleteDevice. rewrite Hcmd.
    destruct (ac_Args cmd) as [|a0 [|a1 rest]]; cbn [length Nat.eqb].
    + reflexivity.
    + destruct Hcase as [Hlen|[Hget Hspace]]; [cbn in Hlen; lia|].
      rewrite Hget, Hspace. reflexivity.
    + reflexivity.
Qed.

Lemma autocomplete_user_id_witness :
  autocompleteDevice ascii_upper (typing "verify" ["@al"] "@al" [])
  = Some ([], "/verify @alice:example.org ")
  /\ autocompleteDevice ascii_upper (typing "verify" ["@"] "@" [])
  = Some (["@alice:example.org"; "@bob:example.org"], "")
  /\ autocompleteDevice ascii_upper
       (typing "devices" ["@alice:example.org"] "@alice:example.org " [alice_phone TrustStateUnset])
  = Some ([], "").
Proof.
  split; [|split].
  - exact (proj1 (proj2 (autocomplete_user_id ascii_upper (typing "verify" ["@al"] "@al" [])))
             "@al" "l"%char eq_refl eq_refl eq_refl).
  - exact (proj1 (proj2 (autocomplete_user_id ascii_upper (typing "verify" ["@"] "@" [])))
             "@" "@"%char eq_refl eq_refl eq_refl).
  - exact (proj2 (proj2 (autocomplete_user_id ascii_upper
             (typing "devices" ["@alice:example.org"] "@alice:example.org "
                     [alice_phone TrustStateUnset])))
             " "%char eq_refl (or_intror (conj eq_refl eq_refl))).
Defined.

Lemma fold_left_last_id (devices : list DeviceIdentity) c0 :
  fold_left (fun _ device => dev_DeviceID device) devices c0
  = List.last (map dev_DeviceID devices) c0.
Proof.
  revert c0. induction devices as [|device rest IH]; intros c0; [reflexivity|].
  cbn [fold_left map]. now rewrite IH, last_cons.
Qed.

(** The devices the loop of [autocompleteDeviceDeviceID] keeps. *)
Lemma autocompleteDeviceDeviceID_spec ToUpper cmd a0 rest devices err :
  ac_Args cmd = a0 :: rest ->
  ac_GetDevices cmd a0 = (devices, err) ->
  autocompleteDeviceDeviceID ToUpper cmd =
  if (length devices =? 0)%nat || match err with Some _ => true | None => false end then
    Some ([], "")
  else if match rest with [] => false | a1 :: _ => existsb (has_id (ToUpper a1)) devices end then
    Some ([], "")
  else
    let candidates :=
      match rest with
      | [] => devices
      | a1 :: _ => List.filter (device_matches ToUpper (ToUpper a1)) devices
      end in
    Some (map device_completion candidates,
          if (length candidates =? 1)%nat then
            "/" +:+ ac_OrigCommand cmd +:+ " " +:+ a0 +:+ " "
            +:+ List.last (map dev_DeviceID candidates) "" +:+ " "
          else "").
Proof.
  intros Hargs Hget. unfold autocompleteDeviceDeviceID. rewrite Hargs.
  cbn [lookup list_lookup]. rewrite Hget.
  destruct ((length devices =? 0)%nat || match err with Some _ => true | None => false end);
    [reflexivity|].
  destruct rest as [|a1 rest']; cbn [length Nat.ltb Nat.leb lookup list_lookup].
  - rewrite fold_left_last_id, length_map. cbv zeta.
    destruct (length devices =? 1)%nat; reflexivity.
  - rewrite complete_devices_spec.
    destruct (existsb (has_id (ToUpper a1)) devices); [reflexivity|].
    cbn [app]. rewrite length_map. cbv zeta.
    destruct (length (List.filter (device_matches ToUpper (ToUpper a1)) devices) =? 1)%nat;
      reflexivity.
Qed.

(** X18.  With a second argument, nothing is offered and the input is
    left alone when the store fails, when it knows no device of the user,
    or when the argument, upper-cased, already is the id of a known device,
    wherever that device comes in the store's order and whatever else would
    have matched. *)
Theorem complete_device_id_suppressed ToUpper cmd a0 a1 rest devices err :
  ac_Args cmd = a0 :: a1 :: rest ->
  ac_Command cmd <> "devices" ->
  ac_GetDevices cmd a0 = (devices, err) ->
  (err <> None \/ devices = []
   \/ exists device, In device devices /\ dev_DeviceID device = ToUpper a1) ->
  autocompleteDevice ToUpper cmd = Some ([], "").
Proof.
  intros Hargs Hcmd Hget Hcase. unfold autocompleteDevice. rewrite Hargs.
  cbn [length Nat.eqb].
  apply String.eqb_neq in Hcmd. rewrite Hcmd. cbn [negb].
  rewrite (autocompleteDeviceDeviceID_spec ToUpper cmd a0 (a1 :: rest) devices err Hargs Hget).
  destruct Hcase as [Herr|[Hnil|(device & Hin & Hid)]].
  - destruct err; [|congruence]. now rewrite orb_true_r.
  - subst devices. reflexivity.
  - destruct ((length devices =? 0)%nat || match err with Some _ => true | None => false end);
      [reflexivity|].
    assert (Hex : existsb (has_id (ToUpper a1)) devices = true).
    { apply existsb_exists. exists device. split; [exact Hin|].
      unfold has_id. rewrite Hid. apply String.eqb_refl. }
    now rewrite Hex.
Qed.

Lemma complete_device_id_suppressed_witness :
  autocompleteDevice ascii_upper
    (typing "verify" ["@alice:example.org"; "phone"] "@alice:example.org phone"
            [bob_laptop; alice_phone TrustStateUnset])
  = Some ([], "").
Proof.
  refine (complete_device_id_suppressed ascii_upper
            (typing "verify" ["@alice:example.org"; "phone"] "@alice:example.org phone"
                    [bob_laptop; alice_phone TrustStateUnset])
            "@alice:example.org" "phone" []
            [bob_laptop; alice_phone TrustStateUnset] None eq_refl _ eq_refl _).
  - discriminate.
  - right. right. exists (alice_phone TrustStateUnset). split; [|reflexivity].
    right. left. reflexivity.
Defined.

(** X19.  With a second argument that is not yet a known device id, the
    candidates are the known devices whose id starts with the upper-cased
    argument or whose upper-cased name does, offered as "ID (name)" in the
    store's order.  The input is rewritten exactly when there is one
    candidate, to the command, the user id, that candidate's device id and
    a space. *)
Theorem complete_device_id_candidates ToUpper cmd a0 a1 rest devices :
  ac_Args cmd = a0 :: a1 :: rest ->
  ac_Command cmd <> "devices" ->
  ac_GetDevices cmd a0 = (devices, None) ->
  (forall device, In device devices -> dev_DeviceID device <> ToUpper a1) ->
  autocompleteDevice ToUpper cmd =
  Some (map device_completion (List.filter (device_matches ToUpper (ToUpper a1)) devices),
        match List.filter (device_matches ToUpper (ToUpper a1)) devices with
        | [device] =>
            "/" +:+ ac_OrigCommand cmd +:+ " " +:+ a0 +:+ " " +:+ dev_DeviceID device +:+ " "
        | _ => ""
        end).
Proof.
  intros Hargs Hcmd Hget Hnone. unfold autocompleteDevice. rewrite Hargs.
  cbn [length Nat.eqb].
  apply String.eqb_neq in Hcmd. rewrite Hcmd. cbn [negb].
  rewrite (autocompleteDeviceDeviceID_spec ToUpper cmd a0 (a1 :: rest) devices None Hargs Hget).
  rewrite orb_false_r.
  assert (Hex : existsb (has_id (ToUpper a1)) devices = false).
  { apply not_true_is_false. intros Hex. apply existsb_exists in Hex.
    destruct Hex as (device & Hin & Hid). apply (Hnone device Hin).
    now apply String.eqb_eq. }
  rewrite Hex.
  destruct devices as [|d0 devices']; [reflexivity|]. cbn [length Nat.eqb].
  cbv zeta.
  destruct (List.filter (device_matches ToUpper (ToUpper a1)) (d0 :: devices'))
    as [|c [|c' cs]]; reflexivity.
Qed.

Lemma complete_device_id_candidates_witness :
  autocompleteDevice ascii_upper
    (typing "verify" ["@alice:example.org"; "work"] "@alice:example.org work"
            [bob_laptop; alice_phone TrustStateUnset])
  = Some (["LAPTOP (Work laptop)"], "/verify @alice:example.org LAPTOP ").
Proof.
  refine (complete_device_id_candidates ascii_upper
            (typing "verify" ["@alice:example.org"; "work"] "@alice:example.org work"
                    [bob_laptop; alice_phone TrustStateUnset])
            "@alice:example.org" "work" []
            [bob_laptop; alice_phone TrustStateUnset] eq_refl _ eq_refl _).
  - discriminate.
  - intros device [H|[H|[]]]; subst device; discriminate.
Defined.

Lemma Permutation_List_filter {A} (f : A -> bool) l l' :
  Permutation l l' -> Permutation (List.filter f l) (List.filter f l').
Proof.
  induction 1 as [|x l l' _ IH|x y l|l l' l'' _ IH1 _ IH2]; cbn [List.filter].
  - constructor.
  - destruct (f x); [now constructor | exact IH].
  - destruct (f x), (f y); try reflexivity. constructor.
  - now transitivity (List.filter f l').
Qed.

Lemma Permutation_existsb {A} (f : A -> bool) l l' :
  Permutation l l' -> existsb f l = existsb f l'.
Proof.
  induction 1 as [|x l l' _ IH|x y l|l l' l'' _ IH1 _ IH2]; cbn [existsb].
  - reflexivity.
  - now rewrite IH.
  - destruct (f x), (f y); reflexivity.
  - congruence.
Qed.

Lemma Permutation_last_of_one (l l' : list DeviceIdentity) :
  Permutation l l' -> length l = 1 ->
  List.last (map dev_DeviceID l) "" = List.last (map dev_DeviceID l') "".
Proof.
  intros Hperm Hlen. destruct l as [|x [|]]; try discriminate Hlen.
  symmetry in Hperm. apply Permutation_singleton_r in Hperm. now subst l'.
Qed.

(** X20.  The order in which the store hands out the devices of a user
    does not matter to the completion: two stores that know the same
    devices of every user, in any order, and fail for the same users, get
    the same new input text and the same candidates up to their order. *)
Theorem autocomplete_ignores_store_order ToUpper command orig args raw members store store' :
  (forall u, Permutation (fst (store u)) (fst (store' u)) /\ snd (store u) = snd (store' u)) ->
  match autocompleteDevice ToUpper (mkAutocomplete command orig args raw members store),
        autocompleteDevice ToUpper (mkAutocomplete command orig args raw members store') with
  | Some (candidates, text), Some (candidates', text') =>
      Permutation candidates candidates' /\ text = text'
  | None, None => True
  | _, _ => False
  end.
Proof.
  intros Hstores. unfold autocompleteDevice. cbn [ac_Args ac_RawArgs ac_Command].
  destruct (length args =? 0)%nat; [split; reflexivity|].
  assert (Hdev :
    match autocompleteDeviceDeviceID ToUpper (mkAutocomplete command orig args raw members store),
          autocompleteDeviceDeviceID ToUpper (mkAutocomplete command orig args raw members store')
    with
    | Some (candidates, text), Some (candidates', text') =>
        Permutation candidates candidates' /\ text = text'
    | None, None => True
    | _, _ => False
    end).
  { destruct args as [|a0 rest]; [exact I|].
    specialize (Hstores a0).
    destruct (store a0) as [devices err] eqn:Hs, (store' a0) as [devices' err'] eqn:Hs'.
    cbn [fst snd] in Hstores. destruct Hstores as [Hperm Herr]. subst err'.
    rewrite (autocompleteDeviceDeviceID_spec ToUpper
               (mkAutocomplete command orig (a0 :: rest) raw members store)
               a0 rest devices err eq_refl Hs).
    rewrite (autocompleteDeviceDeviceID_spec ToUpper
               (mkAutocomplete command orig (a0 :: rest) raw members store')
               a0 rest devices' err eq_refl Hs').
    rewrite <- (Permutation_length Hperm).
    destruct ((length devices =? 0)%nat || match err with Some _ => true | None => false end);
      [split; reflexivity|].
    assert (Hex : match rest with
                  | [] => false
                  | a1 :: _ => existsb (has_id (ToUpper a1)) devices
                  end
                  = match rest with
                    | [] => false
                    | a1 :: _ => existsb (has_id (ToUpper a1)) devices'
                    end).
    { destruct rest; [reflexivity|]. now apply Permutation_existsb. }
    rewrite <- Hex.
    destruct (match rest with
              | [] => false
              | a1 :: _ => existsb (has_id (ToUpper a1)) devices
              end); [split; reflexivity|].
    cbv zeta. cbn [ac_OrigCommand].
    assert (Hcand : Permutation
              match rest with
              | [] => devices
              | a1 :: _ => List.filter (device_matches ToUpper (ToUpper a1)) devices
              end
              match rest with
              | [] => devices'
              | a1 :: _ => List.filter (device_matches ToUpper (ToUpper a1)) devices'
              end).
    { destruct rest; [exact Hperm|]. now apply Permutation_List_filter. }
    split; [now apply Permutation_map|].
    rewrite <- (Permutation_length Hcand).
    destruct (Nat.eqb_spec (length match rest with
                                   | [] => devices
                                   | a1 :: _ =>
                                       List.filter (device_matches ToUpper (ToUpper a1)) devices
                                   end) 1) as [Hone|_]; [|reflexivity].
    now rewrite (Permutation_last_of_one _ _ Hcand Hone). }
  destruct (length args =? 1)%nat.
  - destruct (String.get (String.length raw - 1) raw) as [b|]; [|exact I].
    destruct (negb (IsSpace b)).
    + unfold autocompleteDeviceUserID. cbn [ac_Args ac_AutocompleteUser ac_OrigCommand].
      destruct (args !! 0) as [a0|]; [|exact I].
      destruct (length (members a0) =? 1)%nat.
      * destruct (members a0 !! 0); [split; reflexivity | exact I].
      * split; reflexivity.
    + destruct (negb (String.eqb command "devices")); [exact Hdev | split; reflexivity].
  - destruct (negb (String.eqb command "devices")); [exact Hdev | split; reflexivity].
Qed.

Lemma autocomplete_ignores_store_order_witness :
  autocompleteDevice ascii_upper
    (typing "verify" ["@alice:example.org"] "@alice:example.org "
            [bob_laptop; alice_phone TrustStateUnset])
  = Some (["LAPTOP (Work laptop)"; "PHONE (Alice's phone)"], "")
  /\ autocompleteDevice ascii_upper
    (typing "verify" ["@alice:example.org"] "@alice:example.org "
            [alice_phone TrustStateUnset; bob_laptop])
  = Some (["PHONE (Alice's phone)"; "LAPTOP (Work laptop)"], "")
  /\ Permutation ["LAPTOP (Work laptop)"; "PHONE (Alice's phone)"]
                 ["PHONE (Alice's phone)"; "LAPTOP (Work laptop)"].
Proof.
  pose proof (autocomplete_ignores_store_order ascii_upper "verify" "verify"
    ["@alice:example.org"] "@alice:example.org "
    (fun text => List.filter (String.prefix text) ["@alice:example.org"; "@bob:example.org"])
    (fun _ => ([bob_laptop; alice_phone TrustStateUnset], None))
    (fun _ => ([alice_phone TrustStateUnset; bob_laptop], None))
    (fun _ => conj (perm_swap _ _ _) eq_refl)) as H.
  split; [reflexivity|]. split; [reflexivity|].
  exact (proj1 H).
Defined.

(** ** Listing devices *)

Lemma string_app_cons x (a b : string) : String x a +:+ b = String x (a +:+ b).
Proof. reflexivity. Qed.
Lemma string_app_assoc (a b c : string) : (a +:+ b) +:+ c = a +:+ (b +:+ c).
Proof.
  induction a as [|x a IH]; [reflexivity|].
  now rewrite !string_app_cons, IH.
Qed.
Lemma string_length_app (a b : string) :
  String.length (a +:+ b) = String.length a + String.length b.
Proof.
  induction a as [|x a IH]; [reflexivity|].
  rewrite string_app_cons. cbn [String.length Nat.add]. now rewrite IH.
Qed.
Lemma substring_app_prefix (a b : string) :
  String.substring 0 (String.length a) (a +:+ b) = a.
Proof.
  induction a as [|x a IH].
  - destruct b; reflexivity.
  - rewrite string_app_cons. cbn [String.length String.substring]. now rewrite IH.
Qed.

Lemma device_entry_lines Fingerprint TrustString device :
  device_entry Fingerprint TrustString device
  = device_lines Fingerprint TrustString device +:+ nl.
Proof. unfold device_entry, device_lines. now rewrite !string_app_assoc. Qed.

Lemma buffer_is_joined_lines Fingerprint TrustString devices acc :
  devices <> [] ->
  fold_left (fun buf device => buf +:+ device_entry Fingerprint TrustString device) devices acc
  = acc +:+ (String.concat nl (map (device_lines Fingerprint TrustString) devices) +:+ nl).
Proof.
  revert acc. induction devices as [|device rest IH]; intros acc Hne; [congruence|].
  cbn [fold_left]. destruct rest as [|device' rest'].
  - cbn. now rewrite device_entry_lines.
  - rewrite IH by discriminate. rewrite device_entry_lines.
    cbn [map String.concat]. now rewrite !string_app_assoc.
Qed.

(** X21.  [devices USER] asks the store first and goes to the server only
    when the store has no device of the user; a failure of the store is
    reported and the listing goes on.  When there still is no device the
    reply says so; otherwise the one reply lists every device on two lines
    (id, name and trust state, then the fingerprint), in the order they
    came, joined by line breaks and without a line break at the end. *)
Theorem devices_listing store Fingerprint TrustString cmd userID rest cached err :
  cmd_Args cmd = userID :: rest ->
  store_GetDevices store userID = (cached, err) ->
  let devices := if (length cached =? 0)%nat then store_LoadDevices store userID else cached in
  cmdDevices store Fingerprint TrustString cmd =
    ([DcGetDevices userID] ++
     match err with
     | Some e => [DcReply ("Failed to get device list: " +:+ Error e)]
     | None => []
     end ++
     (if (length cached =? 0)%nat
      then [DcReply "Fetching device list from server..."; DcLoadDevices userID]
      else []) ++
     [DcReply match devices with
              | [] => "No devices found for " +:+ userID
              | _ => String.concat nl (map (device_lines Fingerprint TrustString) devices)
              end])%list.
Proof.
  intros Hargs Hget devices. unfold cmdDevices. rewrite Hargs, Hget.
  assert (Hreply : forall ds : list DeviceIdentity,
    (if (length ds =? 0)%nat then
       [DcReply ("No devices found for " +:+ userID)]
     else
       let resp := fold_left (fun buf device =>
                                buf +:+ device_entry Fingerprint TrustString device) ds "" in
       [DcReply (String.substring 0 (String.length resp - 1) resp)])
    = [DcReply match ds with
               | [] => "No devices found for " +:+ userID
               | _ => String.concat nl (map (device_lines Fingerprint TrustString) ds)
               end]).
  { intros ds. destruct ds as [|d0 ds']; [reflexivity|]. cbn [length Nat.eqb]. cbv zeta.
    rewrite buffer_is_joined_lines by discriminate.
    change ("" +:+ ?s) with s.
    rewrite string_length_app. cbn [String.length nl].
    replace (String.length (String.concat nl (map (device_lines Fingerprint TrustString)
                                                  (d0 :: ds'))) + 1 - 1)
      with (String.length (String.concat nl (map (device_lines Fingerprint TrustString)
                                                 (d0 :: ds')))) by lia.
    now rewrite substring_app_prefix. }
  subst devices. destruct (length cached =? 0)%nat; now rewrite Hreply.
Qed.

Lemma devices_listing_witness :
  cmdDevices (mkDeviceStore (fun _ => ([], Some (mkError "store closed" [])))
                            (fun _ => [bob_laptop; alice_phone TrustStateUnset]))
             (fun device => dev_SigningKey device) trust_name
             (mkCommand "devices" "devices" ["@alice:example.org"] "@alice:example.org"
                        "!room:example.org")
  = [DcGetDevices "@alice:example.org";
     DcReply "Failed to get device list: store closed";
     DcReply "Fetching device list from server...";
     DcLoadDevices "@alice:example.org";
     DcReply ("LAPTOP (Work laptop) - verified" +:+ nl
              +:+ "    Fingerprint: ed25519-of-laptop" +:+ nl
              +:+ "PHONE (Alice's phone) - unverified" +:+ nl
              +:+ "    Fingerprint: ed25519-of-phone")].
Proof.
  exact (devices_listing
    (mkDeviceStore (fun _ => ([], Some (mkError "store closed" [])))
                   (fun _ => [bob_laptop; alice_phone TrustStateUnset]))
    (fun device => dev_SigningKey device) trust_name
    (mkCommand "devices" "devices" ["@alice:example.org"] "@alice:example.org"
               "!room:example.org")
    "@alice:example.org" [] [] (Some (mkError "store closed" [])) eq_refl eq_refl).
Defined.

(** ** The unlock protocol tells its failures apart *)

(** X22.  The unlock protocol ends every failure with one reply and no
    key.  A failed lookup of the default key says "SSSS not set up ..."
    exactly when the error is a not-found error.  A failed verification of
    a passphrase says "Incorrect passphrase" for the incorrect-key error;
    of a recovery key, "Malformed recovery key" for the invalid-key error
    and, failing that, "Incorrect recovery key" for the incorrect-key
    error; any other error is reported as such. *)
Theorem unlock_failures_are_told_apart env cmd w :
  (forall keyID keyData e,
     GetDefaultKeyData env (log w) = (keyID, keyData, Some e) ->
     getSSSS env cmd w =
     Done None (records
       [EvGetDefaultKeyData;
        EvReply (if errors_Is (Some e) MNotFound
                 then "SSSS not set up, use `!ssss generate --set-default` first"
                 else "Failed to fetch default SSSS key data: " +:+ Error e)] w))
  /\ (forall keyID kd secret key e,
     GetDefaultKeyData env (log w) = (keyID, Some kd, None) ->
     answer_to env (log (records [EvGetDefaultKeyData] w)) (unlock_prompt kd) = (secret, true) ->
     verify_answer env (log (records [EvGetDefaultKeyData; unlock_prompt kd] w)) kd secret
       = (key, Some e) ->
     getSSSS env cmd w =
     Done None (records [EvGetDefaultKeyData; unlock_prompt kd; verify_call kd secret;
                         EvReply (unlock_failure kd e)] w)).
Proof.
  split.
  - intros keyID keyData e Hget. unfold getSSSS.
    rewrite (bind_Done _ _ _ _ _ (call_run _ _ _)), Hget.
    destruct (errors_Is (Some e) MNotFound); reflexivity.
  - intros keyID kd secret key e Hget Hask Hverify. unfold getSSSS.
    rewrite (bind_Done _ _ _ _ _ (call_run _ _ _)), Hget.
    rewrite bind_deref_Some.
    revert Hask Hverify.
    unfold unlock_prompt, verify_answer, verify_call, unlock_failure, uses_passphrase, askPassword.
    destruct (match km_Passphrase kd with
              | Some p => String.eqb (pass_Algorithm p) PassphraseAlgorithmPBKDF2
              | None => false
              end); cbn [answer_to records fold_left]; intros Hask Hverify;
      rewrite (bind_Done _ _ _ _ _ (call_run _ _ _)), Hask; cbn [negb];
      rewrite (bind_Done _ _ _ _ _ (call_run _ _ _)), Hverify.
    + destruct (errors_Is (Some e) ErrIncorrectSSSSKey); reflexivity.
    + destruct (errors_Is (Some e) ErrInvalidRecoveryKey); [reflexivity|].
      destruct (errors_Is (Some e) ErrIncorrectSSSSKey); reflexivity.
Qed.

Lemma unlock_failures_are_told_apart_witness :
  getSSSS plain (cross_signing_cmd ["fetch"]) empty_session
  = Done None (records [EvGetDefaultKeyData;
                        EvReply ("Failed to fetch default SSSS key data: "
                                 +:+ "no default key account data event")] empty_session)
  /\ getSSSS wrong_passphrase (cross_signing_cmd ["fetch"]) empty_session
  = Done None (records [EvGetDefaultKeyData;
                        EvAskPassword "Passphrase" "" "correct horse battery staple" false;
                        EvVerifyPassphrase "hunter2";
                        EvReply "Incorrect passphrase"] empty_session).
Proof.
  split.
  - exact (proj1 (unlock_failures_are_told_apart plain (cross_signing_cmd ["fetch"])
             empty_session) "" None no_default_key eq_refl).
  - exact (proj2 (unlock_failures_are_told_apart wrong_passphrase (cross_signing_cmd ["fetch"])
             empty_session) "key1" pbkdf2_key "hunter2" None
             (mkError "incorrect" [ErrIncorrectSSSSKey]) eq_refl eq_refl eq_refl).
Defined.

(** ** Status of one key, status of cross-signing *)

(** X23.  [ssss status KEY] looks up the metadata of that key, not of the
    default key.  A failed lookup (other than the no-default-key error) is
    the only reply and the command ends there; a successful one is answered
    with the key id, whether a passphrase is configured (with its
    algorithm, bits and iterations) and the algorithm, which is marked
    "(not supported!)" exactly when it is not AES-HMAC-SHA2. *)
Theorem ssss_status_of_key env ToLower cmd w a0 keyID rest :
  cmd_Args cmd = a0 :: keyID :: rest ->
  ToLower a0 = "status" ->
  keyID <> "" ->
  (forall keyData e,
     GetKeyData env (log w) keyID = (keyData, Some e) ->
     errors_Is (Some e) ErrNoDefaultKeyAccountDataEvent = false ->
     cmdSSSS env ToLower cmd w =
     Done tt (records [EvGetKeyData keyID;
                       EvReply ("Failed to get key data: " +:+ Error e)] w))
  /\ (forall kd,
     GetKeyData env (log w) keyID = (Some kd, None) ->
     cmdSSSS env ToLower cmd w =
     Done tt (records
       [EvGetKeyData keyID;
        EvReply ("Default key is set." +:+ nl +:+ "  Key ID: " +:+ keyID +:+ nl
                 +:+ "  Has passphrase: " +:+ passphrase_summary kd +:+ nl
                 +:+ "  Algorithm: "
                 +:+ (if String.eqb (km_Algorithm kd) AlgorithmAESHMACSHA2
                      then km_Algorithm kd
                      else km_Algorithm kd +:+ " (not supported!)"))] w)).
Proof.
  intros Hargs Hsub Hkey.
  assert (Hdispatch : cmdSSSS env ToLower cmd w = cmdS4Status env cmd keyID w).
  { unfold cmdSSSS. rewrite Hargs. cbn [length Nat.eqb Nat.ltb Nat.leb].
    rewrite index_0, bind_ret, Hsub, String.eqb_refl, index_1, bind_ret. reflexivity. }
  assert (Hlen : (String.length keyID =? 0)%nat = false).
  { destruct keyID; [congruence | reflexivity]. }
  rewrite Hdispatch. split.
  - intros keyData e Hget His. unfold cmdS4Status. rewrite Hlen.
    unfold bind at 1. rewrite (bind_Done _ _ _ _ _ (call_run _ _ _)), Hget.
    cbn [ret]. rewrite His. reflexivity.
  - intros kd Hget. unfold cmdS4Status. rewrite Hlen.
    unfold bind at 1. rewrite (bind_Done _ _ _ _ _ (call_run _ _ _)), Hget.
    cbn [ret errors_Is]. rewrite bind_deref_Some. unfold passphrase_summary.
    destruct (String.eqb (km_Algorithm kd) AlgorithmAESHMACSHA2); reflexivity.
Qed.

Lemma ssss_status_of_key_witness :
  cmdSSSS plain ascii_lower (ssss_cmd ["status"; "key9"]) empty_session
  = Done tt (records [EvGetKeyData "key9"; EvReply "Failed to get key data: M_NOT_FOUND"]
               empty_session)
  /\ cmdSSSS (with_GetKeyData (fun _ _ => (Some (mkKeyMetadata "m.custom" None), None)) plain)
             ascii_lower (ssss_cmd ["STATUS"; "key1"]) empty_session
  = Done tt (records
       [EvGetKeyData "key1";
        EvReply ("Default key is set." +:+ nl +:+ "  Key ID: key1" +:+ nl
                 +:+ "  Has passphrase: no" +:+ nl
                 +:+ "  Algorithm: m.custom (not supported!)")] empty_session).
Proof.
  split.
  - exact (proj1 (ssss_status_of_key plain ascii_lower (ssss_cmd ["status"; "key9"])
      empty_session "status" "key9" [] eq_refl eq_refl ltac:(discriminate))
      None (mkError "M_NOT_FOUND" [MNotFound]) eq_refl eq_refl).
  - exact (proj2 (ssss_status_of_key
      (with_GetKeyData (fun _ _ => (Some (mkKeyMetadata "m.custom" None), None)) plain)
      ascii_lower (ssss_cmd ["STATUS"; "key1"]) empty_session "STATUS" "key1" []
      eq_refl eq_refl ltac:(discriminate)) (mkKeyMetadata "m.custom" None) eq_refl).
Defined.

(** X24.  [cross-signing status] with a cached key set reports the cached
    public keys, each under its own label, and does not ask the directory.
    Without one, a failed query is reported as such, and an answer that
    lacks the master key or the self-signing key of the account gives
    "Didn't find published cross-signing keys". *)
Theorem cross_signing_status_sources env cmd w :
  (forall c,
     CrossSigningKeys_cached w = Some c ->
     cmdCrossSigningStatus env cmd w =
     Done tt (records [EvReply "Cross-signing is set up and private keys are cached";
                       EvReply ("Master key: " +:+ cache_MasterKey c);
                       EvReply ("User signing key: " +:+ cache_UserSigningKey c);
                       EvReply ("Self-signing key: " +:+ cache_SelfSigningKey c)] w))
  /\ (forall keys e,
     CrossSigningKeys_cached w = None ->
     QueryKeys env (log w) (client_UserID env) (client_DeviceID env) = (keys, Some e) ->
     cmdCrossSigningStatus env cmd w =
     Done tt (records [EvQueryKeys (client_UserID env) (client_DeviceID env);
                       EvReply ("Failed to query own keys: " +:+ Error e)] w))
  /\ (forall keys,
     CrossSigningKeys_cached w = None ->
     QueryKeys env (log w) (client_UserID env) (client_DeviceID env) = (Some keys, None) ->
     MasterKeys keys !! client_UserID env = None
     \/ SelfSigningKeys keys !! client_UserID env = None ->
     cmdCrossSigningStatus env cmd w =
     Done tt (records [EvQueryKeys (client_UserID env) (client_DeviceID env);
                       EvReply "Didn't find published cross-signing keys"] w)).
Proof.
  split; [|split].
  - intros c Hc. unfold cmdCrossSigningStatus.
    rewrite bind_get_CrossSigningKeys, Hc. reflexivity.
  - intros keys e Hc Hq. unfold cmdCrossSigningStatus, queryOwnKeys.
    rewrite bind_get_CrossSigningKeys, Hc.
    rewrite (bind_Done _ _ _ _ _ (call_run _ _ _)), Hq. reflexivity.
  - intros keys Hc Hq Habsent. unfold cmdCrossSigningStatus, queryOwnKeys.
    rewrite bind_get_CrossSigningKeys, Hc.
    rewrite (bind_Done _ _ _ _ _ (call_run _ _ _)), Hq.
    rewrite bind_deref_Some.
    assert (Hp : parseKeyResp keys (client_UserID env) = ("", "", "", false)).
    { unfold parseKeyResp. destruct Habsent as [Hm|Hs].
      - now rewrite Hm.
      - rewrite Hs. now destruct (MasterKeys keys !! client_UserID env). }
    rewrite Hp. reflexivity.
Qed.

Lemma cross_signing_status_sources_witness :
  cmdCrossSigningStatus plain (cross_signing_cmd ["status"])
    (mkWorld [] ∅ (Some (mkCache "m" "s" "u")) 0)
  = Done tt (records [EvReply "Cross-signing is set up and private keys are cached";
                      EvReply "Master key: m"; EvReply "User signing key: u";
                      EvReply "Self-signing key: s"]
               (mkWorld [] ∅ (Some (mkCache "m" "s" "u")) 0))
  /\ cmdCrossSigningStatus plain (cross_signing_cmd ["status"]) empty_session
  = Done tt (records [EvQueryKeys "@me:example.org" "LAPTOP";
                      EvReply "Failed to query own keys: offline"] empty_session)
  /\ cmdCrossSigningStatus
       (directory_with (mkRespQueryKeys {[ "@me:example.org" := mkCSK [("k", "MASTER")] ]} ∅ ∅))
       (cross_signing_cmd ["status"]) empty_session
  = Done tt (records [EvQueryKeys "@me:example.org" "LAPTOP";
                      EvReply "Didn't find published cross-signing keys"] empty_session).
Proof.
  split; [|split].
  - exact (proj1 (cross_signing_status_sources plain (cross_signing_cmd ["status"])
      (mkWorld [] ∅ (Some (mkCache "m" "s" "u")) 0)) (mkCache "m" "s" "u") eq_refl).
  - exact (proj1 (proj2 (cross_signing_status_sources plain (cross_signing_cmd ["status"])
      empty_session)) None (mkError "offline" []) eq_refl eq_refl).
  - exact (proj2 (proj2 (cross_signing_status_sources
      (directory_with (mkRespQueryKeys {[ "@me:example.org" := mkCSK [("k", "MASTER")] ]} ∅ ∅))
      (cross_signing_cmd ["status"]) empty_session))
      (mkRespQueryKeys {[ "@me:example.org" := mkCSK [("k", "MASTER")] ]} ∅ ∅)
      eq_refl eq_refl (or_intror eq_refl)).
Defined.

(** ** The probe of cross-signing generate *)

Lemma auth_calls_are_no_probes l : forallb is_auth_call l = true -> existsb is_probe l = false.
Proof.
  induction l as [|e l IH]; [reflexivity|]. cbn [forallb existsb].
  intros H. apply andb_prop in H. destruct H as [He Hl].
  rewrite (IH Hl). destruct e; try discriminate He; reflexivity.
Qed.

Lemma forced_generate_log_no_probe env cmd w :
  exists l,
    log (world_of (cmdCrossSigningGenerate env cmd true w)) = (log w ++ l)%list
    /\ existsb is_probe l = false.
Proof.
  unfold cmdCrossSigningGenerate. cbn [negb].
  rewrite (bind_Done _ _ _ _ _ (call_run _ _ _)).
  destruct (GenerateCrossSigningKeys env (log w)) as [fresh [e|]].
  - eexists. split; [cbn; rewrite <- app_assoc; reflexivity | reflexivity].
  - rewrite (bind_Done _ _ _ _ _ (call_run _ _ _)).
    set (w2 := record (EvPublishCrossSigningKeys fresh) (record EvGenerateCrossSigningKeys w)).
    set (script := PublishCrossSigningKeys env _ fresh).
    destruct (confined_run_UIAScript is_auth_call script (uiaCallback env cmd)
                (confined_uiaCallback env cmd) w2) as (l & Hl & HPl).
    pose proof (auth_calls_are_no_probes l HPl) as Hno.
    destruct (records_frame l w2) as (Hlog & _).
    unfold bind.
    destruct (run_UIAScript script (uiaCallback env cmd) w2) as [[e|] w3|w3];
      cbn [world_of] in Hl; subst w3.
    + exists ([EvGenerateCrossSigningKeys; EvPublishCrossSigningKeys fresh] ++ l
              ++ [EvReply ("Failed to publish cross-signing keys: " +:+ Error e)])%list.
      split.
      * cbn [world_of Reply call log record]. rewrite Hlog. subst w2. cbn [log record].
        now rewrite <- !app_assoc.
      * cbn [app existsb is_probe orb]. rewrite existsb_app, Hno. reflexivity.
    + exists ([EvGenerateCrossSigningKeys; EvPublishCrossSigningKeys fresh] ++ l)%list.
      split.
      * cbn [world_of set_CrossSigningKeys log]. rewrite Hlog. subst w2. cbn [log record].
        now rewrite <- !app_assoc.
      * cbn [app existsb is_probe orb]. exact Hno.
    + exists ([EvGenerateCrossSigningKeys; EvPublishCrossSigningKeys fresh] ++ l)%list.
      split.
      * cbn [world_of]. rewrite Hlog. subst w2. cbn [log record].
        now rewrite <- !app_assoc.
      * cbn [app existsb is_probe orb]. exact Hno.
Qed.

(** X25.  [cross-signing generate] is forced exactly when its next
    argument, lower-cased, is "--force".  A forced generate never asks the
    directory for the published keys; an unforced one asks exactly once,
    before anything else. *)
Theorem directory_probed_unless_forced env ToLower cmd w a0 rest :
  cmd_Args cmd = a0 :: rest ->
  ToLower a0 = "generate" ->
  let forced :=
    match rest with
    | a1 :: _ => String.eqb (ToLower a1) "--force"
    | [] => false
    end in
  let r := cmdCrossSigning env ToLower cmd w in
  r = cmdCrossSigningGenerate env cmd forced w
  /\ if forced then existsb is_probe (events_since w r) = false
     else exists tail,
            events_since w r = EvQueryKeys (client_UserID env) (client_DeviceID env) :: tail
            /\ existsb is_probe tail = false.
Proof.
  intros Hargs Hsub forced r.
  assert (Hr : r = cmdCrossSigningGenerate env cmd forced w).
  { subst r forced. unfold cmdCrossSigning, has_flag. rewrite Hargs.
    cbn [length Nat.eqb]. rewrite index_0, bind_ret, Hsub.
    destruct (String.eqb_spec "generate" "status") as [E|_]; [discriminate E|].
    rewrite String.eqb_refl.
    destruct rest as [|a1 rest']; cbn [length Nat.ltb Nat.leb].
    - now rewrite bind_ret.
    - unfold bind at 1. rewrite index_1, bind_ret. reflexivity. }
  split; [exact Hr|]. rewrite Hr. clear Hr r.
  destruct forced.
  - destruct (forced_generate_log_no_probe env cmd w) as (l & Hl & Hno).
    now rewrite (events_since_app _ _ _ Hl).
  - set (probe := EvQueryKeys (client_UserID env) (client_DeviceID env)).
    destruct (forced_generate_log_no_probe env cmd (record probe w)) as (l & Hl & Hno).
    unfold cmdCrossSigningGenerate at 1. unfold queryOwnKeys. cbn [negb].
    rewrite (bind_Done _ _ _ _ _ (call_run _ _ _)). fold probe.
    destruct (QueryKeys env (log w) (client_UserID env) (client_DeviceID env))
      as [keys [e|]].
    + exists l. split; [|exact Hno].
      apply events_since_app.
      change (log (world_of (cmdCrossSigningGenerate env cmd true (record probe w)))
              = (log w ++ probe :: l)%list).
      rewrite Hl. cbn [log record]. now rewrite <- app_assoc.
    + destruct keys as [k|].
      * rewrite bind_deref_Some.
        destruct (parseKeyResp k (client_UserID env)) as [[[m s] u] ok].
        destruct ok.
        -- eexists. split; [apply events_since_app; cbn; rewrite <- app_assoc; reflexivity|].
           reflexivity.
        -- exists l. split; [|exact Hno].
           apply events_since_app.
           change (log (world_of (cmdCrossSigningGenerate env cmd true (record probe w)))
                   = (log w ++ probe :: l)%list).
           rewrite Hl. cbn [log record]. now rewrite <- app_assoc.
      * exists []. split; [|reflexivity]. apply events_since_app. reflexivity.
Qed.

Lemma directory_probed_unless_forced_witness :
  existsb is_probe
    (events_since empty_session
       (cmdCrossSigning (directory_with published_two) ascii_lower
          (cross_signing_cmd ["generate"; "--FORCE"]) empty_session)) = false
  /\ exists tail,
       events_since empty_session
         (cmdCrossSigning (directory_with published_two) ascii_lower
            (cross_signing_cmd ["Generate"]) empty_session)
       = EvQueryKeys "@me:example.org" "LAPTOP" :: tail
       /\ existsb is_probe tail = false.
Proof.
  split.
  - exact (proj2 (directory_probed_unless_forced (directory_with published_two) ascii_lower
      (cross_signing_cmd ["generate"; "--FORCE"]) empty_session "generate" ["--FORCE"]
      eq_refl eq_refl)).
  - exact (proj2 (directory_probed_unless_forced (directory_with published_two) ascii_lower
      (cross_signing_cmd ["Generate"]) empty_session "Generate" [] eq_refl eq_refl)).
Defined.
